(** * bee-box: the word-archive fetcher (harvest.py) and enricher (builder.py)

    A shallow embedding of the two scripts and the properties of their
    derived fields, scrambler, chronological sort, latest-puzzle flag,
    idempotent append and brace-matching extraction.

    Text is modelled as [string] over [ascii]; the archives hold ASCII
    answer words and dates, and the Python builtins are modelled on that
    range (code points below 128). *)

From Stdlib Require Import String Ascii List Arith ZArith Bool Lia Permutation.
From Stdlib Require Import Sorting.Sorted DecimalString DecimalNat.
Import ListNotations.
Local Open Scope string_scope.
Local Open Scope list_scope.
Local Open Scope nat_scope.

Set Warnings "-register-all,-abstract-large-number".

(* ================================================================== *)
(** ** Python builtins on text *)
(* ================================================================== *)
Module Py.

(** [list(s)] and [''.join(chars)]. *)
Definition chars (s : string) : list ascii := list_ascii_of_string s.
Definition join (l : list ascii) : string := string_of_list_ascii l.

(** [c.upper()] on one ASCII character: a-z go to A-Z. *)
Definition upper_char (c : ascii) : ascii :=
  let n := nat_of_ascii c in
  if (97 <=? n) && (n <=? 122) then ascii_of_nat (n - 32) else c.

(** [s.upper()]. *)
Fixpoint upper (s : string) : string :=
  match s with
  | EmptyString => EmptyString
  | String c r => String (upper_char c) (upper r)
  end.

(** [c.isspace()] on the ASCII range: tab, newline, vertical tab, form
    feed, carriage return, the four separators 28-31 and the space. *)
Definition isspace (c : ascii) : bool :=
  let n := nat_of_ascii c in
  ((9 <=? n) && (n <=? 13)) || ((28 <=? n) && (n <=? 31)) || (n =? 32).

(** [s.lstrip()]. *)
Fixpoint lstrip (s : string) : string :=
  match s with
  | EmptyString => EmptyString
  | String c r => if isspace c then lstrip r else s
  end.

(** [s.rstrip()]: drop the trailing run of whitespace. *)
Fixpoint rstrip (s : string) : string :=
  match s with
  | EmptyString => EmptyString
  | String c r =>
      match rstrip r with
      | EmptyString => if isspace c then EmptyString else String c EmptyString
      | r' => String c r'
      end
  end.

(** [s.strip()]. *)
Definition strip (s : string) : string := rstrip (lstrip s).

(** [s[:n]]: the slice clamps at the end of the text. *)
Fixpoint take (n : nat) (s : string) : string :=
  match n, s with
  | S n', String c r => String c (take n' r)
  | _, _ => EmptyString
  end.

(** [s[::-1]]. *)
Definition reversed (s : string) : string := join (rev (chars s)).

(** [str(n)] for a non-negative integer. *)
Definition str (n : nat) : string := NilEmpty.string_of_uint (Nat.to_uint n).

(** The number a decimal text denotes. *)
Definition decimal_value (s : string) : option nat :=
  option_map Nat.of_uint (NilEmpty.uint_of_string s).

(** [len(s)]. *)
Definition len (s : string) : nat := String.length s.

(** [all(c.isspace() for c in s)]. *)
Fixpoint all_space (s : string) : bool :=
  match s with
  | EmptyString => true
  | String c r => isspace c && all_space r
  end.

End Py.

(* ================================================================== *)
(** ** The random module *)
(* ================================================================== *)
Module Random.

(** The generator is a stream of raw draws [rng : nat -> nat] read at a
    cursor; a computation takes the cursor and returns its result with
    the advanced cursor.  Every sequence of outcomes of [randbelow] is
    the reading of some stream. *)
Definition Rand (A : Type) : Type := nat -> A * nat.

Definition ret {A} (a : A) : Rand A := fun k => (a, k).
Definition bind {A B} (m : Rand A) (f : A -> Rand B) : Rand B :=
  fun k => let (a, k') := m k in f a k'.

Section Generator.
Variable rng : nat -> nat.

(** [randbelow(n)]: a value in [0, n). *)
Definition randbelow (n : nat) : Rand nat :=
  fun k => (rng k mod n, S k).

Section Shuffle.
Context {A : Type}.

(** [x[i] = v] on a list (in range wherever [shuffle] calls it). *)
Fixpoint setitem (i : nat) (v : A) (x : list A) : list A :=
  match x, i with
  | [], _ => []
  | _ :: t, 0 => v :: t
  | h :: t, S i' => h :: setitem i' v t
  end.

(** [x[i], x[j] = x[j], x[i]]: both reads happen before the writes. *)
Definition swap (i j : nat) (x : list A) : list A :=
  match nth_error x j, nth_error x i with
  | Some xj, Some xi => setitem j xi (setitem i xj x)
  | _, _ => x
  end.

(** The loop of [random.shuffle]:
    [for i in reversed(range(1, len(x))): j = randbelow(i + 1); swap]. *)
Fixpoint shuffle_from (i : nat) (x : list A) : Rand (list A) :=
  match i with
  | 0 => ret x
  | S i' => bind (randbelow (S i)) (fun j => shuffle_from i' (swap i j x))
  end.

Definition shuffle (x : list A) : Rand (list A) :=
  shuffle_from (length x - 1) x.
End Shuffle.
End Generator.

End Random.

(* ================================================================== *)
(** ** builder.py: the word scrambler *)
(* ================================================================== *)
Module Scrambler.
Import Random.

Section WithGenerator.
Variable rng : nat -> nat.

(** The [while scrambled == word and attempts < 10] loop; [left] is
    [10 - attempts]. *)
Fixpoint scramble_loop (word scrambled : string) (left : nat) : Rand string :=
  match left with
  | 0 => ret scrambled
  | S left' =>
      if String.eqb scrambled word then
        bind (shuffle rng (Py.chars word))
             (fun cs => scramble_loop word (Py.join cs) left')
      else ret scrambled
  end.

(** What the [i]-th pass of the loop shuffles the word into, in a run
    that starts at cursor [k]: a shuffle of [n] characters reads [n - 1]
    draws. *)
Definition attempt (word : string) (k i : nat) : string :=
Py.join (fst (shuffle rng (Py.chars word) (k + i * (Py.len word - 1)))).

Definition scramble_word (word : string) : Rand string :=
  let word := Py.upper word in
  if Py.len word <=? 1 then ret word
  else
    bind (scramble_loop word word 10)
         (fun scrambled =>
            ret (if String.eqb scrambled word then Py.reversed word
                 else scrambled)).
End WithGenerator.

(** The letters of a text are not all the same character: it has two
    arrangements or more. *)
Definition not_all_identical (s : string) : Prop :=
  exists c d, In c (Py.chars s) /\ In d (Py.chars s) /\ c <> d.

End Scrambler.

(* ================================================================== *)
(** ** xml.etree.ElementTree *)
(* ================================================================== *)
Module ET.

(** A Python dict with text keys, in insertion order (the order in which
    ElementTree serialises attributes). *)
Definition dict (V : Type) : Type := list (string * V).

Section Dict.
Context {V : Type}.

(** [d.get(k)]. *)
Fixpoint dict_get (d : dict V) (k : string) : option V :=
  match d with
  | [] => None
  | (k', v) :: r => if String.eqb k' k then Some v else dict_get r k
  end.

(** [d[k] = v]: overwrite in place, or add at the end. *)
Fixpoint dict_set (d : dict V) (k : string) (v : V) : dict V :=
  match d with
  | [] => [(k, v)]
  | (k', v') :: r =>
      if String.eqb k' k then (k', v) :: r else (k', v') :: dict_set r k v
  end.

(** [d.pop(k, None)], the dict that is left. *)
Fixpoint dict_pop (d : dict V) (k : string) : dict V :=
  match d with
  | [] => []
  | (k', v') :: r =>
      if String.eqb k' k then dict_pop r k else (k', v') :: dict_pop r k
  end.
End Dict.

(** An element: tag, attributes, text, tail and the child elements. *)
Inductive Element : Type :=
  mkElement (tag : string) (attrib : dict string)
            (text tail : option string) (children : list Element).

Definition tag (e : Element) := let (t, _, _, _, _) := e in t.
Definition attrib (e : Element) := let (_, a, _, _, _) := e in a.
Definition text (e : Element) := let (_, _, x, _, _) := e in x.
Definition tail (e : Element) := let (_, _, _, x, _) := e in x.
Definition children (e : Element) := let (_, _, _, _, c) := e in c.

Definition with_attrib (a : dict string) (e : Element) : Element :=
  mkElement (tag e) a (text e) (tail e) (children e).
Definition with_text (x : option string) (e : Element) : Element :=
  mkElement (tag e) (attrib e) x (tail e) (children e).
Definition with_tail (x : option string) (e : Element) : Element :=
  mkElement (tag e) (attrib e) (text e) x (children e).
Definition with_children (c : list Element) (e : Element) : Element :=
  mkElement (tag e) (attrib e) (text e) (tail e) c.

(** [ET.Element(tag, attrib)]: no text, no tail, no children. *)
Definition new (t : string) (a : dict string) : Element :=
  mkElement t a None None [].

(** [ET.SubElement(parent, tag, attrib)] adds the new element after the
    children the parent has; the parent that results is returned. *)
Definition append (parent child : Element) : Element :=
  with_children (children parent ++ [child]) parent.

(** [e.get(k)] and [e.get(k, default)]. *)
Definition get (e : Element) (k : string) : option string :=
  dict_get (attrib e) k.
Definition get_or (e : Element) (k default : string) : string :=
  match get e k with Some v => v | None => default end.

(** [e.set(k, v)] and [e.attrib.pop(k, None)]. *)
Definition set (e : Element) (k v : string) : Element :=
  with_attrib (dict_set (attrib e) k v) e.
Definition pop (e : Element) (k : string) : Element :=
  with_attrib (dict_pop (attrib e) k) e.

(** [e.findall(t)]: the direct children with tag [t], in document order;
    [e.find(t)]: the first of them. *)
Definition findall (e : Element) (t : string) : list Element :=
  filter (fun c => String.eqb (tag c) t) (children e).
Definition find (e : Element) (t : string) : option Element :=
  hd_error (findall e t).

(** ["  " * n]. *)
Fixpoint spaces (n : nat) : string :=
  match n with 0 => "" | S n' => ("  " ++ spaces n')%string end.

Definition newline : string := String (ascii_of_nat 10) "".

(** [not t or not t.strip()]. *)
Definition blank (t : option string) : bool :=
  match t with
  | None => true
  | Some s => String.eqb s "" || String.eqb (Py.strip s) ""
  end.

(** [indent(elem, level)], the pretty-printer both scripts define: it
    rewrites whitespace-only text and tails, and every child's tail. *)
Fixpoint indent (level : nat) (elem : Element) : Element :=
  let i := (newline ++ spaces level)%string in
  let j := (newline ++ spaces (S level))%string in
  match elem with
  | mkElement t a x tl [] =>
      let x' := if blank x then Some "" else x in
      let tl' := if blank tl then Some i else tl in
      mkElement t a x' tl' []
  | mkElement t a x tl cs =>
      let x' := if blank x then Some j else x in
      let fix each (cs : list Element) : list Element :=
        match cs with
        | [] => []
        | [c] => [with_tail (Some i) (indent (S level) c)]
        | c :: rest => with_tail (Some j) (indent (S level) c) :: each rest
        end in
      mkElement t a x' tl (each cs)
  end.

(** The [for idx, child in enumerate(elem)] loop of [indent] on its own:
    what becomes of the children of an element at [level]. *)
Fixpoint indent_children (level : nat) (cs : list Element) : list Element :=
  match cs with
  | [] => []
  | [c] => [with_tail (Some (newline ++ spaces level)%string) (indent (S level) c)]
  | c :: rest =>
      with_tail (Some (newline ++ spaces (S level))%string) (indent (S level) c)
        :: indent_children level rest
  end.

End ET.
(* ================================================================== *)
(** ** datetime: strptime, strftime, ordering *)
(* ================================================================== *)
Module Datetime.

(** A [datetime]; both scripts only build midnights, so the time of day
    (always 00:00:00) is left out. *)
Record datetime : Type := mkdt { year : nat; month : nat; day : nat }.

(** [datetime.min]. *)
Definition min : datetime := mkdt 1 1 1.

Definition is_leap (y : nat) : bool :=
  (y mod 4 =? 0) && (negb (y mod 100 =? 0) || (y mod 400 =? 0)).

Definition days_in_month (y m : nat) : nat :=
  match m with
  | 2 => if is_leap y then 29 else 28
  | 4 | 6 | 9 | 11 => 30
  | _ => 31
  end.

(** The range check of the [datetime] constructor. *)
Definition valid (y m d : nat) : bool :=
  (1 <=? y) && (y <=? 9999) && (1 <=? m) && (m <=? 12) &&
  (1 <=? d) && (d <=? days_in_month y m).

(** [a < b] and [a <= b]: year, then month, then day. *)
Definition ltb (a b : datetime) : bool :=
  (year a <? year b) ||
  ((year a =? year b) &&
   ((month a <? month b) || ((month a =? month b) && (day a <? day b)))).
Definition leb (a b : datetime) : bool := negb (ltb b a).

(** The order [ltb] decides: year, month, day, lexicographically. *)
Definition before_date (a b : datetime) : Prop :=
  year a < year b \/
  (year a = year b /\
   (month a < month b \/ (month a = month b /\ day a < day b))).

Definition month_names : list string :=
  ["January"; "February"; "March"; "April"; "May"; "June"; "July";
   "August"; "September"; "October"; "November"; "December"].

(** *** The regular expression strptime builds from a format

    A matcher returns every way to match a prefix, best first, each with
    the value read and the rest of the text; [re.match] takes the first
    complete one. *)
Definition matcher (A : Type) : Type := string -> list (A * string).

Definition seq {A B} (p : matcher A) (f : A -> matcher B) : matcher B :=
  fun s => flat_map (fun '(a, r) => f a r) (p s).
Definition alt {A} (p q : matcher A) : matcher A := fun s => p s ++ q s.
Definition yield {A} (a : A) : matcher A := fun s => [(a, s)].

(** One character satisfying [f], read as [v c]. *)
Definition one {A} (f : ascii -> bool) (v : ascii -> A) : matcher A :=
  fun s => match s with
           | String c r => if f c then [(v c, r)] else []
           | EmptyString => []
           end.

Definition digit_val (c : ascii) : nat := nat_of_ascii c - 48.
Definition in_range (lo hi : nat) (c : ascii) : bool :=
  (lo <=? nat_of_ascii c) && (nat_of_ascii c <=? hi).

(** [[a-b]] on digits, both ends given as digits. *)
Definition digits (a b : nat) : matcher nat :=
  one (in_range (48 + a) (48 + b)) digit_val.
(** A literal character. *)
Definition lit (c : ascii) : matcher unit :=
  one (Ascii.eqb c) (fun _ => tt).

(** Two digit classes in a row, read as a two-digit number. *)
Definition two (a b c d : nat) : matcher nat :=
  seq (digits a b) (fun x => seq (digits c d) (fun y => yield (10 * x + y))).

(** [%Y]: [\d\d\d\d]. *)
Definition re_Y : matcher nat :=
  seq (two 0 9 0 9) (fun hi => seq (two 0 9 0 9) (fun lo => yield (100 * hi + lo))).

(** [%m]: [1[0-2]|0[1-9]|[1-9]]. *)
Definition re_m : matcher nat :=
  alt (two 1 1 0 2) (alt (two 0 0 1 9) (digits 1 9)).

(** [%d]: [3[0-1]|[1-2]\d|0[1-9]|[1-9]| [1-9]]. *)
Definition re_d : matcher nat :=
  alt (two 3 3 0 1)
   (alt (two 1 2 0 9)
     (alt (two 0 0 1 9)
       (alt (digits 1 9)
            (seq (lit " ") (fun _ => digits 1 9))))).

(** [\s+], greedy: the longest run first, then each shorter one. *)
Fixpoint re_spaces_from (s : string) : list (unit * string) :=
  match s with
  | String c r => if Py.isspace c then re_spaces_from r ++ [(tt, r)] else []
  | EmptyString => []
  end.
Definition re_spaces : matcher unit := re_spaces_from.

Definition lower_char (c : ascii) : ascii :=
  let n := nat_of_ascii c in
  if (65 <=? n) && (n <=? 90) then ascii_of_nat (n + 32) else c.

(** A literal word, letter case ignored. *)
Fixpoint word_nocase (w : string) : matcher unit :=
  match w with
  | EmptyString => yield tt
  | String c r =>
      seq (one (fun x => Ascii.eqb (lower_char x) (lower_char c)) (fun _ => tt))
          (fun _ => word_nocase r)
  end.

(** [%B]: the month names of the C locale, any letter case; the value
    is the month number.  No name starts another, so the order of the
    alternatives does not show. *)
Fixpoint re_B_from (n : nat) (names : list string) : matcher nat :=
  match names with
  | [] => fun _ => []
  | w :: r => alt (seq (word_nocase w) (fun _ => yield n)) (re_B_from (S n) r)
  end.
Definition re_B : matcher nat := re_B_from 1 month_names.

(** [re.match], the check that no text is left over, and the range
    check of the constructor; [None] stands for the [ValueError]. *)
Definition finish (found : list (datetime * string)) : option datetime :=
  match found with
  | (dt, EmptyString) :: _ =>
      if valid (year dt) (month dt) (day dt) then Some dt else None
  | _ => None
  end.

(** [datetime.strptime(s, "%Y-%m-%d")]. *)
Definition strptime_iso (s : string) : option datetime :=
  finish
    (seq re_Y (fun y =>
     seq (lit "-") (fun _ =>
     seq re_m (fun m =>
     seq (lit "-") (fun _ =>
     seq re_d (fun d => yield (mkdt y m d)))))) s).

(** [datetime.strptime(s, "%B %d, %Y")]; the blanks of the format
    become [\s+]. *)
Definition strptime_long (s : string) : option datetime :=
  finish
    (seq re_B (fun m =>
     seq re_spaces (fun _ =>
     seq re_d (fun d =>
     seq (lit ",") (fun _ =>
     seq re_spaces (fun _ =>
     seq re_Y (fun y => yield (mkdt y m d))))))) s).

(** [%d] of strftime: two digits. *)
Definition pad2 (n : nat) : string :=
  if (n <? 10)%nat then ("0" ++ Py.str n)%string else Py.str n.

(** [%Y] of strftime is the platform's: [year_plain] is the year
    unpadded, as CPython writes it with glibc, and [year_pad4] the year
    in four digits, as the documentation shows it; from the year 1000
    on the two agree. *)
Definition year_pad4 (y : nat) : string :=
  ((if (y <? 10)%nat then "000" else if (y <? 100)%nat then "00"
    else if (y <? 1000)%nat then "0" else "") ++ Py.str y)%string.
Definition year_plain (y : nat) : string := Py.str y.

Section Strftime.
(** The platform's rendering of [%Y]. *)
Variable year_text : nat -> string.

(** [dt.strftime("%B %d, %Y")]. *)
Definition strftime_long (dt : datetime) : string :=
  (nth (month dt - 1) month_names "" ++ " " ++ pad2 (day dt) ++ ", "
     ++ year_text (year dt))%string.
End Strftime.

End Datetime.

(* ================================================================== *)
(** ** The builtin [sorted] *)
(* ================================================================== *)
Module Builtins.

Section Sorted.
Context {A K : Type}.
Variable key : A -> K.
Variable lt : K -> K -> bool.

(** Place [x], which came before every item of [l], in the sorted [l]:
    after the items whose key is smaller, before the first whose key
    is not. *)
Fixpoint insort (x : A) (l : list A) : list A :=
  match l with
  | [] => [x]
  | y :: t => if lt (key y) (key x) then y :: insort x t else x :: y :: t
  end.

(** [sorted(l, key=key)]: ascending by key, compared with [<] only;
    items with equal keys keep their order. *)
Definition sorted (l : list A) : list A := fold_right insort [] l.

(** [x <= y] on keys, read off [<]: not [y < x]. *)
Definition le_key (x y : A) : Prop := lt (key y) (key x) = false.
End Sorted.

(** [a] stands somewhere before an occurrence of [b] in the list. *)
Inductive before {A : Type} (a b : A) : list A -> Prop :=
| before_here l : In b l -> before a b (a :: l)
| before_later c l : before a b l -> before a b (c :: l).

(** [for x in l: ...] with an effect on the generator, collecting the
    results in order. *)
Fixpoint for_each {A B} (f : A -> Random.Rand B) (l : list A)
  : Random.Rand (list B) :=
  match l with
  | [] => Random.ret []
  | x :: t =>
      Random.bind (f x) (fun y =>
      Random.bind (for_each f t) (fun ys => Random.ret (y :: ys)))
  end.

End Builtins.

(* ================================================================== *)
(** ** builder.py *)
(* ================================================================== *)
Module Builder.
Import ET Random.

(** What a run leaves behind: the tree written to [xml/beesplus.xml]
    ([None] when nothing is written) and the line printed. *)
Record outcome : Type := mkOutcome { written : option Element; printed : string }.

Section Enricher.
(** The platform's [%Y] and the generator behind [random.shuffle]. *)
Variable year_text : nat -> string.
Variable rng : nat -> nat.

(** Lines 83-88: the date in long form, or as it is when it is not an
    ISO date. *)
Definition reformat (date_str : string) : string :=
  match Datetime.strptime_iso date_str with
  | Some dt => Datetime.strftime_long year_text dt
  | None => date_str
  end.

(** Lines 100-105: one of [letter1] .. [letter7], when the puzzle has it
    with a text. *)
Definition copy_letter (puzzle : Element) (i : nat) : list Element :=
  let tag := ("letter" ++ Py.str i)%string in
  match find puzzle tag with
  | Some orig =>
      match text orig with
      | Some t => if String.eqb t "" then [] else [with_text (Some t) (new tag [])]
      | None => []
      end
  | None => []
  end.

(** Lines 110-121: the attributes of one word. *)
Definition word_attrs (w : Element) : Rand (dict string) :=
  let txt := Py.strip (Py.upper (match text w with Some t => t | None => "" end)) in
  let start := Py.take 1 txt in
  let firsttwo := Py.take 2 txt in
  let length := Py.str (Py.len txt) in
  bind (Scrambler.scramble_word rng txt) (fun scrambled =>
  ret [("original", txt); ("scrambled", scrambled); ("startletter", start);
       ("firsttwo", firsttwo); ("length", length)]).

Definition word_element (w : Element) : Rand Element :=
  bind (word_attrs w) (fun a => ret (new "word" a)).

(** Lines 82-123: the enriched puzzle for one source puzzle. *)
Definition transform (puzzle : Element) : Rand Element :=
  let attrs := [("date", reformat (get_or puzzle "date" ""));
                ("url", get_or puzzle "url" "");
                ("puzzleid", get_or puzzle "puzzleid" "");
                ("letters", get_or puzzle "letters" "")] in
  let letters := flat_map (copy_letter puzzle) (List.seq 1 7) in
  bind (Builtins.for_each word_element (findall puzzle "word")) (fun words =>
  ret (mkElement "puzzle" attrs None None
         (letters ++ [mkElement "words" [] None None words]))).

(** Lines 126-131. *)
Definition iso_key (p : Element) : Datetime.datetime :=
  match Datetime.strptime_long (get_or p "date" "") with
  | Some dt => dt
  | None => Datetime.min
  end.

(** The display date of a record can be parsed back. *)
Definition parses (p : Element) : Prop :=
Datetime.strptime_long (get_or p "date" "") <> None.

(** No record whose display date parses stands before one whose display
    date does not. *)
Definition unparseable_first (recs : list Element) : Prop :=
forall p q, Builtins.before q p recs -> parses q -> ~ parses p -> False.

(** [l[-1] = f(l[-1])] on a list that has a last item. *)
Fixpoint on_last {A} (f : A -> A) (l : list A) : list A :=
  match l with
  | [] => []
  | [x] => [f x]
  | x :: t => x :: on_last f t
  end.

(** Lines 135-138. *)
Definition mark_latest (ps : list Element) : list Element :=
  match ps with
  | [] => []
  | _ => on_last (fun p => set p "subscribersonly" "yes")
                 (map (fun p => pop p "subscribersonly") ps)
  end.

(** [build_beeplus()], given what [xml/bees.xml] holds ([None]: there is
    no such file). *)
Definition build_beeplus (input : option Element) : Rand outcome :=
  match input with
  | None => ret (mkOutcome None "❌ Source file xml/bees.xml not found.")
  | Some root =>
      bind (Builtins.for_each transform (findall root "puzzle")) (fun puzzles =>
      let plus_root := mkElement "bees" [] None None puzzles in
      let plus_root :=
        with_children (Builtins.sorted iso_key Datetime.ltb (children plus_root))
                      plus_root in
      let plus_root := with_children (mark_latest (children plus_root)) plus_root in
      ret (mkOutcome (Some (indent 0 plus_root)) "✅ 'xml/beesplus.xml' created."))
  end.

(** The enriched puzzles in source order, as they are before line 132. *)
Definition transformed (root : Element) (k : nat) : list Element :=
  fst (Builtins.for_each transform (findall root "puzzle") k).

(** [p] is what is written for the enriched puzzle [x]: [x] with the
    flag popped, set again or not, indented below the root. *)
Definition written_as (x p : Element) : Prop :=
  exists (flagged : bool) (tl : option string),
    let x0 := pop x "subscribersonly" in
    p = with_tail tl (indent 1 (if flagged then set x0 "subscribersonly" "yes"
                                else x0)).

(** [p] is the written record of the source puzzle [s]. *)
Definition record_of (s p : Element) : Prop :=
  exists k, written_as (fst (transform s k)) p.

(** The puzzle records of the written archive, in order. *)
Definition records (input : option Element) (k : nat) : list Element :=
  match written (fst (build_beeplus input k)) with
  | Some out => children out
  | None => []
  end.
End Enricher.

End Builder.
(* ================================================================== *)
(** ** Python indices, exceptions and JSON values *)
(* ================================================================== *)
Module PyZ.
Local Open Scope Z_scope.

(** [s[i]] with Python's negative indices; [None] is the [IndexError]. *)
Definition getitem (s : string) (i : Z) : option ascii :=
  let n := Z.of_nat (Py.len s) in
  let i := if i <? 0 then i + n else i in
  if (0 <=? i) && (i <? n) then String.get (Z.to_nat i) s else None.

(** [s[a:b]]: negative bounds count from the end, all bounds clamp. *)
Definition slice (s : string) (a b : Z) : string :=
  let n := Z.of_nat (Py.len s) in
  let norm x := if x <? 0 then Z.max 0 (x + n) else Z.min x n in
  String.substring (Z.to_nat (norm a)) (Z.to_nat (norm b - norm a)) s.

(** [s.find(sub)]: the first position of [sub], or -1. *)
Definition find (s sub : string) : Z :=
  match String.index 0 sub s with
  | Some n => Z.of_nat n
  | None => -1
  end.

(** [sub in s]. *)
Definition contains (sub s : string) : bool :=
  match String.index 0 sub s with Some _ => true | None => false end.

(** [range(a, b)]. *)
Definition range (a b : Z) : list Z :=
  map (fun k => a + Z.of_nat k) (List.seq 0 (Z.to_nat (b - a))).

End PyZ.

Module Harvest.
Import ET.

Inductive exn : Type :=
| ConnectionError
| HTTPError (status : nat)
| RuntimeError (msg : string)
| JSONDecodeError
| UnboundLocalError
| IndexError
| AttributeError
| TypeError.

Inductive result (A : Type) : Type :=
| Ok (a : A)
| Raise (e : exn).
Arguments Ok {A} a.
Arguments Raise {A} e.

(** What [json.loads] returns. *)
Inductive json : Type :=
| JNull
| JBool (b : bool)
| JNum (literal : string)
| JStr (s : string)
| JArr (items : list json)
| JObj (members : dict json).

(** What [requests.get] comes back with: no response at all, or a
    status and a body. *)
Inductive response : Type :=
| Unreachable
| Response (status : nat) (text : string).

(** The world a run acts on: what [xml/words.xml] holds ([None]: no such
    file; a file is identified with the tree it serialises), how many
    requests have gone out, and the lines printed. *)
Record world : Type :=
  mkWorld { xml_file : option Element; requests : nat; stdout : list string }.

(** A step of a run: a result or an exception, and the world after. *)
Definition run (A : Type) : Type := world -> result A * world.

Definition ret {A} (a : A) : run A := fun w => (Ok a, w).
Definition raise {A} (e : exn) : run A := fun w => (Raise e, w).
Definition bind {A B} (m : run A) (f : A -> run B) : run B :=
  fun w => match m w with
           | (Ok a, w') => f a w'
           | (Raise e, w') => (Raise e, w')
           end.

Notation "x <- m ;; k" := (bind m (fun x => k))
  (at level 61, m at next level, right associativity).
Notation "m ;;; k" := (bind m (fun _ => k))
  (at level 61, right associativity).

(** [print(line)]. *)
Definition print (line : string) : run unit :=
  fun w => (Ok tt, mkWorld (xml_file w) (requests w) (stdout w ++ [line])).

(** Lines 24-29; the set is kept as the list of its members. *)
Definition load_existing_dates : run (list (option string)) :=
  fun w => match xml_file w with
           | None => (Ok [], w)
           | Some root => (Ok (map (fun p => get p "date") (findall root "puzzle")), w)
           end.

(** [date_str in existing]. *)
Definition member (date_str : string) (existing : list (option string)) : bool :=
  existsb (fun o => match o with
                    | Some d => String.eqb d date_str
                    | None => false
                    end) existing.

(** One step of the loop of lines 47-54 on the character [c]. *)
Definition step (c : ascii) (count : Z) : Z :=
  if Ascii.eqb c "{" then (count + 1)%Z
  else if Ascii.eqb c "}" then (count - 1)%Z
  else count.

(** Lines 47-54 over the indices still to visit: [Ok (Some json_str)] at
    the [break], [Ok None] when the loop ends and [json_str] was never
    bound. *)
Fixpoint scan (script : string) (start : Z) (indices : list Z) (count : Z)
  : result (option string) :=
  match indices with
  | [] => Ok None
  | i :: rest =>
      match PyZ.getitem script i with
      | None => Raise IndexError
      | Some c =>
          let count := step c count in
          if (count =? 0)%Z then Ok (Some (PyZ.slice script start (i + 1)))
          else scan script start rest count
      end
  end.

(** Lines 45-54: the text handed to [json.loads]. *)
Definition extract (script : string) : result (option string) :=
  let start := PyZ.find script "{" in
  scan script start (PyZ.range start (Z.of_nat (Py.len script))) 0%Z.

(** [d.get(k, default)] on a JSON value; only objects have [get]. *)
Definition json_get (v : json) (k : string) (default : json) : result json :=
  match v with
  | JObj members =>
      Ok (match dict_get members k with Some x => x | None => default end)
  | _ => Raise AttributeError
  end.

(** [[w.upper() for w in answers]]: a list gives its items, which must
    be texts; a text gives its characters, an object its keys. *)
Fixpoint upper_all (items : list json) : result (list string) :=
  match items with
  | [] => Ok []
  | JStr s :: rest =>
      match upper_all rest with
      | Ok l => Ok (Py.upper s :: l)
      | Raise e => Raise e
      end
  | _ :: _ => Raise AttributeError
  end.

Definition uppercase_answers (answers : json) : result (list string) :=
  match answers with
  | JArr items => upper_all items
  | JStr s => Ok (map (fun c => Py.upper (String c "")) (Py.chars s))
  | JObj members => Ok (map (fun kv => Py.upper (fst kv)) members)
  | _ => Raise TypeError
  end.

Definition lift {A} (r : result A) : run A := fun w => (r, w).

Section Fetcher.
(** The site, the HTML parser and the JSON parser: the response to the
    n-th request, the [.string] of each script element of a page in
    document order, and the value of a JSON text ([None]: not JSON). *)
Variable http_get : nat -> response.
Variable script_strings : string -> list (option string).
Variable json_loads : string -> option json.

(** [requests.get(NYT_URL, ...)] and [resp.raise_for_status()]. *)
Definition get_page : run string :=
  fun w =>
    let w' := mkWorld (xml_file w) (S (requests w)) (stdout w) in
    match http_get (requests w) with
    | Unreachable => (Raise ConnectionError, w')
    | Response status text =>
        if (400 <=? status) && (status <? 600) then (Raise (HTTPError status), w')
        else (Ok text, w')
    end.

(** Lines 37-41: the first script with a text that holds the marker. *)
Fixpoint first_script (scripts : list (option string)) : option string :=
  match scripts with
  | [] => None
  | Some s :: rest =>
      if negb (String.eqb s "") && PyZ.contains "window.gameData" s then Some s
      else first_script rest
  | None :: rest => first_script rest
  end.

(** Lines 32-58. *)
Definition fetch_today_words : run (list string) :=
  text <- get_page ;;
  match first_script (script_strings text) with
  | None => raise (RuntimeError "Cannot find gameData in page")
  | Some script =>
      if String.eqb script "" then raise (RuntimeError "Cannot find gameData in page")
      else
        found <- lift (extract script) ;;
        match found with
        | None => raise UnboundLocalError
        | Some json_str =>
            match json_loads json_str with
            | None => raise JSONDecodeError
            | Some data =>
                today <- lift (json_get data "today" (JObj [])) ;;
                answers <- lift (json_get today "answers" (JArr [])) ;;
                lift (uppercase_answers answers)
            end
        end
  end.

(** Lines 77-96. *)
Definition append_puzzle (date_str : string) (words : list string) : run unit :=
  fun w =>
    let root := match xml_file w with
                | Some root => root
                | None => new "spelling_bees" []
                end in
    let puzzle_el :=
      mkElement "puzzle" [("date", date_str)] None None
                (map (fun t => mkElement "word" [] (Some t) None []) words) in
    let root := append root puzzle_el in
    (Ok tt, mkWorld (Some (indent 0 root)) (requests w) (stdout w)).

(** Lines 99-112, for the day [date_str]. *)
Definition main (date_str : string) : run unit :=
  existing <- load_existing_dates ;;
  if member date_str existing then
    print ("Puzzle for " ++ date_str ++ " already exists. No action taken.")%string
  else
    words <- fetch_today_words ;;
    match words with
    | [] => print ("No words fetched for " ++ date_str ++ ".")%string
    | _ =>
        append_puzzle date_str words ;;;
        print ("Appended puzzle for " ++ date_str ++ " with "
                 ++ Py.str (length words) ++ " words.")%string
    end.
End Fetcher.

(** The number of puzzle records for the day [d] in the archive. *)
Definition count_date (d : string) (w : world) : nat :=
  match xml_file w with
  | None => 0
  | Some root =>
      length (filter (fun p => match get p "date" with
                               | Some x => String.eqb x d
                               | None => false
                               end) (findall root "puzzle"))
  end.

(** A child of the root is a puzzle record for the day [d]. *)
Definition is_puzzle_of (d : string) (c : Element) : bool :=
  String.eqb (tag c) "puzzle" &&
  match get c "date" with Some x => String.eqb x d | None => false end.

(** A puzzle record for the day [d] is present. *)
Definition present (d : string) (w : world) : Prop :=
  exists root p,
    xml_file w = Some root /\ In p (findall root "puzzle") /\ get p "date" = Some d.

(** The brace depth of a text. *)
Fixpoint depth (s : string) : Z :=
  match s with
  | EmptyString => 0%Z
  | String c r => (step c 0 + depth r)%Z
  end.

(** The loop of lines 47-54 read on the text still ahead: after how many
    characters the depth, now [count], first comes to zero. *)
Fixpoint closing (s : string) (count : Z) : option nat :=
  match s with
  | EmptyString => None
  | String c r =>
      let count := step c count in
      if (count =? 0)%Z then Some 1 else option_map S (closing r count)
  end.

(** Brace-balanced: the depth ends at zero and is never negative on the
    way. *)
Definition balanced (s : string) : Prop :=
  depth s = 0%Z /\
  forall p q, s = (p ++ q)%string -> (0 <= depth p)%Z.

End Harvest.
(* ================================================================== *)
(** ** What the pretty-printer keeps *)
(* ================================================================== *)
Module Layout.
Import ET.

(** What a reader of the file takes from an element once whitespace is
    set aside: tag, attributes, the text unless it is blank, and the
    same of the children; tails are left out. *)
Fixpoint content (e : Element) : Element :=
  match e with
  | mkElement t a x _ cs =>
      mkElement t a (if blank x then None else x) None (map content cs)
  end.

(** The tail [indent] gives the child at position [idx] of [n] children
    of an element at [level]. *)
Definition child_tail (level n idx : nat) : string :=
  (newline ++ spaces (if (idx <? n - 1)%nat then S level else level))%string.

End Layout.

(* ================================================================== *)
(** ** Decimal digits and the pieces of a long-form date *)
(* ================================================================== *)
Module Digits.

(** The character of the decimal digit [d]. *)
Definition digit_char (d : nat) : ascii := ascii_of_nat (48 + d).

End Digits.

Module RoundTrip.
Import Datetime.

(** The day of the month and the comma after it, as [strptime] reads
    them after the month. *)
Definition re_day_comma : matcher nat :=
  seq re_spaces (fun _ => seq re_d (fun x => seq (lit ",") (fun _ => yield x))).

End RoundTrip.

(* ================================================================== *)
(** ** What a puzzle record is made of *)
(* ================================================================== *)
Module Records.
Import ET.

(** Line 103: the puzzle has an element [letter<i>] whose text is not
    empty (the first such element is the one looked at). *)
Definition has_letter (puzzle : Element) (i : nat) : bool :=
  match find puzzle ("letter" ++ Py.str i)%string with
  | Some orig =>
      match text orig with
      | Some t => negb (String.eqb t "")
      | None => false
      end
  | None => false
  end.

(** The text of the first [letter<i>] element of a puzzle, when it is
    not blank. *)
Definition letter_text (puzzle : Element) (i : nat) : option string :=
  match find puzzle ("letter" ++ Py.str i)%string with
  | Some orig => if blank (text orig) then None else text orig
  | None => None
  end.

(** The attributes a puzzle record is given from its source puzzle. *)
Definition copied : list string := ["date"; "url"; "puzzleid"; "letters"].

End Records.


(* ================================================================== *)
(** ** Sample archives *)
(* ================================================================== *)
Module Samples.
Import ET.

(** [<word>t</word>] and [<puzzle date="d">] with its words. *)
Definition word (t : string) : Element := mkElement "word" [] (Some t) None [].
Definition puzzle (d : string) (ws : list string) : Element :=
  mkElement "puzzle" [("date", d)] None None (map word ws).
Definition archive (ps : list Element) : Element :=
  mkElement "spelling_bees" [] None None ps.

(** The three dates of the specification's example, out of order. *)
Definition three_dates : Element :=
  archive [puzzle "2024-01-05" ["sky"]; puzzle "2024-03-01" ["noon"];
           puzzle "2024-02-10" []].

(** A display date that parses to [datetime.min], then one that does not
    parse. *)
Definition min_then_bad : Element :=
  archive [puzzle "January 01, 0001" []; puzzle "oops" []].

(** A date that does not parse between two that do. *)
Definition bad_between : Element :=
  archive [puzzle "2024-03-01" []; puzzle "oops" []; puzzle "2024-01-05" []].

(** A generator whose every draw is the position itself. *)
Definition counting : nat -> nat := fun k => k.

(** The record written for the puzzle of 2024-01-05, its [words]
    element and the word record in it. *)
Definition sky_puzzle : Element :=
  Eval vm_compute in
    nth 0 (Builder.records Datetime.year_pad4 counting (Some three_dates) 0)
        (new "" []).
Definition sky_words : Element :=
  Eval vm_compute in nth 0 (children sky_puzzle) (new "" []).
Definition sky_word : Element :=
  Eval vm_compute in nth 0 (children sky_words) (new "" []).

(** The last record written for [three_dates]. *)
Definition latest_record : Element :=
  Eval vm_compute in
    nth 2 (Builder.records Datetime.year_pad4 counting (Some three_dates) 0)
        (new "" []).

(** The records written for [bad_between]: the one whose date does not
    parse, and the one of March. *)
Definition oops_record : Element :=
  Eval vm_compute in
    nth 0 (Builder.records Datetime.year_pad4 counting (Some bad_between) 0)
        (new "" []).
Definition march_record : Element :=
  Eval vm_compute in
    nth 2 (Builder.records Datetime.year_pad4 counting (Some bad_between) 0)
        (new "" []).

(** Two puzzles whose dates do not parse, told apart by their words. *)
Definition two_bad : Element :=
  archive [puzzle "first" ["ab"]; puzzle "second" ["cd"]].
Definition first_record : Element :=
  Eval vm_compute in
    nth 0 (Builder.records Datetime.year_pad4 counting (Some two_bad) 0)
        (new "" []).
Definition second_record : Element :=
  Eval vm_compute in
    nth 1 (Builder.records Datetime.year_pad4 counting (Some two_bad) 0)
        (new "" []).

(** JSON texts: a text between double quotes, and the game data with
    no answers and with the two answers noon and onion, keys and
    answers quoted as JSON has them. *)
Definition dq : string := String (ascii_of_nat 34) "".
Definition quoted (t : string) : string := (dq ++ t ++ dq)%string.
Definition no_answers_json : string :=
  ("{" ++ quoted "today" ++ ":{" ++ quoted "answers" ++ ":[]}}")%string.
Definition two_answers_json : string :=
  ("{" ++ quoted "today" ++ ":{" ++ quoted "answers" ++ ":["
     ++ quoted "noon" ++ "," ++ quoted "onion" ++ "]}}")%string.

(** The pages: the game data with no answers followed by another
    assignment, and the game data with two answers. *)
Definition no_answers_page : string :=
  ("window.gameData = " ++ no_answers_json ++ "; f = {}")%string.
Definition two_answers_page : string :=
  ("window.gameData = " ++ two_answers_json)%string.

(** A site for each page; the page is one script, and the stand-in for
    the JSON parser reads the two JSON texts and rejects every other
    text. *)
Definition no_answers_site : nat -> Harvest.response :=
  fun _ => Harvest.Response 200 no_answers_page.
Definition two_answers_site : nat -> Harvest.response :=
  fun _ => Harvest.Response 200 two_answers_page.
Definition one_script : string -> list (option string) :=
  fun text => [Some text].
Definition read_json : string -> option Harvest.json :=
  fun s =>
    if String.eqb s no_answers_json then
      Some (Harvest.JObj [("today", Harvest.JObj [("answers", Harvest.JArr [])])])
    else if String.eqb s two_answers_json then
      Some (Harvest.JObj
              [("today",
                Harvest.JObj [("answers",
                               Harvest.JArr [Harvest.JStr "noon";
                                             Harvest.JStr "onion"])])])
    else None.

(** No archive yet, nothing requested, nothing printed. *)
Definition fresh : Harvest.world := Harvest.mkWorld None 0 [].

(** A puzzle with a first letter, a second without text and a third
    whose text is a blank, and the record written for it. *)
Definition lettered : Element :=
  archive [mkElement "puzzle" [("date", "2024-01-05")] None None
             [mkElement "letter1" [] (Some "a") None [];
              mkElement "letter2" [] None None [];
              mkElement "letter3" [] (Some " ") None [];
              word "sky"]].
Definition lettered_record : Element :=
  Eval vm_compute in
    nth 0 (Builder.records Datetime.year_pad4 counting (Some lettered) 0)
        (new "" []).

(** A puzzle whose first word is all blanks and whose second has no
    text at all, before the word sky, and the record written for it
    with its [words] element. *)
Definition blanks : Element :=
  archive [mkElement "puzzle" [("date", "2024-01-05")] None None
             [word "  "; mkElement "word" [] None None []; word "sky"]].
Definition blanks_record : Element :=
  Eval vm_compute in
    nth 0 (Builder.records Datetime.year_pad4 counting (Some blanks) 0)
        (new "" []).
Definition blanks_words : Element :=
  Eval vm_compute in nth 0 (children blanks_record) (new "" []).

(** Two dates below the year 1000, the later one first, before a date
    of 2024, and the first record written for them when the year is
    written unpadded. *)
Definition old_dates : Element :=
  archive [puzzle "0999-01-05" []; puzzle "0998-01-05" []; puzzle "2024-03-01" []].
Definition old_record : Element :=
  Eval vm_compute in
    nth 0 (Builder.records Datetime.year_plain counting (Some old_dates) 0)
        (new "" []).

(** An archive whose puzzles stand in the order of their dates. *)
Definition in_order : Element :=
  archive [puzzle "2024-01-05" ["sky"]; puzzle "2024-02-10" ["noon"]].

(** A site that answers with a server error, one whose page does not
    mention the game data, one whose game data never closes and one
    whose game data is an empty object, with the stand-in for the JSON
    parser that reads it. *)
Definition failing_site : nat -> Harvest.response :=
  fun _ => Harvest.Response 503 "Service Unavailable".
Definition plain_site : nat -> Harvest.response :=
  fun _ => Harvest.Response 200 "var x = {a:1};".
Definition unclosed_site : nat -> Harvest.response :=
  fun _ => Harvest.Response 200 "window.gameData = {today:{answers:[]}".
Definition empty_object_site : nat -> Harvest.response :=
  fun _ => Harvest.Response 200 "window.gameData = {}".
Definition read_empty_object : string -> option Harvest.json :=
  fun s => if String.eqb s "{}" then Some (Harvest.JObj []) else None.

End Samples.
(* ================================================================== *)
(** ** Facts about the text builtins *)
(* ================================================================== *)
Module PyFacts.
Import Py.

Lemma chars_join l : chars (join l) = l.
Proof. apply list_ascii_of_string_of_list_ascii. Qed.

Lemma join_chars s : join (chars s) = s.
Proof. apply string_of_list_ascii_of_string. Qed.

Lemma len_chars s : len s = length (chars s).
Proof.
  unfold len, chars. induction s as [|c r IH]; simpl; [reflexivity|].
  now rewrite IH.
Qed.


Lemma chars_inj s t : chars s = chars t -> s = t.
Proof. intros H. rewrite <- (join_chars s), <- (join_chars t). now rewrite H. Qed.

Lemma take_all n s : len s <= n -> take n s = s.
Proof.
  unfold len. revert n. induction s as [|c r IH]; intros [|n] H; simpl in *;
    try reflexivity; try lia.
  f_equal. apply IH. lia.
Qed.

Lemma len_take n s : len (take n s) = Nat.min n (len s).
Proof.
  unfold len. revert n. induction s as [|c r IH]; intros [|n]; simpl; auto.
Qed.

Lemma take_prefix n s : String.prefix (take n s) s = true.
Proof.
  revert n. induction s as [|c r IH]; intros [|n]; simpl; auto.
  destruct (ascii_dec c c) as [_|N]; [apply IH | now elim N].
Qed.

Lemma decimal_value_str n : decimal_value (str n) = Some n.
Proof.
  unfold decimal_value, str. rewrite NilEmpty.usu. simpl.
  now rewrite DecimalNat.Unsigned.of_to.
Qed.

Lemma lstrip_all_space s : all_space s = true -> lstrip s = "".
Proof.
  induction s as [|c r IH]; simpl; [reflexivity|].
  intros H. apply andb_true_iff in H as [Hc Hr]. rewrite Hc. now apply IH.
Qed.

Lemma upper_char_isspace c : isspace (upper_char c) = isspace c.
Proof.
  unfold upper_char.
  destruct ((97 <=? nat_of_ascii c) && (nat_of_ascii c <=? 122)) eqn:E;
    [|reflexivity].
  apply andb_true_iff in E as [E1 E2].
  apply Nat.leb_le in E1, E2.
  unfold isspace. rewrite nat_ascii_embedding by lia.
  repeat match goal with
         | |- context [?a <=? ?b] => destruct (Nat.leb_spec a b)
         | |- context [?a =? ?b] => destruct (Nat.eqb_spec a b)
         end; simpl; try reflexivity; lia.
Qed.

Lemma all_space_upper s : all_space (upper s) = all_space s.
Proof.
  induction s as [|c r IH]; simpl; [reflexivity|].
  now rewrite upper_char_isspace, IH.
Qed.

End PyFacts.

(* ================================================================== *)
(** ** Facts about shuffle *)
(* ================================================================== *)
Module RandomFacts.
Import Random.

Section Lists.
Context {A : Type}.
Implicit Types (x : list A) (i j : nat).

Lemma setitem_length i v x : length (setitem i v x) = length x.
Proof.
  revert i. induction x as [|h t IH]; intros [|i]; simpl; auto.
Qed.

Lemma nth_error_setitem_same i v x :
  i < length x -> nth_error (setitem i v x) i = Some v.
Proof.
  revert i. induction x as [|h t IH]; intros [|i] H; simpl in *;
    try lia; auto. apply IH. lia.
Qed.

Lemma nth_error_setitem_other i j v x :
  i <> j -> nth_error (setitem i v x) j = nth_error x j.
Proof.
  revert i j. induction x as [|h t IH]; intros [|i] [|j] H; simpl;
    try reflexivity; try congruence.
  apply IH. congruence.
Qed.

(** Overwriting the slot that held [a] with [b] trades one for the other. *)
Lemma setitem_trade i a b x :
  nth_error x i = Some a -> Permutation (a :: setitem i b x) (b :: x).
Proof.
  revert i. induction x as [|h t IH]; intros [|i] H; simpl in *;
    try discriminate.
  - injection H as ->. apply perm_swap.
  - rewrite perm_swap. rewrite (IH _ H). apply perm_swap.
Qed.

Lemma swap_Permutation i j x : Permutation (swap i j x) x.
Proof.
  unfold swap.
  destruct (nth_error x j) as [xj|] eqn:Hj; [|reflexivity].
  destruct (nth_error x i) as [xi|] eqn:Hi; [|reflexivity].
  apply Permutation_cons_inv with (a := xj).
  assert (Hj' : nth_error (setitem i xj x) j = Some xj).
  { destruct (Nat.eq_dec i j) as [->|N].
    - apply nth_error_setitem_same. apply nth_error_Some. congruence.
    - now rewrite nth_error_setitem_other. }
  rewrite (setitem_trade _ _ xi _ Hj').
  apply (setitem_trade _ _ xj _ Hi).
Qed.

Lemma swap_same i x : swap i i x = x.
Proof.
  unfold swap. destruct (nth_error x i) as [a|] eqn:H; [|reflexivity].
  assert (E : forall y n, nth_error y n = Some a -> setitem n a y = y).
  { clear. induction y as [|h t IH]; intros [|n] H; simpl in *;
      try discriminate; [congruence|]. f_equal. now apply IH. }
  rewrite (E x i H). now apply E.
Qed.

Variable rng : nat -> nat.

(** A shuffle of [x] reads one draw for each position but the first. *)
Lemma shuffle_from_cursor i x k : snd (shuffle_from rng i x k) = k + i.
Proof.
revert x k. induction i as [|i IH]; intros x k; simpl; [lia|].
unfold bind, randbelow. rewrite IH. lia.
Qed.

Lemma shuffle_cursor x k : snd (shuffle rng x k) = k + (length x - 1).
Proof. apply shuffle_from_cursor. Qed.

Lemma shuffle_from_Permutation i x k :
  Permutation (fst (shuffle_from rng i x k)) x.
Proof.
  revert x k. induction i as [|i IH]; intros x k; simpl; [reflexivity|].
  unfold bind, randbelow. rewrite IH. apply swap_Permutation.
Qed.

(** [random.shuffle] rearranges and neither adds nor loses an item. *)
Lemma shuffle_Permutation x k : Permutation (fst (shuffle rng x k)) x.
Proof. apply shuffle_from_Permutation. Qed.
End Lists.

End RandomFacts.

(* ================================================================== *)
(** ** Facts about the scrambler *)
(* ================================================================== *)
Module ScramblerFacts.
Import Random Scrambler PyFacts RandomFacts.

Section WithGenerator.
Variable rng : nat -> nat.

Lemma scramble_loop_Permutation word scrambled left k :
  Permutation (Py.chars scrambled) (Py.chars word) ->
  Permutation (Py.chars (fst (scramble_loop rng word scrambled left k)))
              (Py.chars word).
Proof.
  revert scrambled k. induction left as [|left IH]; intros scrambled k H;
    simpl; [exact H|].
  destruct (String.eqb scrambled word); [|exact H].
  unfold bind.
  destruct (shuffle rng (Py.chars word) k) as [cs k'] eqn:E.
  apply IH. rewrite chars_join.
  change cs with (fst (cs, k')). rewrite <- E. apply shuffle_Permutation.
Qed.

Lemma scramble_word_Permutation word k :
  Permutation (Py.chars (fst (scramble_word rng word k)))
              (Py.chars (Py.upper word)).
Proof.
  unfold scramble_word.
  destruct (Py.len (Py.upper word) <=? 1); [reflexivity|].
  unfold bind.
  destruct (scramble_loop rng (Py.upper word) (Py.upper word) 10 k)
    as [scrambled k'] eqn:E.
  simpl. destruct (String.eqb scrambled (Py.upper word)).
  - unfold Py.reversed. rewrite chars_join. symmetry. apply Permutation_rev.
  - change scrambled with (fst (scrambled, k')). rewrite <- E.
    apply scramble_loop_Permutation. reflexivity.
Qed.

(** What [scramble_word] returns on a word of two or more characters. *)
Lemma scramble_word_long word k :
  1 < Py.len (Py.upper word) ->
  fst (scramble_word rng word k) =
    let scrambled := fst (scramble_loop rng (Py.upper word) (Py.upper word) 10 k) in
    if String.eqb scrambled (Py.upper word) then Py.reversed (Py.upper word)
    else scrambled.
Proof.
  intros H. unfold scramble_word.
  destruct (Nat.leb_spec (Py.len (Py.upper word)) 1); [lia|].
  unfold bind.
  now destruct (scramble_loop rng (Py.upper word) (Py.upper word) 10 k).
Qed.

(** The loop keeps a text that already differs from the word. *)
Lemma scramble_loop_differs word scrambled left k :
scrambled <> word -> scramble_loop rng word scrambled left k = (scrambled, k).
Proof.
intros N. destruct left as [|left]; [reflexivity|]. simpl.
destruct (String.eqb_spec scrambled word); [contradiction | reflexivity].
Qed.

#[local] Abbreviation attempt := (Scrambler.attempt rng).

(** The loop ends on the word exactly when every attempt gave the word. *)
Lemma scramble_loop_same word left k :
fst (scramble_loop rng word word left k) = word <->
forall i, i < left -> attempt word k i = word.
Proof.
revert k. induction left as [|left IH]; intros k.
- simpl. split; [intros _ i Hi; lia | reflexivity].
- cbn [scramble_loop]. rewrite String.eqb_refl. unfold bind.
  pose proof (shuffle_cursor rng (Py.chars word) k) as Hc.
  destruct (shuffle rng (Py.chars word) k) as [cs k'] eqn:E.
  cbn [snd] in Hc. rewrite <- len_chars in Hc.
  assert (A0 : attempt word k 0 = Py.join cs).
  { unfold Scrambler.attempt. now rewrite Nat.mul_0_l, Nat.add_0_r, E. }
  assert (AS : forall i, attempt word k (S i) = attempt word k' i).
  { intros i. unfold Scrambler.attempt. f_equal. f_equal. f_equal. lia. }
  destruct (String.eqb_spec (Py.join cs) word) as [Ej|Nj].
  + rewrite Ej, IH. split.
    * intros H [|i] Hi; [now rewrite A0 | rewrite AS; apply H; lia].
    * intros H i Hi. rewrite <- AS. apply H. lia.
  + rewrite scramble_loop_differs by exact Nj. cbn [fst]. split.
    * intros Ej. contradiction.
    * intros H. rewrite <- A0. apply H. lia.
Qed.

Lemma reversed_short s : Py.len s <= 1 -> Py.reversed s = s.
Proof.
  unfold Py.len, Py.reversed.
  destruct s as [|c [|d r]]; simpl; intros H; try reflexivity; lia.
Qed.
End WithGenerator.

End ScramblerFacts.

Example strptime_iso_ex :
  Datetime.strptime_iso "2024-01-05" = Some (Datetime.mkdt 2024 1 5).
Proof. reflexivity. Qed.
Example strptime_long_ex :
  Datetime.strptime_long "January 05, 2024" = Some (Datetime.mkdt 2024 1 5).
Proof. reflexivity. Qed.
Example strptime_long_min :
  Datetime.strptime_long "January 01, 0001" = Some Datetime.min.
Proof. reflexivity. Qed.
Example strptime_long_bad :
  Datetime.strptime_long "February 30, 2024" = None /\
  Datetime.strptime_long "January 05, 20245" = None /\
  Datetime.strptime_long "january  5,	2024" = Some (Datetime.mkdt 2024 1 5) /\
  Datetime.strptime_long "2024-01-05" = None /\
  Datetime.strptime_iso "2024-1- 5" = Some (Datetime.mkdt 2024 1 5) /\
  Datetime.strptime_iso "2024-13-05" = None.
Proof. repeat split; reflexivity. Qed.
Example strftime_long_ex :
  Datetime.strftime_long Datetime.year_pad4 (Datetime.mkdt 2024 3 1) = "March 01, 2024".
Proof. reflexivity. Qed.

(* ================================================================== *)
(** ** Facts about elements and dicts *)
(* ================================================================== *)
Module ETFacts.
Import ET.

Section Dict.
Context {V : Type}.
Implicit Types (d : dict V) (k : string) (v : V).

Lemma dict_get_set_same d k v : dict_get (dict_set d k v) k = Some v.
Proof.
  induction d as [|[k' v'] r IH]; simpl.
  - now rewrite String.eqb_refl.
  - destruct (String.eqb k' k) eqn:E; simpl; now rewrite E.
Qed.

Lemma dict_get_set_other d k k' v :
  k <> k' -> dict_get (dict_set d k v) k' = dict_get d k'.
Proof.
  intros N. induction d as [|[k0 v0] r IH]; simpl.
  - destruct (String.eqb_spec k k'); [contradiction | reflexivity].
  - destruct (String.eqb_spec k0 k) as [->|N0]; simpl.
    + destruct (String.eqb_spec k k'); [contradiction | reflexivity].
    + now rewrite IH.
Qed.

Lemma dict_get_pop_same d k : dict_get (dict_pop d k) k = None.
Proof.
  induction d as [|[k' v'] r IH]; simpl; [reflexivity|].
  destruct (String.eqb k' k) eqn:E; simpl; [exact IH | now rewrite E].
Qed.

Lemma dict_get_pop_other d k k' :
  k <> k' -> dict_get (dict_pop d k) k' = dict_get d k'.
Proof.
  intros N. induction d as [|[k0 v0] r IH]; simpl; [reflexivity|].
  destruct (String.eqb_spec k0 k) as [->|N0]; simpl.
  - destruct (String.eqb_spec k k'); [contradiction | exact IH].
  - now rewrite IH.
Qed.
End Dict.

Lemma indent_tag level e : tag (indent level e) = tag e.
Proof. destruct e as [t a x tl [|c cs]]; reflexivity. Qed.

Lemma indent_attrib level e : attrib (indent level e) = attrib e.
Proof. destruct e as [t a x tl [|c cs]]; reflexivity. Qed.

Lemma indent_get level e k : get (indent level e) k = get e k.
Proof. unfold get. now rewrite indent_attrib. Qed.

Lemma indent_children_eq level e :
  children (indent level e) = indent_children level (children e).
Proof.
  destruct e as [t a x tl cs]. destruct cs as [|c cs]; [reflexivity|].
  simpl. revert c. induction cs as [|c' cs IH]; intros c; [reflexivity|].
  f_equal. apply IH.
Qed.

(** The loop dresses every child but the last alike. *)
Lemma indent_children_snoc level l c :
  indent_children level (l ++ [c]) =
    map (fun x => with_tail (Some (newline ++ spaces (S level))%string)
                            (indent (S level) x)) l
    ++ [with_tail (Some (newline ++ spaces level)%string) (indent (S level) c)].
Proof.
  induction l as [|x l IH]; [reflexivity|].
  change ((x :: l) ++ [c]) with (x :: (l ++ [c])).
  destruct (l ++ [c]) as [|y r] eqn:E.
  - now destruct l.
  - cbn [indent_children map app]. now rewrite <- IH.
Qed.

Lemma with_tail_get x e k : get (with_tail x e) k = get e k.
Proof. reflexivity. Qed.

Lemma with_tail_tag x e : tag (with_tail x e) = tag e.
Proof. reflexivity. Qed.

Lemma get_set_same e k v : get (set e k v) k = Some v.
Proof. apply dict_get_set_same. Qed.

Lemma get_set_other e k k' v : k <> k' -> get (set e k v) k' = get e k'.
Proof. apply dict_get_set_other. Qed.

Lemma get_pop_same e k : get (pop e k) k = None.
Proof. apply dict_get_pop_same. Qed.

Lemma get_pop_other e k k' : k <> k' -> get (pop e k) k' = get e k'.
Proof. apply dict_get_pop_other. Qed.

Lemma indent_children_length level cs :
  length (indent_children level cs) = length cs.
Proof.
  induction cs as [|c [|d r] IH]; try reflexivity.
  cbn [indent_children length]. f_equal. exact IH.
Qed.

Lemma indent_children_tags level cs :
  map tag (indent_children level cs) = map tag cs.
Proof.
  induction cs as [|c [|d r] IH]; try reflexivity.
  - cbn. now rewrite indent_tag.
  - cbn [indent_children map]. rewrite with_tail_tag, indent_tag. f_equal. exact IH.
Qed.

Lemma indent_children_attribs level cs :
  map attrib (indent_children level cs) = map attrib cs.
Proof.
  induction cs as [|c [|d r] IH]; try reflexivity.
  - cbn. now rewrite indent_attrib.
  - cbn [indent_children map]. f_equal; [|exact IH].
    unfold with_tail. cbn. apply indent_attrib.
Qed.

Lemma In_indent_children level cs y :
  In y (indent_children level cs) ->
  exists c tl, In c cs /\ y = with_tail tl (indent (S level) c).
Proof.
  induction cs as [|c [|d r] IH]; intros H.
  - contradiction.
  - destruct H as [<-|[]]. exists c. eexists. split; [now left | reflexivity].
  - cbn [indent_children] in H. destruct H as [<-|H].
    + exists c. eexists. split; [now left | reflexivity].
    + destruct (IH H) as (c' & tl & Hc & ->). exists c', tl.
      split; [now right | reflexivity].
Qed.

(** The right-hand items of related lists have left-hand partners. *)
Lemma Forall2_in_r {A B} (R : A -> B -> Prop) l l' y :
  Forall2 R l l' -> In y l' -> exists x, In x l /\ R x y.
Proof.
  induction 1 as [|x z l l' Rxz F IH]; simpl; [contradiction|].
  intros [<-|H]; [eauto|].
  destruct (IH H) as (x' & Hx & Rx). eauto.
Qed.

End ETFacts.

(* ================================================================== *)
(** ** Facts about sorted: permutation, order, stability *)
(* ================================================================== *)
Module SortedFacts.
Import Builtins.

#[global] Hint Constructors before : core.

Section Before.
Context {A B : Type}.

Lemma before_In (a b : A) l : before a b l -> In a l /\ In b l.
Proof.
  induction 1 as [l H | c l H [IHa IHb]]; simpl; auto.
Qed.

Lemma In_before_or (a b : A) l :
In a l -> In b l -> a <> b -> before a b l \/ before b a l.
Proof.
induction l as [|x l IH]; simpl; [contradiction|].
intros [->|Ha] [->|Hb] N; auto; try congruence.
destruct (IH Ha Hb N); auto.
Qed.

Lemma StronglySorted_before (R : A -> A -> Prop) (a b : A) l :
StronglySorted R l -> before a b l -> R a b.
Proof.
intros S H. induction H as [l Hb | c l H IH].
- apply StronglySorted_inv in S as [_ F].
  rewrite Forall_forall in F. now apply F.
- apply StronglySorted_inv in S as [S _]. now apply IH.
Qed.

Lemma StronglySorted_Forall2 (R : A -> A -> Prop) (R' : B -> B -> Prop)
  (Q : A -> B -> Prop) l l' :
(forall x y p q, Q x p -> Q y q -> R x y -> R' p q) ->
Forall2 Q l l' -> StronglySorted R l -> StronglySorted R' l'.
Proof.
intros T F. induction F as [|x p l l' Qxp F IH]; intros S; [constructor|].
apply StronglySorted_inv in S as [S Hx].
constructor; [now apply IH|].
clear IH S. induction F as [|y q l l' Qyq F IH']; constructor.
- apply Forall_inv in Hx. eauto.
- apply IH'. now apply Forall_inv_tail in Hx.
Qed.

Lemma before_app_l (a b : A) l1 l2 : before a b l2 -> before a b (l1 ++ l2).
Proof. induction l1; simpl; auto. Qed.

Lemma before_split (a b : A) l1 l2 : In a l1 -> In b l2 -> before a b (l1 ++ l2).
Proof.
  induction l1 as [|x l1 IH]; simpl; intros Ha Hb; [contradiction|].
  destruct Ha as [->|Ha]; auto.
  constructor. apply in_or_app. now right.
Qed.

(** A list related item by item to another has its pairs in the same
    order. *)
Lemma before_Forall2 (R : A -> B -> Prop) l l' (p q : B) :
  Forall2 R l l' -> before p q l' ->
  exists x y, R x p /\ R y q /\ before x y l.
Proof.
  intros F H. revert l F.
  induction H as [l' Hq | c l' H IH]; intros l F; inversion F as [|x ? l0 ? Rx F0];
    subst.
  - assert (E : exists y, R y q /\ In y l0).
    { clear -F0 Hq. induction F0 as [|y z l1 l2 Ryz F0 IH]; simpl in *;
        [contradiction|].
      destruct Hq as [->|Hq]; [eauto|].
      destruct (IH Hq) as (y' & Ry' & Hin). eauto. }
    destruct E as (y & Ry & Hin). exists x, y. auto.
  - destruct (IH _ F0) as (x' & y' & Rx' & Ry' & Hb). exists x', y'. auto.
Qed.
End Before.

Section Sorted.
Context {A K : Type}.
Variable key : A -> K.
Variable lt : K -> K -> bool.

Lemma insort_Permutation x l : Permutation (insort key lt x l) (x :: l).
Proof.
  induction l as [|y t IH]; simpl; [reflexivity|].
  destruct (lt (key y) (key x)); [|reflexivity].
  rewrite IH. apply perm_swap.
Qed.

Lemma sorted_Permutation l : Permutation (sorted key lt l) l.
Proof.
  induction l as [|x t IH]; simpl; [reflexivity|].
  rewrite insort_Permutation. now constructor.
Qed.

Lemma sorted_length l : length (sorted key lt l) = length l.
Proof. apply Permutation_length, sorted_Permutation. Qed.

#[local] Abbreviation le_key := (Builtins.le_key key lt).

Section Order.
Hypothesis lt_asym : forall a b, lt a b = true -> lt b a = false.
Hypothesis le_trans :
  forall a b c, lt b a = false -> lt c b = false -> lt c a = false.

Lemma insort_sorted x l :
  StronglySorted le_key l -> StronglySorted le_key (insort key lt x l).
Proof.
  induction 1 as [|y t St IH Hy]; simpl.
  - repeat constructor.
  - destruct (lt (key y) (key x)) eqn:E.
    + constructor; [exact IH|].
      rewrite (insort_Permutation x t). constructor; [|exact Hy].
      unfold le_key. now apply lt_asym.
    + constructor; [now constructor|].
      constructor; [exact E|].
      eapply Forall_impl; [|exact Hy].
      intros z Hz. unfold le_key in *. eapply le_trans; eassumption.
Qed.

Lemma sorted_StronglySorted l : StronglySorted le_key (sorted key lt l).
Proof.
  induction l as [|x t IH]; simpl; [constructor | now apply insort_sorted].
Qed.
End Order.

Section Stable.
Hypothesis lt_irrefl : forall a, lt a a = false.

Lemma before_insort a b x l :
  before a b (insort key lt x l) ->
  before a b l \/ (a = x /\ In b l) \/
  (b = x /\ In a l /\ lt (key a) (key x) = true).
Proof.
  induction l as [|y t IH]; simpl; intros H.
  - inversion H as [? Hin|? ? Hb]; subst; [contradiction | inversion Hb].
  - destruct (lt (key y) (key x)) eqn:E.
    + inversion H as [? Hin|? ? Hb]; subst.
      * apply (Permutation_in _ (insort_Permutation x t)) in Hin.
        destruct Hin as [<-|Hin]; [|now left; constructor].
        right; right. simpl. auto.
      * destruct (IH Hb) as [H1|[[-> H2]|(-> & H2 & H3)]].
        -- left. now constructor.
        -- right; left. simpl. auto.
        -- right; right. simpl. auto.
    + inversion H as [? Hin|? ? Hb]; subst; auto.
Qed.

(** Stability: two items with equal keys come out in the order they
    went in. *)
Lemma sorted_stable a b l :
  before a b (sorted key lt l) -> key a = key b -> before a b l.
Proof.
  induction l as [|x t IH]; simpl; intros H E; [inversion H|].
  apply before_insort in H as [H|[[-> H]|(-> & H & Hlt)]].
  - auto.
  - constructor. now apply (Permutation_in _ (sorted_Permutation t)).
  - rewrite E, lt_irrefl in Hlt. discriminate.
Qed.
End Stable.
End Sorted.

End SortedFacts.

(* ================================================================== *)
(** ** Facts about the date order and strptime *)
(* ================================================================== *)
Module DatetimeFacts.
Import Datetime.

Lemma ltb_true a b : ltb a b = true <-> before_date a b.
Proof.
  unfold ltb, before_date.
  rewrite !orb_true_iff, !andb_true_iff, !orb_true_iff, !andb_true_iff.
  rewrite !Nat.ltb_lt, !Nat.eqb_eq. reflexivity.
Qed.

Lemma ltb_false a b : ltb a b = false <-> ~ before_date a b.
Proof. rewrite <- ltb_true. symmetry. apply not_true_iff_false. Qed.

Lemma ltb_irrefl a : ltb a a = false.
Proof. apply ltb_false. unfold before_date. lia. Qed.

Lemma ltb_asym a b : ltb a b = true -> ltb b a = false.
Proof. rewrite ltb_true, ltb_false. unfold before_date. lia. Qed.

Lemma leb_trans a b c :
  ltb b a = false -> ltb c b = false -> ltb c a = false.
Proof. rewrite !ltb_false. unfold before_date. lia. Qed.

(** Neither date before the other: the same date. *)
Lemma ltb_total a b : ltb a b = false -> ltb b a = false -> a = b.
Proof.
  rewrite !ltb_false. unfold before_date.
  destruct a as [y m d], b as [y' m' d']; cbn [year month day]. intros H1 H2.
  assert (y = y' /\ m = m' /\ d = d') as (-> & -> & ->) by lia. reflexivity.
Qed.

Lemma finish_valid found dt :
  finish found = Some dt -> valid (year dt) (month dt) (day dt) = true.
Proof.
  unfold finish. destruct found as [|[dt' [|c r]] rest]; try discriminate.
  destruct (valid (year dt') (month dt') (day dt')) eqn:E; [|discriminate].
  now intros [= <-].
Qed.

Lemma strptime_long_valid s dt :
  strptime_long s = Some dt -> valid (year dt) (month dt) (day dt) = true.
Proof. apply finish_valid. Qed.

(** No date a [datetime] can hold is before [datetime.min]. *)
Lemma min_least dt :
  valid (year dt) (month dt) (day dt) = true -> ltb dt min = false.
Proof.
  destruct dt as [y m d]. unfold valid, min; cbn [year month day].
  intros H.
  repeat (apply andb_true_iff in H as [H ?]).
  repeat match goal with H : (_ <=? _) = true |- _ => apply Nat.leb_le in H end.
  clear -H H1 H3.
  apply (ltb_false (mkdt y m d) (mkdt 1 1 1)).
  unfold before_date; cbn [year month day]. lia.
Qed.

(** A date other than [datetime.min] is after it. *)
Lemma after_min dt :
  valid (year dt) (month dt) (day dt) = true -> dt <> min -> ltb min dt = true.
Proof.
  intros V N. destruct (ltb min dt) eqn:E; [reflexivity|].
  elim N. apply ltb_total; [now apply min_least | exact E].
Qed.

End DatetimeFacts.

(* ================================================================== *)
(** ** Facts about the enricher *)
(* ================================================================== *)
Module BuilderFacts.
Import ET Random Builder ETFacts SortedFacts.

Lemma for_each_Forall2 {A B} (f : A -> Rand B) l k :
  Forall2 (fun x y => exists k', y = fst (f x k')) l
          (fst (Builtins.for_each f l k)).
Proof.
  revert k. induction l as [|x t IH]; intros k; simpl; [constructor|].
  unfold bind. destruct (f x k) as [y k1] eqn:E.
  specialize (IH k1). destruct (Builtins.for_each f t k1) as [ys k2].
  simpl in *. constructor; [|exact IH].
  exists k. now rewrite E.
Qed.

Lemma for_each_length {A B} (f : A -> Rand B) l k :
  length (fst (Builtins.for_each f l k)) = length l.
Proof. symmetry. eapply Forall2_length, for_each_Forall2. Qed.

Lemma on_last_snoc {A} (f : A -> A) l c : on_last f (l ++ [c]) = l ++ [f c].
Proof.
  induction l as [|x l IH]; [reflexivity|].
  change ((x :: l) ++ [c]) with (x :: (l ++ [c])).
  destruct (l ++ [c]) as [|y r] eqn:E; [now destruct l|].
  cbn [on_last]. cbn [on_last] in IH. now rewrite IH.
Qed.

Lemma mark_latest_snoc l c :
  mark_latest (l ++ [c]) =
    map (fun p => pop p "subscribersonly") l
    ++ [set (pop c "subscribersonly") "subscribersonly" "yes"].
Proof.
  unfold mark_latest. destruct (l ++ [c]) eqn:E; [now destruct l|].
  rewrite <- E, map_app. cbn [map]. now rewrite on_last_snoc.
Qed.

Lemma iso_key_ext p q : get p "date" = get q "date" -> iso_key p = iso_key q.
Proof. unfold iso_key, get_or. now intros ->. Qed.

Section Enricher.
Variable year_text : nat -> string.
Variable rng : nat -> nat.

#[local] Abbreviation records := (records year_text rng).
#[local] Abbreviation transformed := (transformed year_text rng).
#[local] Abbreviation in_order := (Builtins.sorted iso_key Datetime.ltb).

Lemma records_eq root k :
  records (Some root) k =
    indent_children 0 (mark_latest (in_order (transformed root k))).
Proof.
  unfold Builder.records, Builder.transformed, build_beeplus, bind.
  destruct (Builtins.for_each (transform year_text rng) (findall root "puzzle") k)
    as [puzzles k'].
  cbn [fst written ret]. now rewrite indent_children_eq.
Qed.

(** What is written, when the sorted collection ends with [c]. *)
Lemma records_snoc root k l c :
  in_order (transformed root k) = l ++ [c] ->
  records (Some root) k =
    map (fun x => with_tail (Some (newline ++ spaces 1)%string)
                    (indent 1 (pop x "subscribersonly"))) l
    ++ [with_tail (Some (newline ++ spaces 0)%string)
          (indent 1 (set (pop c "subscribersonly") "subscribersonly" "yes"))].
Proof.
  intros E. rewrite records_eq, E, mark_latest_snoc, indent_children_snoc.
  now rewrite map_map.
Qed.

Lemma records_nil root k :
  in_order (transformed root k) = [] -> records (Some root) k = [].
Proof. intros E. now rewrite records_eq, E. Qed.

Lemma records_written_as root k :
  Forall2 (written_as) (in_order (transformed root k)) (records (Some root) k).
Proof.
  destruct (in_order (transformed root k)) as [|x t] eqn:E.
  - rewrite (records_nil _ _ E). constructor.
  - destruct (@exists_last _ (x :: t)) as (l & c & El); [discriminate|].
    rewrite El in E |- *. rewrite (records_snoc _ _ _ _ E).
    apply Forall2_app.
    + clear. induction l as [|y l IH]; simpl; constructor; [|exact IH].
      now exists false, (Some (newline ++ spaces 1)%string).
    + constructor; [|constructor].
      now exists true, (Some (newline ++ spaces 0)%string).
Qed.

Lemma written_as_date x p : written_as x p -> get p "date" = get x "date".
Proof.
  intros (flagged & tl & ->). cbv zeta.
  rewrite with_tail_get, indent_get.
  destruct flagged.
  - rewrite get_set_other by discriminate. now apply get_pop_other.
  - now apply get_pop_other.
Qed.

Lemma written_as_key x p : written_as x p -> iso_key p = iso_key x.
Proof. intros H. apply iso_key_ext. now apply written_as_date. Qed.

Lemma records_length root k :
  length (records (Some root) k) = length (findall root "puzzle").
Proof.
  rewrite <- (Forall2_length (records_written_as root k)).
  rewrite sorted_length. apply for_each_length.
Qed.

Lemma transform_children s k :
  children (fst (transform year_text rng s k)) =
    flat_map (copy_letter s) (List.seq 1 7)
    ++ [mkElement "words" [] None None
          (fst (Builtins.for_each (word_element rng) (findall s "word") k))].
Proof.
  unfold transform, bind.
  now destruct (Builtins.for_each (word_element rng) (findall s "word") k).
Qed.

Lemma transform_date s k :
  get (fst (transform year_text rng s k)) "date"
  = Some (reformat year_text (get_or s "date" "")).
Proof.
  unfold transform, bind.
  now destruct (Builtins.for_each (word_element rng) (findall s "word") k).
Qed.

Lemma copy_letter_tag s i c : In c (copy_letter s i) -> tag c <> "words".
Proof.
  unfold copy_letter.
  destruct (find s ("letter" ++ Py.str i)) as [orig|]; [|contradiction].
  destruct (text orig) as [t|]; [|contradiction].
  destruct (String.eqb t ""); [contradiction|].
  intros [<-|[]]. discriminate.
Qed.

(** Every record written comes from a source puzzle. *)
Lemma records_source root k p :
  In p (records (Some root) k) ->
  exists s, In s (findall root "puzzle") /\ record_of year_text rng s p.
Proof.
  intros Hp.
  destruct (Forall2_in_r _ _ _ _ (records_written_as root k) Hp)
    as (x & Hx & Wx).
  apply (Permutation_in _ (sorted_Permutation _ _ _)) in Hx.
  destruct (Forall2_in_r _ _ _ _
              (for_each_Forall2 (transform year_text rng) _ k) Hx)
    as (s & Hs & k' & ->).
  exists s. split; [exact Hs|]. now exists k'.
Qed.

(** Every word record written is [word_element] of a source word. *)
Lemma records_words root k p ws wd :
  In p (records (Some root) k) -> In ws (children p) -> tag ws = "words" ->
  In wd (children ws) ->
  exists s w k',
    In s (findall root "puzzle") /\ In w (findall s "word") /\
    tag wd = "word" /\ attrib wd = attrib (fst (word_element rng w k')).
Proof.
  intros Hp Hws Tws Hwd.
  destruct (records_source _ _ _ Hp) as (s & Hs & k1 & flagged & tl & ->).
  cbv zeta in Hws.
  assert (Ec : children
                 (with_tail tl
                    (indent 1
                       (if flagged
                        then set (pop (fst (transform year_text rng s k1))
                                      "subscribersonly") "subscribersonly" "yes"
                        else pop (fst (transform year_text rng s k1))
                                 "subscribersonly")))
               = indent_children 1 (children (fst (transform year_text rng s k1)))).
  { change (children (with_tail tl ?e)) with (children e).
    rewrite indent_children_eq. now destruct flagged. }
  rewrite Ec, transform_children in Hws.
  apply In_indent_children in Hws as (c & tl1 & Hc & ->).
  rewrite with_tail_tag, indent_tag in Tws.
  apply in_app_or in Hc as [Hc|[<-|[]]].
  - apply in_flat_map in Hc as (i & _ & Hc).
    now elim (copy_letter_tag _ _ _ Hc).
  - change (children (with_tail tl1 ?e)) with (children e) in Hwd.
    rewrite indent_children_eq in Hwd. cbn [children] in Hwd.
    apply In_indent_children in Hwd as (c' & tl2 & Hc' & ->).
    destruct (Forall2_in_r _ _ _ _
                (for_each_Forall2 (word_element rng) _ k1) Hc')
      as (w & Hw & k' & ->).
    exists s, w, k'. repeat split; try assumption.
    + rewrite with_tail_tag, indent_tag. unfold word_element, bind.
      now destruct (word_attrs rng w k').
    + change (attrib (with_tail tl2 ?e)) with (attrib e).
      now rewrite indent_attrib.
Qed.
End Enricher.

End BuilderFacts.

(* ================================================================== *)
(** ** Facts about Python indices on texts *)
(* ================================================================== *)
Module PyZFacts.
Import PyZ.

Lemma length_append (a b : string) :
  String.length (a ++ b) = String.length a + String.length b.
Proof. induction a as [|c a IH]; simpl; congruence. Qed.

Lemma append_assoc (a b c : string) : ((a ++ b) ++ c = a ++ (b ++ c))%string.
Proof. induction a as [|x a IH]; simpl; congruence. Qed.

Lemma append_nil_r (a : string) : (a ++ "")%string = a.
Proof. induction a as [|x a IH]; simpl; congruence. Qed.

Lemma get_app_length (front : string) c r :
  String.get (String.length front) (front ++ String c r) = Some c.
Proof. induction front as [|x front IH]; simpl; auto. Qed.

Lemma substring_app_length (front a b : string) :
  String.substring (String.length front) (String.length a) (front ++ a ++ b) = a.
Proof.
  induction front as [|x front IH]; simpl; [|exact IH].
  induction a as [|y a IH]; simpl.
  - now destruct b.
  - now rewrite IH.
Qed.

(** A position that is not negative reads as [String.get]. *)
Lemma getitem_nat s n :
  n < Py.len s -> getitem s (Z.of_nat n) = String.get n s.
Proof.
  intros H. unfold getitem.
  destruct (Z.ltb_spec (Z.of_nat n) 0); [lia|].
  destruct (Z.leb_spec 0 (Z.of_nat n)); [|lia].
  destruct (Z.ltb_spec (Z.of_nat n) (Z.of_nat (Py.len s))); [|lia].
  simpl. now rewrite Nat2Z.id.
Qed.

Lemma slice_nat s a b :
  a <= b -> b <= Py.len s ->
  slice s (Z.of_nat a) (Z.of_nat b) = String.substring a (b - a) s.
Proof.
  intros H1 H2. unfold slice.
  destruct (Z.ltb_spec (Z.of_nat a) 0); [lia|].
  destruct (Z.ltb_spec (Z.of_nat b) 0); [lia|].
  rewrite !Z.min_l by lia. rewrite <- Nat2Z.inj_sub by lia.
  now rewrite !Nat2Z.id.
Qed.

Lemma range_nat a b :
  range (Z.of_nat a) (Z.of_nat b) = map Z.of_nat (List.seq a (b - a)).
Proof.
  unfold range.
  replace (Z.to_nat (Z.of_nat b - Z.of_nat a)) with (b - a) by lia.
  assert (G : forall n s,
             map (fun k => (Z.of_nat a + Z.of_nat k)%Z) (List.seq s n)
             = map Z.of_nat (List.seq (a + s) n)).
  { induction n as [|n IH]; intros s; [reflexivity|].
    cbn [List.seq map]. f_equal; [lia|].
    rewrite IH. now rewrite Nat.add_succ_r. }
  rewrite G. now rewrite Nat.add_0_r.
Qed.

(** Where [find] sees the first opening brace. *)
Lemma index_first_open pre post :
  (forall c, In c (Py.chars pre) -> c <> "{"%char) ->
  String.index 0 "{" (pre ++ String "{" post) = Some (String.length pre).
Proof.
  induction pre as [|x pre IH]; intros H.
  - simpl. now destruct post.
  - cbn [String.append String.index String.prefix].
    destruct (ascii_dec "{" x) as [<-|N].
    + elim (H "{"%char); [now left | reflexivity].
    + rewrite IH; [reflexivity|]. intros c Hc. apply H. now right.
Qed.

End PyZFacts.

(* ================================================================== *)
(** ** Facts about the brace matching *)
(* ================================================================== *)
Module BraceFacts.
Import Harvest PyZ PyZFacts.
Local Open Scope Z_scope.

Lemma step_shift c count : step c count = count + step c 0.
Proof.
  unfold step. destruct (Ascii.eqb c "{"); [lia|].
  destruct (Ascii.eqb c "}"); lia.
Qed.

Lemma step_bounds c count : count - 1 <= step c count <= count + 1.
Proof.
  unfold step. destruct (Ascii.eqb c "{"); [lia|].
  destruct (Ascii.eqb c "}"); lia.
Qed.

Lemma depth_app p q : depth (p ++ q) = depth p + depth q.
Proof. induction p as [|c p IH]; simpl; [reflexivity | rewrite IH; lia]. Qed.

(** The loop over the indices of the text still ahead does what
    [closing] says. *)
Lemma scan_closing (s front : string) (start k : nat) (count : Z) :
  String.length front = (start + k)%nat ->
  scan (front ++ s) (Z.of_nat start)
       (map Z.of_nat (List.seq (start + k) (String.length s))) count
  = Ok (option_map (fun m => String.substring start (k + m) (front ++ s))
                   (closing s count)).
Proof.
  revert front k count. induction s as [|c r IH]; intros front k count Hf.
  - reflexivity.
  - cbn [String.length List.seq map scan closing].
    rewrite getitem_nat
      by (unfold Py.len; rewrite length_append; cbn [String.length]; lia).
    rewrite <- Hf, get_app_length.
    destruct (Z.eqb_spec (step c count) 0) as [E|N].
    + cbn [option_map]. f_equal. f_equal.
      replace (Z.of_nat (String.length front) + 1)
        with (Z.of_nat (S (String.length front))) by lia.
      rewrite slice_nat;
        [| lia | unfold Py.len; rewrite length_append; cbn [String.length]; lia].
      f_equal. lia.
    + replace (front ++ String c r)%string
        with ((front ++ String c "") ++ r)%string
        by (now rewrite append_assoc).
      replace (S (String.length front)) with (start + S k)%nat by lia.
      rewrite IH by (rewrite length_append; cbn [String.length]; lia).
      f_equal. destruct (closing r (step c count)) as [m|]; [|reflexivity].
      cbn [option_map]. f_equal. f_equal. lia.
Qed.

(** What [closing] finds, from a depth above zero: the shortest prefix
    that brings the depth to zero, or none. *)
Lemma closing_spec s count :
  0 < count ->
  match closing s count with
  | Some m =>
      exists p q,
        s = (p ++ q)%string /\ String.length p = m /\ count + depth p = 0 /\
        forall p' q', p = (p' ++ q')%string -> q' <> ""%string ->
                      0 < count + depth p'
  | None =>
      forall p' q', s = (p' ++ q')%string -> 0 < count + depth p'
  end.
Proof.
  revert count. induction s as [|c r IH]; intros count Hc.
  - simpl. intros [|x p'] q' E; [simpl; lia | discriminate].
  - cbn [closing].
    pose proof (step_bounds c count) as Hb.
    destruct (Z.eqb_spec (step c count) 0) as [E|N].
    + exists (String c ""), r. repeat split.
      * cbn [depth]. rewrite step_shift in E. lia.
      * intros [|x p'] q' Ep Nq; [simpl; lia|].
        injection Ep as _ Ep. destruct p'; [|discriminate].
        simpl in Ep. subst q'. now elim Nq.
    + specialize (IH (step c count) ltac:(lia)).
      destruct (closing r (step c count)) as [m|]; cbn [option_map].
      * destruct IH as (p & q & -> & Hm & Hd & Hp).
        exists (String c p), q. repeat split.
        -- cbn [String.length]. now rewrite Hm.
        -- cbn [depth]. rewrite step_shift in Hd. lia.
        -- intros [|x p'] q' Ep Nq; [simpl; lia|].
           injection Ep as <- Ep. cbn [depth].
           specialize (Hp p' q' Ep Nq). rewrite step_shift in Hp. lia.
      * intros [|x p'] q' Ep; [simpl; lia|].
        injection Ep as <- Ep. cbn [depth].
        specialize (IH p' q' Ep). rewrite step_shift in IH. lia.
Qed.

(** What [extract] returns on a text with an opening brace: the loop
    starts on the first one. *)
Lemma extract_from_first_open pre post :
  (forall c, In c (Py.chars pre) -> c <> "{"%char) ->
  extract (pre ++ String "{" post)
  = Ok (option_map
          (fun m => String.substring (String.length pre) (S m)
                                     (pre ++ String "{" post))
          (closing post 1)).
Proof.
  intros H. unfold extract, find. rewrite (index_first_open pre post H).
  change (Py.len (pre ++ String "{" post))
    with (String.length (pre ++ String "{" post)).
  rewrite range_nat, length_append.
  replace (String.length pre + String.length (String "{" post)
           - String.length pre)%nat
    with (String.length (String "{" post)) by lia.
  pose proof (scan_closing (String "{" post) pre (String.length pre) 0 0
                ltac:(lia)) as S.
  rewrite Nat.add_0_r in S. rewrite S. f_equal.
  cbn [closing]. change (step "{" 0) with 1. cbn [Z.eqb].
  now destruct (closing post 1).
Qed.

End BraceFacts.

(* ================================================================== *)
(** ** Facts about the fetcher *)
(* ================================================================== *)
Module HarvestFacts.
Import ET Harvest ETFacts.

Lemma count_date_eq d w :
  count_date d w =
    match xml_file w with
    | None => 0
    | Some root => length (filter (is_puzzle_of d) (children root))
    end.
Proof.
  unfold count_date, findall. destruct (xml_file w) as [root|]; [|reflexivity].
  f_equal. induction (children root) as [|c l IH]; [reflexivity|].
  unfold is_puzzle_of at 1. cbn [filter].
  destruct (String.eqb (tag c) "puzzle"); cbn [filter andb]; [|exact IH].
  destruct (get c "date") as [x|]; [|exact IH].
  destruct (String.eqb x d); now rewrite IH.
Qed.

(** Tags and attributes decide the count. *)
Lemma filter_same_shape d l l' :
  map tag l = map tag l' -> map attrib l = map attrib l' ->
  length (filter (is_puzzle_of d) l) = length (filter (is_puzzle_of d) l').
Proof.
  revert l'. induction l as [|c l IH]; intros [|c' l'] Ht Ha;
    try discriminate; [reflexivity|].
  injection Ht as Ht0 Ht. injection Ha as Ha0 Ha.
  assert (E : is_puzzle_of d c = is_puzzle_of d c')
    by (unfold is_puzzle_of, get; now rewrite Ht0, Ha0).
  cbn [filter]. rewrite E.
  destruct (is_puzzle_of d c'); cbn [length]; now rewrite (IH l').
Qed.

Lemma member_present d w :
  member d (match xml_file w with
            | Some root => map (fun p => get p "date") (findall root "puzzle")
            | None => []
            end) = true <-> present d w.
Proof.
  unfold member, present. destruct (xml_file w) as [root|]; simpl.
  - rewrite existsb_exists. split.
    + intros (o & Ho & E). apply in_map_iff in Ho as (p & <- & Hp).
      destruct (get p "date") as [x|] eqn:G; [|discriminate].
      apply String.eqb_eq in E as ->. exists root, p. auto.
    + intros (root' & p & [= <-] & Hp & G).
      exists (Some d). split; [|apply String.eqb_refl].
      apply in_map_iff. exists p. auto.
  - split; [discriminate|]. now intros (root & p & E & _).
Qed.

Lemma present_count d w : present d w <-> 0 < count_date d w.
Proof.
  unfold present, count_date. destruct (xml_file w) as [root|].
  - split.
    + intros (root' & p & [= <-] & Hp & G).
      assert (Hin : In p (filter (fun p => match get p "date" with
                                           | Some x => String.eqb x d
                                           | None => false
                                           end) (findall root "puzzle"))).
      { apply filter_In. split; [exact Hp|]. rewrite G. apply String.eqb_refl. }
      destruct (filter _ _); [contradiction | simpl; lia].
    + intros H.
      destruct (filter _ _) as [|p l] eqn:E; [simpl in H; lia|].
      assert (Hin : In p (p :: l)) by now left.
      rewrite <- E in Hin. apply filter_In in Hin as [Hp G].
      destruct (get p "date") as [x|] eqn:Gx; [|discriminate].
      apply String.eqb_eq in G as ->. exists root, p. auto.
  - split; [now intros (root & p & E & _) | simpl; lia].
Qed.

Section Fetcher.
Variable http_get : nat -> response.
Variable script_strings : string -> list (option string).
Variable json_loads : string -> option json.

#[local] Abbreviation fetch_today_words :=
  (Harvest.fetch_today_words http_get script_strings json_loads).
#[local] Abbreviation main := (Harvest.main http_get script_strings json_loads).

(** Fetching sends one request and touches neither the archive nor the
    output. *)
Lemma fetch_today_words_world w :
  snd (fetch_today_words w) = mkWorld (xml_file w) (S (requests w)) (stdout w).
Proof.
  unfold Harvest.fetch_today_words, bind, get_page, lift, raise.
  destruct (http_get (requests w)) as [|status text]; [reflexivity|].
  destruct ((400 <=? status) && (status <? 600)); [reflexivity|].
  destruct (first_script (script_strings text)) as [script|]; [|reflexivity].
  destruct (String.eqb script ""); [reflexivity|].
  destruct (extract script) as [[json_str|]|e]; try reflexivity.
  destruct (json_loads json_str) as [data|]; [|reflexivity].
  destruct (json_get data "today" (JObj [])) as [today|e]; [|reflexivity].
  destruct (json_get today "answers" (JArr [])) as [answers|e]; [|reflexivity].
  now destruct (uppercase_answers answers).
Qed.

(** The date is there: nothing but the line printed. *)
Lemma main_present d w :
  present d w ->
  main d w =
    (Ok tt,
     mkWorld (xml_file w) (requests w)
             (stdout w ++ ["Puzzle for " ++ d ++ " already exists. No action taken."]%string)).
Proof.
  intros H. apply member_present in H.
  unfold Harvest.main, bind, load_existing_dates.
  destruct (xml_file w) as [root|] eqn:E; rewrite H; unfold print; cbn;
    now rewrite E.
Qed.

(** The date is not there: the run is the fetch and what follows it. *)
Lemma main_absent d w :
  ~ present d w ->
  main d w =
    match fetch_today_words w with
    | (Raise e, w') => (Raise e, w')
    | (Ok [], w') =>
        (Ok tt, mkWorld (xml_file w') (requests w')
                        (stdout w' ++ ["No words fetched for " ++ d ++ "."]%string))
    | (Ok words, w') =>
        (Ok tt,
         mkWorld (Some (indent 0
                   (append (match xml_file w' with
                            | Some root => root
                            | None => new "spelling_bees" []
                            end)
                      (mkElement "puzzle" [("date", d)] None None
                         (map (fun t => mkElement "word" [] (Some t) None [])
                              words)))))
                 (requests w')
                 (stdout w' ++ ["Appended puzzle for " ++ d ++ " with "
                                  ++ Py.str (length words) ++ " words."]%string))
    end.
Proof.
  intros H.
  assert (M : member d (match xml_file w with
                        | Some root => map (fun p => get p "date") (findall root "puzzle")
                        | None => []
                        end) = false).
  { destruct (member d _) eqn:E; [|reflexivity].
    elim H. now apply member_present. }
  unfold Harvest.main, bind at 1, load_existing_dates.
  destruct (xml_file w) as [root|] eqn:E; rewrite M; unfold bind;
    destruct (fetch_today_words w) as [[[|x l]|e] w']; reflexivity.
Qed.

(** Appending a puzzle for [d] adds one to the count for [d]. *)
Lemma count_after_append d words root0 n out :
  count_date d (mkWorld (Some (indent 0
                  (append root0
                     (mkElement "puzzle" [("date", d)] None None words)))) n out)
  = S (count_date d (mkWorld (Some root0) n out)).
Proof.
  rewrite !count_date_eq. cbn [xml_file].
  rewrite indent_children_eq.
  rewrite (filter_same_shape d _ (children root0
                                  ++ [mkElement "puzzle" [("date", d)] None None words])).
  - unfold append. cbn [children with_children].
    rewrite filter_app, length_app. cbn [filter].
    unfold is_puzzle_of at 2. cbn [tag get attrib dict_get].
    rewrite !String.eqb_refl. cbn [andb length]. lia.
  - apply indent_children_tags.
  - apply indent_children_attribs.
Qed.

(** A run leaves the count as it is or adds one, and adds none when the
    date is there. *)
Lemma main_count d w :
  count_date d (snd (main d w)) = count_date d w \/
  (count_date d w = 0 /\ count_date d (snd (main d w)) = 1).
Proof.
  destruct (Nat.eq_dec (count_date d w) 0) as [Z|NZ].
  - assert (A : ~ present d w) by (rewrite present_count; lia).
    rewrite (main_absent d w A).
    pose proof (fetch_today_words_world w) as F.
    destruct (fetch_today_words w) as [[[|x l]|e] w']; cbn [snd] in *; subst w'.
    + left. reflexivity.
    + right. split; [exact Z|]. cbn [xml_file requests stdout].
      destruct (xml_file w) as [root|] eqn:E.
      * rewrite count_after_append. f_equal.
        rewrite <- Z. unfold count_date. cbn [xml_file]. now rewrite E.
      * rewrite count_after_append. reflexivity.
    + left. reflexivity.
  - assert (P : present d w) by (rewrite present_count; lia).
    rewrite (main_present d w P). left. reflexivity.
Qed.
End Fetcher.

End HarvestFacts.
(* ================================================================== *)
(** ** Facts about indent *)
(* ================================================================== *)
Module LayoutFacts.
Import ET ETFacts Layout.

Lemma Element_induction (P : Element -> Prop) :
  (forall t a x tl cs, Forall P cs -> P (mkElement t a x tl cs)) ->
  forall e, P e.
Proof.
  intros H. fix IH 1. intros [t a x tl cs]. apply H.
  induction cs as [|c cs IHcs]; constructor; [apply IH | exact IHcs].
Qed.

Lemma all_space_spaces n : Py.all_space (spaces n) = true.
Proof. induction n as [|n IH]; [reflexivity | exact IH]. Qed.

Lemma blank_margin n : blank (Some (newline ++ spaces n)%string) = true.
Proof.
  unfold blank, Py.strip.
  rewrite PyFacts.lstrip_all_space; [apply orb_true_r|].
  cbn. apply all_space_spaces.
Qed.

Lemma indent_unfold level e :
  indent level e =
    match children e with
    | [] => mkElement (tag e) (attrib e)
              (if blank (text e) then Some "" else text e)
              (if blank (tail e) then Some (newline ++ spaces level)%string else tail e) []
    | cs => mkElement (tag e) (attrib e)
              (if blank (text e) then Some (newline ++ spaces (S level))%string else text e)
              (tail e) (indent_children level cs)
    end.
Proof.
  destruct e as [t a x tl [|c cs]]; [reflexivity|].
  pose proof (indent_children_eq level (mkElement t a x tl (c :: cs))) as E.
  cbn [children tag attrib text tail] in *. rewrite <- E. reflexivity.
Qed.

Lemma indent_with_tail level x y e :
  with_tail y (indent level (with_tail x e)) = with_tail y (indent level e).
Proof.
  rewrite !indent_unfold. destruct e as [t a tx tl [|c cs]]; cbn.
  - unfold with_tail. cbn. reflexivity.
  - unfold with_tail. cbn. reflexivity.
Qed.

Lemma indent_children_idem level cs :
  Forall (fun c => forall l, indent l (indent l c) = indent l c) cs ->
  indent_children level (indent_children level cs) = indent_children level cs.
Proof.
  induction 1 as [|c cs Hc F IH]; [reflexivity|].
  destruct cs as [|d r].
  - cbn [indent_children]. f_equal. rewrite indent_with_tail. now rewrite Hc.
  - change (indent_children level (c :: d :: r))
      with (with_tail (Some (newline ++ spaces (S level))%string) (indent (S level) c)
              :: indent_children level (d :: r)).
    destruct (indent_children level (d :: r)) as [|d' r'] eqn:E.
    + pose proof (indent_children_length level (d :: r)) as L.
      rewrite E in L. discriminate.
    + cbn [indent_children]. rewrite indent_with_tail, Hc. f_equal.
      exact IH.
Qed.

Lemma indent_idem e : forall level, indent level (indent level e) = indent level e.
Proof.
  induction e as [t a x tl cs IH] using Element_induction. intros level.
  rewrite (indent_unfold level (mkElement t a x tl cs)). cbn [children tag attrib text tail].
  destruct cs as [|c cs].
  - rewrite indent_unfold. cbn [children tag attrib text tail].
    f_equal.
    + destruct (blank x) eqn:B; [reflexivity | now rewrite B].
    + destruct (blank tl) eqn:B; [now rewrite blank_margin | now rewrite B].
  - rewrite indent_unfold. cbn [children tag attrib text tail].
    destruct (indent_children level (c :: cs)) as [|c' cs'] eqn:E.
    + pose proof (indent_children_length level (c :: cs)) as L.
      rewrite E in L. discriminate.
    + rewrite <- E. rewrite (indent_children_idem level _ IH). f_equal.
      destruct (blank x) eqn:B; [now rewrite blank_margin | now rewrite B].
Qed.


Lemma content_with_tail x e : content (with_tail x e) = content e.
Proof. now destruct e. Qed.

Lemma content_unfold e :
  content e = mkElement (tag e) (attrib e) (if blank (text e) then None else text e)
                        None (map content (children e)).
Proof. now destruct e. Qed.

Lemma content_indent_children level cs :
  Forall (fun c => forall l, content (indent l c) = content c) cs ->
  map content (indent_children level cs) = map content cs.
Proof.
  induction 1 as [|c cs Hc F IH]; [reflexivity|].
  destruct cs as [|d r].
  - cbn [indent_children map]. now rewrite content_with_tail, Hc.
  - change (indent_children level (c :: d :: r))
      with (with_tail (Some (newline ++ spaces (S level))%string) (indent (S level) c)
              :: indent_children level (d :: r)).
    cbn [map]. rewrite content_with_tail, Hc. f_equal. exact IH.
Qed.

Lemma content_indent e : forall level, content (indent level e) = content e.
Proof.
  induction e as [t a x tl cs IH] using Element_induction. intros level.
  rewrite indent_unfold. cbn [children tag attrib text tail].
  destruct cs as [|c cs].
  - cbn [content map]. f_equal.
    destruct (blank x) eqn:B; [reflexivity | now rewrite B].
  - rewrite content_unfold. cbn [children tag attrib text tail].
    rewrite (content_indent_children level _ IH).
    rewrite (content_unfold (mkElement t a x tl (c :: cs))).
    cbn [children tag attrib text tail]. f_equal.
    destruct (blank x) eqn:B; [now rewrite blank_margin | now rewrite B].
Qed.

Lemma indent_children_tail level cs idx c :
  nth_error (indent_children level cs) idx = Some c ->
  tail c = Some (child_tail level (length cs) idx).
Proof.
  revert idx. induction cs as [|x [|y r] IH]; intros idx H.
  - now destruct idx.
  - destruct idx as [|[|idx]]; try discriminate.
    injection H as <-. reflexivity.
  - change (indent_children level (x :: y :: r))
      with (with_tail (Some (newline ++ spaces (S level))%string) (indent (S level) x)
              :: indent_children level (y :: r)) in H.
    destruct idx as [|idx].
    + injection H as <-. reflexivity.
    + cbn [nth_error] in H. rewrite (IH idx H). unfold child_tail.
      cbn [length]. f_equal. f_equal.
      replace (S idx <? S (S (length r)) - 1) with (idx <? S (length r) - 1);
        [reflexivity|].
      destruct (Nat.ltb_spec idx (S (length r) - 1)),
               (Nat.ltb_spec (S idx) (S (S (length r)) - 1)); try reflexivity; lia.
Qed.

End LayoutFacts.

(* ================================================================== *)
(** ** Facts about letter case and the attempts of the scrambler *)
(* ================================================================== *)
Module CaseFacts.
Import Py PyFacts.

Lemma upper_char_idem c : upper_char (upper_char c) = upper_char c.
Proof.
  unfold upper_char.
  destruct ((97 <=? nat_of_ascii c) && (nat_of_ascii c <=? 122)) eqn:E.
  - apply andb_true_iff in E as [E1 E2]. apply Nat.leb_le in E1, E2.
    rewrite nat_ascii_embedding by lia.
    destruct (Nat.leb_spec 97 (nat_of_ascii c - 32)); [lia | reflexivity].
  - now rewrite E.
Qed.

Lemma upper_idem s : upper (upper s) = upper s.
Proof.
  induction s as [|c r IH]; simpl; [reflexivity|].
  now rewrite upper_char_idem, IH.
Qed.

Lemma upper_fixed s : upper s = s <-> Forall (fun c => upper_char c = c) (chars s).
Proof.
  induction s as [|c r IH]; simpl.
  - split; [constructor | reflexivity].
  - split.
    + intros [= Hc Hr]. constructor; [exact Hc | now apply IH].
    + intros H. inversion H as [|? ? Hc Hr]; subst. rewrite Hc. f_equal. now apply IH.
Qed.

End CaseFacts.

Module AttemptFacts.
Import Random Scrambler PyFacts RandomFacts ScramblerFacts CaseFacts.

Section WithGenerator.
Variable rng : nat -> nat.
#[local] Abbreviation attempt := (Scrambler.attempt rng).

Lemma attempt_next word k i :
  attempt word k (S i) = attempt word (k + (Py.len word - 1)) i.
Proof. unfold Scrambler.attempt. f_equal. f_equal. f_equal. lia. Qed.

Lemma scramble_loop_step word left k :
  scramble_loop rng word word (S left) k =
    scramble_loop rng word (attempt word k 0) left (k + (Py.len word - 1)).
Proof.
  cbn [scramble_loop]. rewrite String.eqb_refl. unfold bind.
  pose proof (shuffle_cursor rng (Py.chars word) k) as Hc.
  unfold Scrambler.attempt. rewrite Nat.mul_0_l, Nat.add_0_r.
  destruct (shuffle rng (Py.chars word) k) as [cs k'].
  cbn [snd fst] in *. rewrite <- len_chars in Hc. now subst k'.
Qed.

(** The loop returns the first attempt that differs from the word. *)
Lemma scramble_loop_first word left k i :
  i < left ->
  (forall j, j < i -> attempt word k j = word) ->
  attempt word k i <> word ->
  scramble_loop rng word word left k
  = (attempt word k i, k + S i * (Py.len word - 1)).
Proof.
  revert k i. induction left as [|left IH]; intros k i Hi Same Diff; [lia|].
  rewrite scramble_loop_step.
  destruct i as [|i].
  - rewrite scramble_loop_differs by exact Diff. f_equal. lia.
  - rewrite (Same 0) by lia.
    rewrite (IH (k + (Py.len word - 1)) i).
    + rewrite <- attempt_next. f_equal. lia.
    + lia.
    + intros j Hj. rewrite <- attempt_next. apply Same. lia.
    + now rewrite <- attempt_next.
Qed.

(** When every attempt gives the word the loop makes them all. *)
Lemma scramble_loop_all_same word left k :
  (forall j, j < left -> attempt word k j = word) ->
  scramble_loop rng word word left k = (word, k + left * (Py.len word - 1)).
Proof.
  revert k. induction left as [|left IH]; intros k Same.
  - cbn [scramble_loop]. unfold ret. f_equal. lia.
  - rewrite scramble_loop_step. rewrite (Same 0) by lia.
    rewrite IH.
    + f_equal. lia.
    + intros j Hj. rewrite <- attempt_next. apply Same. lia.
Qed.

(** Either some attempt is the first to differ, or none does. *)
Lemma first_change word k left :
  (forall j, j < left -> attempt word k j = word) \/
  exists i, i < left /\ (forall j, j < i -> attempt word k j = word) /\
            attempt word k i <> word.
Proof.
  induction left as [|left [All|(i & Hi & Same & Diff)]].
  - left. intros j Hj. lia.
  - destruct (string_dec (attempt word k left) word) as [E|N].
    + left. intros j Hj. destruct (Nat.eq_dec j left) as [->|]; [exact E|].
      apply All. lia.
    + right. exists left. auto.
  - right. exists i. split; [lia | auto].
Qed.

End WithGenerator.
End AttemptFacts.

(* ================================================================== *)
(** ** Facts about decimal texts and the date round trip *)
(* ================================================================== *)
Module DigitsFacts.
Import Digits PyZFacts.

Lemma string_revapp l acc :
  NilEmpty.string_of_uint (Decimal.revapp l acc)
  = (NilEmpty.string_of_uint (Decimal.revapp l Decimal.Nil)
       ++ NilEmpty.string_of_uint acc)%string.
Proof.
  revert acc.
  induction l as [|l IH|l IH|l IH|l IH|l IH|l IH|l IH|l IH|l IH|l IH];
    intros acc; [reflexivity|..];
    cbn [Decimal.revapp]; rewrite IH; symmetry; rewrite IH;
    now rewrite append_assoc.
Qed.

Lemma to_lu_digit n d :
  n <> 0 -> d < 10 ->
  NilEmpty.string_of_uint (Decimal.rev (Unsigned.to_lu (10 * n + d)))
  = (NilEmpty.string_of_uint (Decimal.rev (Unsigned.to_lu n))
       ++ String (digit_char d) "")%string.
Proof.
  intros Hn Hd. rewrite Nat.add_comm.
  do 10 (destruct d as [|d];
         [cbn [Nat.add]; rewrite ?Unsigned.to_lu_succ, Unsigned.to_lu_tenfold by exact Hn;
          cbn [Decimal.Little.succ]; unfold Decimal.rev; cbn [Decimal.revapp];
          now rewrite string_revapp|]).
  lia.
Qed.

(** The decimal text of a number is that of its tens followed by the
    digit of its units. *)
Lemma str_snoc n d :
  n <> 0 -> d < 10 ->
  Py.str (10 * n + d) = (Py.str n ++ String (digit_char d) "")%string.
Proof.
  intros Hn Hd. unfold Py.str. rewrite !Unsigned.to_uint_alt.
  now apply to_lu_digit.
Qed.

Lemma str_digit d : d < 10 -> Py.str d = String (digit_char d) "".
Proof.
  intros H. do 10 (destruct d as [|d]; [reflexivity|]). lia.
Qed.


Lemma nat_of_digit_char d : d < 10 -> nat_of_ascii (digit_char d) = 48 + d.
Proof. intros H. unfold digit_char. apply nat_ascii_embedding. lia. Qed.

(** The text of a year in four digits. *)
Lemma year_pad4_digits a b c d :
  a < 10 -> b < 10 -> c < 10 -> d < 10 ->
  10 * (10 * (10 * a + b) + c) + d <> 0 ->
  Datetime.year_pad4 (10 * (10 * (10 * a + b) + c) + d)
  = String (digit_char a) (String (digit_char b)
      (String (digit_char c) (String (digit_char d) ""))).
Proof.
  intros Ha Hb Hc Hd Hy. unfold Datetime.year_pad4.
  destruct (Nat.eq_dec a 0) as [->|Na].
  - destruct (Nat.eq_dec b 0) as [->|Nb].
    + destruct (Nat.eq_dec c 0) as [->|Nc].
      * cbn [Nat.mul Nat.add] in *.
        destruct (Nat.ltb_spec d 10); [|lia]. now rewrite str_digit.
      * replace (10 * (10 * (10 * 0 + 0) + c) + d) with (10 * c + d) by lia.
        destruct (Nat.ltb_spec (10 * c + d) 10); [lia|].
        destruct (Nat.ltb_spec (10 * c + d) 100); [|lia].
        rewrite str_snoc by assumption. now rewrite str_digit.
    + replace (10 * (10 * (10 * 0 + b) + c) + d) with (10 * (10 * b + c) + d) by lia.
      destruct (Nat.ltb_spec (10 * (10 * b + c) + d) 10); [lia|].
      destruct (Nat.ltb_spec (10 * (10 * b + c) + d) 100); [lia|].
      destruct (Nat.ltb_spec (10 * (10 * b + c) + d) 1000); [|lia].
      rewrite str_snoc by lia. rewrite str_snoc by assumption.
      now rewrite str_digit.
  - destruct (Nat.ltb_spec (10 * (10 * (10 * a + b) + c) + d) 10); [lia|].
    destruct (Nat.ltb_spec (10 * (10 * (10 * a + b) + c) + d) 100); [lia|].
    destruct (Nat.ltb_spec (10 * (10 * (10 * a + b) + c) + d) 1000); [lia|].
    rewrite str_snoc by lia. rewrite str_snoc by lia. rewrite str_snoc by assumption.
    now rewrite str_digit.
Qed.

Lemma digit_char_not_space d : d < 10 -> Py.isspace (digit_char d) = false.
Proof.
  intros H. unfold Py.isspace. rewrite nat_of_digit_char by exact H.
  repeat match goal with
         | |- context [?a <=? ?b] => destruct (Nat.leb_spec a b)
         | |- context [?a =? ?b] => destruct (Nat.eqb_spec a b)
         end; simpl; try reflexivity; lia.
Qed.

Lemma digits_read d r :
  d < 10 -> Datetime.digits 0 9 (String (digit_char d) r) = [(d, r)].
Proof.
  intros H. unfold Datetime.digits, Datetime.one, Datetime.in_range, Datetime.digit_val.
  rewrite nat_of_digit_char by exact H.
  destruct (Nat.leb_spec (48 + 0) (48 + d)); [|lia].
  destruct (Nat.leb_spec (48 + d) (48 + 9)); [|lia].
  cbn [andb]. do 2 f_equal. lia.
Qed.

Lemma two_read a b r :
  a < 10 -> b < 10 ->
  Datetime.two 0 9 0 9 (String (digit_char a) (String (digit_char b) r))
  = [(10 * a + b, r)].
Proof.
  intros Ha Hb. unfold Datetime.two, Datetime.seq.
  rewrite digits_read by exact Ha. cbn [flat_map].
  rewrite digits_read by exact Hb. reflexivity.
Qed.

Lemma re_Y_read a b c d r :
  a < 10 -> b < 10 -> c < 10 -> d < 10 ->
  Datetime.re_Y (String (digit_char a) (String (digit_char b)
                   (String (digit_char c) (String (digit_char d) r))))
  = [(10 * (10 * (10 * a + b) + c) + d, r)].
Proof.
  intros Ha Hb Hc Hd. unfold Datetime.re_Y. unfold Datetime.seq at 1.
  rewrite two_read by assumption. cbn [flat_map]. unfold Datetime.seq at 1.
  rewrite two_read by assumption. cbn [flat_map Datetime.yield app].
  do 2 f_equal. lia.
Qed.

Lemma year_bound : 9999 < 10 * 1000.
Proof. apply Nat.ltb_lt. vm_compute. reflexivity. Qed.

(** Every year a date can hold has four digits. *)
Lemma year_digits y :
  1 <= y <= 9999 ->
  exists a b c d,
    a < 10 /\ b < 10 /\ c < 10 /\ d < 10 /\
    y = 10 * (10 * (10 * a + b) + c) + d.
Proof.
  intros H. pose proof year_bound as B.
  assert (Hy : y < 1000 * 10) by lia. clear H B.
  pose proof (Nat.div_mod_eq y 10) as E1.
  pose proof (Nat.div_mod_eq (y / 10) 10) as E2.
  pose proof (Nat.div_mod_eq (y / 10 / 10) 10) as E3.
  pose proof (Nat.mod_upper_bound y 10 ltac:(lia)) as B1.
  pose proof (Nat.mod_upper_bound (y / 10) 10 ltac:(lia)) as B2.
  pose proof (Nat.mod_upper_bound (y / 10 / 10) 10 ltac:(lia)) as B3.
  exists (y / 10 / 10 / 10), (y / 10 / 10 mod 10), (y / 10 mod 10), (y mod 10).
  set (q1 := y / 10) in *. set (d := y mod 10) in *.
  set (q2 := q1 / 10) in *. set (c := q1 mod 10) in *.
  set (q3 := q2 / 10) in *. set (b := q2 mod 10) in *.
  repeat split; lia.
Qed.

End DigitsFacts.

Module RoundTripFacts.
Import Datetime DatetimeFacts RoundTrip.

Lemma flat_map_assoc {A B C} (f : A -> list B) (g : B -> list C) l :
  flat_map g (flat_map f l) = flat_map (fun a => flat_map g (f a)) l.
Proof.
  induction l as [|a l IH]; [reflexivity|].
  cbn [flat_map]. now rewrite flat_map_app, IH.
Qed.

Lemma seq_assoc {A B C} (p : matcher A) (f : A -> matcher B) (g : B -> matcher C) s :
  seq (seq p f) g s = seq p (fun a => seq (f a) g) s.
Proof.
  unfold seq. rewrite flat_map_assoc. apply flat_map_ext. now intros [a r].
Qed.

Lemma seq_ext {A B} (p : matcher A) (f g : A -> matcher B) s :
  (forall a r, f a r = g a r) -> seq p f s = seq p g s.
Proof. intros H. unfold seq. apply flat_map_ext. intros [a r]. apply H. Qed.

Lemma seq_yield {A B} (a : A) (g : A -> matcher B) s : seq (yield a) g s = g a s.
Proof. unfold seq, yield. cbn. apply app_nil_r. Qed.

Lemma day_comma_then {A} (K : nat -> matcher A) s :
  seq re_spaces (fun _ => seq re_d (fun x => seq (lit ",") (fun _ => K x))) s
  = seq re_day_comma K s.
Proof.
  unfold re_day_comma. rewrite seq_assoc. apply seq_ext. intros _ r.
  rewrite seq_assoc. apply seq_ext. intros x r'.
  rewrite seq_assoc. apply seq_ext. intros _ r''.
  now rewrite seq_yield.
Qed.

Lemma year_parse {A} (f : nat -> A) y :
  1 <= y <= 9999 ->
  seq re_spaces (fun _ => seq re_Y (fun y' => yield (f y'))) (" " ++ year_pad4 y)%string
  = [(f y, "")].
Proof.
  intros H.
  destruct (DigitsFacts.year_digits y H) as (a & b & c & d & Ha & Hb & Hc & Hd & ->).
  rewrite DigitsFacts.year_pad4_digits by (assumption || lia).
  unfold seq at 1, re_spaces.
  cbn [String.append re_spaces_from].
  change (Py.isspace " ") with true. cbn iota.
  rewrite DigitsFacts.digit_char_not_space by exact Ha.
  cbn [app flat_map]. rewrite app_nil_r. unfold seq.
  rewrite DigitsFacts.re_Y_read by assumption. reflexivity.
Qed.

Lemma month_parse m r :
  1 <= m <= 12 -> re_B (nth (m - 1) month_names "" ++ r)%string = [(m, r)].
Proof.
  intros H.
  do 13 (destruct m as [|m]; [try lia; reflexivity|]). lia.
Qed.

Lemma day_parse d r :
  1 <= d <= 31 -> re_day_comma (" " ++ pad2 d ++ "," ++ r)%string = [(d, r)].
Proof.
  intros H.
  do 32 (destruct d as [|d]; [try lia; reflexivity|]). lia.
Qed.

Lemma days_in_month_le y m : days_in_month y m <= 31.
Proof.
  unfold days_in_month.
  do 13 (destruct m as [|m]; [try lia; try (destruct (is_leap y); lia)|]). lia.
Qed.

Lemma valid_ranges y m d :
  valid y m d = true -> 1 <= y <= 9999 /\ 1 <= m <= 12 /\ 1 <= d <= 31.
Proof.
  unfold valid. intros H.
  repeat (apply andb_true_iff in H as [H ?]).
  repeat match goal with H : (_ <=? _) = true |- _ => apply Nat.leb_le in H end.
  pose proof (days_in_month_le y m). lia.
Qed.

(** A date written in long form is read back as the same date. *)
Lemma strptime_strftime dt :
  valid (year dt) (month dt) (day dt) = true ->
  strptime_long (strftime_long year_pad4 dt) = Some dt.
Proof.
  destruct dt as [y m d]. cbn [year month day]. intros V.
  destruct (valid_ranges _ _ _ V) as (Hy & Hm & Hd).
  unfold strptime_long, strftime_long. cbn [year month day].
  unfold seq at 1. rewrite month_parse by exact Hm.
  cbn [flat_map]. rewrite app_nil_r.
  rewrite (day_comma_then
             (fun d0 => seq re_spaces (fun _ => seq re_Y (fun y0 => yield (mkdt y0 m d0))))).
  unfold seq at 1.
  change (" " ++ pad2 d ++ ", " ++ year_pad4 y)%string
    with (" " ++ pad2 d ++ "," ++ (" " ++ year_pad4 y))%string.
  rewrite day_parse by exact Hd.
  cbn [flat_map]. rewrite app_nil_r.
  rewrite (year_parse (fun y0 => mkdt y0 m d)) by exact Hy.
  unfold finish. cbn [year month day]. now rewrite V.
Qed.

End RoundTripFacts.

(* ================================================================== *)
(** ** Facts about strip *)
(* ================================================================== *)
Module StripFacts.
Import Py PyFacts CaseFacts.

Lemma upper_lstrip s : lstrip (upper s) = upper (lstrip s).
Proof.
  induction s as [|c r IH]; [reflexivity|].
  cbn [upper lstrip]. rewrite upper_char_isspace.
  destruct (isspace c); [exact IH | reflexivity].
Qed.

Lemma upper_rstrip s : rstrip (upper s) = upper (rstrip s).
Proof.
  induction s as [|c r IH]; [reflexivity|].
  cbn [upper rstrip]. rewrite IH, upper_char_isspace.
  destruct (rstrip r) as [|d r']; cbn [upper]; [|reflexivity].
  now destruct (isspace c).
Qed.

Lemma upper_strip s : strip (upper s) = upper (strip s).
Proof. unfold strip. now rewrite upper_lstrip, upper_rstrip. Qed.

Lemma rstrip_idem s : rstrip (rstrip s) = rstrip s.
Proof.
  induction s as [|c r IH]; [reflexivity|].
  cbn [rstrip]. destruct (rstrip r) as [|d r'] eqn:E.
  - destruct (isspace c) eqn:Sc; [reflexivity|].
    cbn [rstrip]. now rewrite Sc.
  - cbn [rstrip]. cbn [rstrip] in IH. rewrite IH. reflexivity.
Qed.

(** A text that starts with no blank keeps its first character under
    [rstrip]. *)
Lemma rstrip_head c r :
  isspace c = false -> exists r', rstrip (String c r) = String c r'.
Proof.
  intros H. cbn [rstrip]. destruct (rstrip r) as [|d r'].
  - rewrite H. now exists "".
  - now exists (String d r').
Qed.

Lemma lstrip_head s :
  lstrip s = "" \/ exists c r, lstrip s = String c r /\ isspace c = false.
Proof.
  induction s as [|c r IH]; [now left|].
  cbn [lstrip]. destruct (isspace c) eqn:E; [exact IH|].
  right. now exists c, r.
Qed.

Lemma strip_idem s : strip (strip s) = strip s.
Proof.
  unfold strip. destruct (lstrip_head s) as [->|(c & r & -> & H)]; [reflexivity|].
  destruct (rstrip_head c r H) as (r' & E). rewrite E.
  cbn [lstrip]. rewrite H. rewrite <- E. apply rstrip_idem.
Qed.

End StripFacts.


(* ================================================================== *)
(** ** Facts about the puzzle records *)
(* ================================================================== *)
Module RecordsFacts.
Import ET ETFacts Random Builtins Builder BuilderFacts SortedFacts Datetime
       DatetimeFacts RoundTripFacts Records.

Lemma strptime_iso_valid s dt :
  strptime_iso s = Some dt -> valid (year dt) (month dt) (day dt) = true.
Proof. apply finish_valid. Qed.

(** A long-form date does not read as an ISO date. *)
Lemma strptime_iso_long year_text dt :
  valid (year dt) (month dt) (day dt) = true ->
  strptime_iso (strftime_long year_text dt) = None.
Proof.
  intros V. destruct dt as [y m d]. cbn [year month day] in V.
  destruct (valid_ranges _ _ _ V) as (_ & Hm & _).
  unfold strftime_long. cbn [month].
  do 13 (destruct m as [|m]; [try lia; reflexivity|]). lia.
Qed.

Lemma sorted_of_sorted {A K} (key : A -> K) (lt : K -> K -> bool) l :
  StronglySorted (le_key key lt) l -> sorted key lt l = l.
Proof.
  induction 1 as [|x l S IH F]; [reflexivity|].
  unfold sorted in *. cbn [fold_right]. rewrite IH.
  destruct l as [|y t]; [reflexivity|].
  cbn [insort]. inversion F as [|? ? Hxy _]; subst.
  unfold le_key in Hxy. now rewrite Hxy.
Qed.

Lemma StronglySorted_map {A B} (f : A -> B) (R : B -> B -> Prop) l :
  StronglySorted R (map f l) -> StronglySorted (fun a b => R (f a) (f b)) l.
Proof.
  induction l as [|x l IH]; intros H; [constructor|].
  cbn [map] in H. apply StronglySorted_inv in H as [S F].
  constructor; [now apply IH|].
  rewrite Forall_forall in F |- *. intros b Hb. apply F. now apply in_map.
Qed.

Section Enricher.
Variable year_text : nat -> string.
Variable rng : nat -> nat.

#[local] Abbreviation records := (Builder.records year_text rng).
#[local] Abbreviation transformed := (Builder.transformed year_text rng).
#[local] Abbreviation transform := (Builder.transform year_text rng).

Lemma transform_attrib s k :
  attrib (fst (transform s k)) =
    [("date", reformat year_text (get_or s "date" ""));
     ("url", get_or s "url" "");
     ("puzzleid", get_or s "puzzleid" "");
     ("letters", get_or s "letters" "")].
Proof.
  unfold Builder.transform, bind.
  now destruct (for_each (word_element rng) (findall s "word") k).
Qed.

Lemma transform_tag s k : tag (fst (transform s k)) = "puzzle".
Proof.
  unfold Builder.transform, bind.
  now destruct (for_each (word_element rng) (findall s "word") k).
Qed.

Lemma transformed_Forall2 root k :
  Forall2 (fun s x => exists k', x = fst (transform s k'))
          (findall root "puzzle") (transformed root k).
Proof. apply for_each_Forall2. Qed.

(** The display dates of the enriched puzzles, in source order. *)
Lemma transformed_dates root k :
  map (fun x => get x "date") (transformed root k)
  = map (fun s => Some (reformat year_text (get_or s "date" "")))
        (findall root "puzzle").
Proof.
  pose proof (transformed_Forall2 root k) as F.
  induction F as [|s x l l' (k' & ->) F IH]; [reflexivity|].
  cbn [map]. now rewrite transform_date, IH.
Qed.

Lemma written_dates l l' :
  Forall2 written_as l l' ->
  map (fun p => get p "date") l' = map (fun x => get x "date") l.
Proof.
  induction 1 as [|x p l l' W F IH]; [reflexivity|].
  cbn [map]. now rewrite (written_as_date _ _ W), IH.
Qed.

Lemma written_as_get x p key :
  written_as x p -> key <> "subscribersonly" -> get p key = get x key.
Proof.
  intros (flagged & tl & ->) N. cbv zeta.
  rewrite with_tail_get, indent_get.
  destruct flagged.
  - rewrite get_set_other by congruence. apply get_pop_other. congruence.
  - apply get_pop_other. congruence.
Qed.

Lemma written_as_children x p :
  written_as x p -> children p = indent_children 1 (children x).
Proof.
  intros (flagged & tl & ->). cbv zeta.
  change (children (with_tail tl ?e)) with (children e).
  rewrite indent_children_eq. now destruct flagged.
Qed.

Lemma copy_letter_has s i :
  copy_letter s i =
    if has_letter s i
    then [with_text (text (match find s ("letter" ++ Py.str i)%string with
                           | Some orig => orig
                           | None => new "" []
                           end))
                    (new ("letter" ++ Py.str i)%string [])]
    else [].
Proof.
  unfold copy_letter, has_letter.
  destruct (find s ("letter" ++ Py.str i)) as [orig|]; [|reflexivity].
  destruct (text orig) as [t|]; [|reflexivity].
  now destruct (String.eqb t "").
Qed.

Lemma copy_letter_tags s l :
  map tag (flat_map (copy_letter s) l)
  = map (fun i => ("letter" ++ Py.str i)%string) (filter (has_letter s) l).
Proof.
  induction l as [|i l IH]; [reflexivity|].
  cbn [flat_map filter]. rewrite map_app, IH, copy_letter_has.
  now destruct (has_letter s i).
Qed.

End Enricher.
End RecordsFacts.


(* ================================================================== *)
(** ** Facts about the fetch *)
(* ================================================================== *)
Module FetchFacts.
Import ET ETFacts Harvest HarvestFacts PyZ PyZFacts BraceFacts.

Lemma first_script_none scripts :
  (forall s, In (Some s) scripts -> PyZ.contains "window.gameData" s = false) ->
  first_script scripts = None.
Proof.
  induction scripts as [|[s|] rest IH]; intros H; [reflexivity| |].
  - cbn [first_script]. rewrite (H s) by now left.
    rewrite andb_false_r. apply IH. intros s' Hs'. apply H. now right.
  - cbn [first_script]. apply IH. intros s' Hs'. apply H. now right.
Qed.

Lemma first_script_some scripts s :
  first_script scripts = Some s ->
  In (Some s) scripts /\ s <> "" /\ PyZ.contains "window.gameData" s = true.
Proof.
  induction scripts as [|[x|] rest IH]; intros H; [discriminate| |].
  - cbn [first_script] in H.
    destruct (negb (String.eqb x "") && PyZ.contains "window.gameData" x) eqn:E.
    + injection H as <-. apply andb_true_iff in E as [E1 E2].
      split; [now left|]. split; [|exact E2].
      intros ->. discriminate.
    + destruct (IH H) as (H1 & H2 & H3). split; [now right | auto].
  - destruct (IH H) as (H1 & H2 & H3). split; [now right | auto].
Qed.

(** From a depth above zero that no prefix brings to zero the loop runs
    to the end. *)
Lemma closing_none s count :
  (0 < count)%Z ->
  (forall p q, s = (p ++ q)%string -> (0 < count + depth p)%Z) ->
  closing s count = None.
Proof.
  intros Hc H. pose proof (closing_spec s count Hc) as S.
  destruct (closing s count) as [m|]; [|reflexivity].
  destruct S as (p & q & E & _ & D & _). specialize (H p q E). lia.
Qed.

Lemma get_In n s c : String.get n s = Some c -> In c (Py.chars s).
Proof.
  revert n. induction s as [|x s IH]; intros n H; [discriminate|].
  destruct n as [|n]; cbn in H.
  - injection H as ->. now left.
  - right. now apply (IH n).
Qed.

Lemma get_Some n s : n < String.length s -> exists c, String.get n s = Some c.
Proof.
  revert n. induction s as [|x s IH]; intros n H; cbn in H; [lia|].
  destruct n as [|n]; [now exists x|]. apply IH. lia.
Qed.

(** Below depth zero, on a text with no opening brace, the loop runs to
    the end. *)
Lemma scan_below script start a n count :
  (forall c, In c (Py.chars script) -> c <> "{"%char) ->
  (count < 0)%Z -> a + n <= String.length script ->
  scan script start (map Z.of_nat (List.seq a n)) count = Ok None.
Proof.
  intros NB. revert a count. induction n as [|n IH]; intros a count Hc Hl;
    [reflexivity|].
  cbn [List.seq map scan].
  rewrite getitem_nat by (unfold Py.len; lia).
  destruct (get_Some a script ltac:(lia)) as (c & G). rewrite G.
  assert (S : (step c count <= count)%Z).
  { unfold step. destruct (Ascii.eqb_spec c "{") as [->|_].
    - elim (NB "{"%char); [now apply (get_In a) | reflexivity].
    - destruct (Ascii.eqb c "}"); lia. }
  destruct (Z.eqb_spec (step c count) 0); [lia|].
  apply IH; lia.
Qed.

Lemma index_no_open s :
  (forall c, In c (Py.chars s) -> c <> "{"%char) -> String.index 0 "{" s = None.
Proof.
  induction s as [|x s IH]; intros H; [reflexivity|].
  cbn [String.index String.prefix].
  destruct (ascii_dec "{" x) as [<-|N].
  - elim (H "{"%char); [now left | reflexivity].
  - rewrite IH; [reflexivity|]. intros c Hc. apply H. now right.
Qed.

Lemma range_from_minus_one n :
  PyZ.range (-1) (Z.of_nat n) = (-1)%Z :: map Z.of_nat (List.seq 0 n).
Proof.
  unfold PyZ.range.
  replace (Z.to_nat (Z.of_nat n - -1)) with (S n) by lia.
  cbn [List.seq map]. f_equal.
  rewrite <- seq_shift, map_map. apply map_ext. intros k. lia.
Qed.

(** A text with an opening brace splits at the first one. *)
Lemma split_first_open s :
  In "{"%char (Py.chars s) ->
  exists pre post,
    s = (pre ++ String "{" post)%string /\
    forall c, In c (Py.chars pre) -> c <> "{"%char.
Proof.
  induction s as [|x s IH]; intros H; [contradiction|].
  destruct (ascii_dec x "{") as [->|N].
  - exists "", s. split; [reflexivity|]. intros c [].
  - destruct H as [H|H]; [contradiction|].
    destruct (IH H) as (pre & post & -> & NB).
    exists (String x pre), post. split; [reflexivity|].
    intros c [<-|Hc]; [exact N | now apply NB].
Qed.

Lemma substring_zero n s : String.substring n 0 s = "".
Proof.
  revert n. induction s as [|c r IH]; intros [|n]; cbn; auto.
Qed.

(** A slice that ends at position zero is empty. *)
Lemma slice_to_zero s a : PyZ.slice s a 0 = "".
Proof.
  unfold PyZ.slice. cbn [Z.ltb Z.compare].
  set (n := Z.of_nat (Py.len s)).
  set (x := if (a <? 0)%Z then Z.max 0 (a + n) else Z.min a n).
  assert (Hx : (0 <= x)%Z).
  { unfold x. destruct (Z.ltb_spec a 0); lia. }
  replace (Z.to_nat (Z.min 0 n - x)) with 0 by lia.
  apply substring_zero.
Qed.

End FetchFacts.


Module FetchSteps.
Import ET Harvest HarvestFacts FetchFacts.

Section Fetcher.
Variable http_get : nat -> response.
Variable script_strings : string -> list (option string).
Variable json_loads : string -> option json.

(** What [fetch_today_words] returns once the page is there and a
    script holds the marker. *)
Lemma fetch_with_script w status text script :
  http_get (requests w) = Response status text ->
  status < 400 \/ 600 <= status ->
  first_script (script_strings text) = Some script ->
  fst (fetch_today_words http_get script_strings json_loads w)
  = match extract script with
    | Raise e => Raise e
    | Ok None => Raise UnboundLocalError
    | Ok (Some json_str) =>
        match json_loads json_str with
        | None => Raise JSONDecodeError
        | Some data =>
            match json_get data "today" (JObj []) with
            | Raise e => Raise e
            | Ok today =>
                match json_get today "answers" (JArr []) with
                | Raise e => Raise e
                | Ok answers => uppercase_answers answers
                end
            end
        end
    end.
Proof.
  intros E Hs F.
  destruct (first_script_some _ _ F) as (_ & Ne & _).
  unfold fetch_today_words, bind, get_page, lift, raise. rewrite E.
  replace ((400 <=? status) && (status <? 600)) with false.
  2:{ symmetry. apply andb_false_iff.
      destruct Hs; [left; apply Nat.leb_gt; lia | right; apply Nat.ltb_ge; lia]. }
  rewrite F.
  destruct (String.eqb_spec script ""); [contradiction|].
  destruct (extract script) as [[json_str|]|e]; try reflexivity.
  destruct (json_loads json_str) as [data|]; [|reflexivity].
  destruct (json_get data "today" (JObj [])) as [today|e]; [|reflexivity].
  destruct (json_get today "answers" (JArr [])) as [answers|e]; [|reflexivity].
  now destruct (uppercase_answers answers).
Qed.
End Fetcher.

Lemma upper_all_texts l : upper_all (map JStr l) = Ok (map Py.upper l).
Proof.
  induction l as [|s l IH]; [reflexivity|].
  cbn [map upper_all]. now rewrite IH.
Qed.

End FetchSteps.


(* ================================================================== *)
(** ** Facts about years written without padding *)
(* ================================================================== *)
Module UnpaddedFacts.
Import Digits DigitsFacts Datetime RoundTrip RoundTripFacts.

(** From the year 1000 on the padded year is the plain decimal text. *)
Lemma year_pad4_from_1000 y : 1000 <= y -> year_pad4 y = Py.str y.
Proof.
  intros H. unfold year_pad4.
  destruct (Nat.ltb_spec y 10); [lia|].
  destruct (Nat.ltb_spec y 100); [lia|].
  destruct (Nat.ltb_spec y 1000); [lia|]. reflexivity.
Qed.

(** A year below 1000 has one, two or three digits. *)
Lemma str_below_1000 y :
  y < 1000 ->
  exists a b c,
    a < 10 /\ b < 10 /\ c < 10 /\
    (Py.str y = String (digit_char c) "" \/
     Py.str y = String (digit_char b) (String (digit_char c) "") \/
     Py.str y = String (digit_char a) (String (digit_char b) (String (digit_char c) ""))).
Proof.
  intros Hy.
  pose proof (Nat.div_mod_eq y 10) as E1.
  pose proof (Nat.div_mod_eq (y / 10) 10) as E2.
  pose proof (Nat.mod_upper_bound y 10 ltac:(lia)) as B1.
  pose proof (Nat.mod_upper_bound (y / 10) 10 ltac:(lia)) as B2.
  exists (y / 10 / 10), (y / 10 mod 10), (y mod 10).
  set (q1 := y / 10) in *. set (c := y mod 10) in *.
  set (a := q1 / 10) in *. set (b := q1 mod 10) in *.
  split; [lia|]. split; [exact B2|]. split; [exact B1|].
  destruct (Nat.eq_dec q1 0) as [Z1|N1].
  - left. replace y with c by lia. now apply str_digit.
  - right. rewrite E1. rewrite str_snoc by assumption.
    destruct (Nat.eq_dec a 0) as [Z2|N2].
    + left. replace q1 with b by lia. now rewrite str_digit.
    + right. rewrite E2. rewrite str_snoc by assumption.
      rewrite str_digit by lia. reflexivity.
Qed.

(** A text of fewer than four digits is no year for [%Y]. *)
Lemma year_unpadded_rejected {A} (f : nat -> A) y :
  y < 1000 ->
  seq re_spaces (fun _ => seq re_Y (fun y' => yield (f y'))) (" " ++ Py.str y)%string
  = [].
Proof.
  intros Hy.
  destruct (str_below_1000 y Hy) as (a & b & c & Ha & Hb & Hc & [E|[E|E]]);
    rewrite E; unfold seq at 1, re_spaces;
    cbn [String.append re_spaces_from];
    change (Py.isspace " ") with true; cbn iota;
    rewrite digit_char_not_space by assumption;
    cbn [app flat_map]; rewrite app_nil_r; unfold seq at 1, re_Y; unfold seq at 1.
  - unfold two, seq. rewrite digits_read by assumption. reflexivity.
  - rewrite two_read by assumption. cbn [flat_map]. rewrite app_nil_r.
    unfold seq at 1. reflexivity.
  - rewrite two_read by assumption. cbn [flat_map]. rewrite app_nil_r.
    unfold seq at 1. unfold two, seq. rewrite digits_read by assumption. reflexivity.
Qed.

(** A long-form date whose year is written in four digits is read back
    as the same date. *)
Lemma strptime_strftime_padded year_text dt :
  valid (year dt) (month dt) (day dt) = true ->
  year_text (year dt) = year_pad4 (year dt) ->
  strptime_long (strftime_long year_text dt) = Some dt.
Proof.
  intros V E. rewrite <- (strptime_strftime dt V).
  unfold strftime_long. now rewrite E.
Qed.

(** A long-form date whose year is written unpadded, in fewer than four
    digits, is rejected. *)
Lemma strptime_strftime_unpadded year_text dt :
  valid (year dt) (month dt) (day dt) = true ->
  year dt < 1000 ->
  year_text (year dt) = Py.str (year dt) ->
  strptime_long (strftime_long year_text dt) = None.
Proof.
  destruct dt as [y m d]. cbn [year month day]. intros V Hy E.
  destruct (valid_ranges _ _ _ V) as (_ & Hm & Hd).
  unfold strptime_long, strftime_long. cbn [year month day]. rewrite E.
  unfold seq at 1. rewrite month_parse by exact Hm.
  cbn [flat_map]. rewrite app_nil_r.
  rewrite (day_comma_then
             (fun d0 => seq re_spaces (fun _ => seq re_Y (fun y0 => yield (mkdt y0 m d0))))).
  unfold seq at 1.
  change (" " ++ pad2 d ++ ", " ++ Py.str y)%string
    with (" " ++ pad2 d ++ "," ++ (" " ++ Py.str y))%string.
  rewrite day_parse by exact Hd.
  cbn [flat_map]. rewrite app_nil_r.
  now rewrite (year_unpadded_rejected (fun y0 => mkdt y0 m d)) by exact Hy.
Qed.

End UnpaddedFacts.


(* ================================================================== *)
(** ** Facts about the order and the alignment of the records *)
(* ================================================================== *)
Module AlignedFacts.
Import ET ETFacts Random Builtins Builder BuilderFacts SortedFacts Datetime
       DatetimeFacts Records RecordsFacts.

Lemma Forall2_in_l {A B} (R : A -> B -> Prop) l l' x :
  Forall2 R l l' -> In x l -> exists y, In y l' /\ R x y.
Proof.
  induction 1 as [|a b l l' Rab F IH]; simpl; [contradiction|].
  intros [<-|H]; [eauto|].
  destruct (IH H) as (y & Hy & Ry). eauto.
Qed.

Lemma Forall2_compose {A B C} (R : A -> B -> Prop) (S : B -> C -> Prop) l m n :
  Forall2 R l m -> Forall2 S m n ->
  Forall2 (fun a c => exists b, R a b /\ S b c) l n.
Proof.
  intros F. revert n. induction F as [|a b l m Rab F IH]; intros n G.
  - inversion G. constructor.
  - inversion G as [|? c ? n' Sbc G']; subst. constructor; [eauto|]. now apply IH.
Qed.

Lemma Forall2_impl {A B} (R S : A -> B -> Prop) l l' :
  (forall a b, R a b -> S a b) -> Forall2 R l l' -> Forall2 S l l'.
Proof. intros H. induction 1; constructor; auto. Qed.

(** The loop of [indent] dresses the children one by one, in place. *)
Lemma indent_children_Forall2 level cs :
  Forall2 (fun c y => exists tl, y = with_tail tl (indent (S level) c))
          cs (indent_children level cs).
Proof.
  induction cs as [|c [|d r] IH]; [constructor| |].
  - constructor; [eexists; reflexivity | constructor].
  - change (indent_children level (c :: d :: r))
      with (with_tail (Some (newline ++ spaces (S level))%string) (indent (S level) c)
              :: indent_children level (d :: r)).
    constructor; [eexists; reflexivity | exact IH].
Qed.

(** In a sorted list an item at an earlier position is below one at a
    later position. *)
Lemma StronglySorted_nth {A} (R : A -> A -> Prop) l i j a b :
  StronglySorted R l -> i < j ->
  nth_error l i = Some a -> nth_error l j = Some b -> R a b.
Proof.
  intros S. revert i j. induction S as [|x l S IH F]; intros i j Hij Ha Hb.
  - now destruct i.
  - destruct j as [|j]; [lia|]. cbn [nth_error] in Hb.
    destruct i as [|i].
    + injection Ha as <-. rewrite Forall_forall in F. apply F.
      now apply nth_error_In in Hb.
    + cbn [nth_error] in Ha. apply (IH i j); [lia | assumption | assumption].
Qed.

Section Enricher.
Variable year_text : nat -> string.
Variable rng : nat -> nat.

#[local] Abbreviation records := (Builder.records year_text rng).
#[local] Abbreviation record_of := (Builder.record_of year_text rng).

(** The written records are in ascending order of their keys. *)
Lemma records_sorted root k :
  StronglySorted (fun p q => leb (iso_key p) (iso_key q) = true)
                 (records (Some root) k).
Proof.
  eapply StronglySorted_Forall2;
    [| apply records_written_as
     | apply (sorted_StronglySorted iso_key ltb ltb_asym leb_trans)].
  intros x y p q Wp Wq Hxy. unfold le_key in Hxy.
  rewrite (written_as_key _ _ Wp), (written_as_key _ _ Wq).
  unfold leb. now rewrite Hxy.
Qed.

(** Every source puzzle has its record among those written. *)
Lemma source_has_record root k s :
  In s (findall root "puzzle") ->
  exists p, In p (records (Some root) k) /\ record_of s p.
Proof.
  intros Hs.
  destruct (Forall2_in_l _ _ _ _ (transformed_Forall2 year_text rng root k) Hs)
    as (x & Hx & k' & ->).
  apply (Permutation_in _ (Permutation_sym (sorted_Permutation iso_key ltb _))) in Hx.
  destruct (Forall2_in_l _ _ _ _ (records_written_as year_text rng root k) Hx)
    as (p & Hp & W).
  exists p. split; [exact Hp|]. now exists k'.
Qed.

(** The children of the record of [s]: its letters, then the [words]
    element, whose children are the word records of the words of [s],
    one for each and in their order. *)
Lemma record_words_aligned s p :
  record_of s p ->
  exists letters ws,
    children p = letters ++ [ws] /\
    Forall (fun c => tag c <> "words") letters /\
    tag ws = "words" /\
    Forall2 (fun w wd => exists k2,
               tag wd = "word" /\ children wd = [] /\
               attrib wd = attrib (fst (word_element rng w k2)))
            (findall s "word") (children ws).
Proof.
  intros (k' & W).
  rewrite (written_as_children _ _ W).
  rewrite transform_children, indent_children_snoc.
  eexists. eexists. split; [reflexivity|]. split.
  { apply Forall_forall. intros c Hc.
    apply in_map_iff in Hc as (c0 & <- & Hc0).
    rewrite with_tail_tag, indent_tag.
    apply in_flat_map in Hc0 as (i & _ & Hi).
    now apply (copy_letter_tag _ _ _ Hi). }
  split; [now rewrite with_tail_tag, indent_tag|].
  change (children (with_tail ?t ?e)) with (children e).
  rewrite indent_children_eq. cbn [children].
  eapply Forall2_impl;
    [| exact (Forall2_compose _ _ _ _ _
                (for_each_Forall2 (word_element rng) (findall s "word") k')
                (indent_children_Forall2 2 _))].
  intros w wd (x & (k2 & ->) & tl & ->). exists k2.
  rewrite with_tail_tag, indent_tag.
  change (children (with_tail ?t ?e)) with (children e).
  change (attrib (with_tail ?t ?e)) with (attrib e).
  rewrite indent_children_eq, indent_attrib.
  unfold word_element, bind. destruct (word_attrs rng w k2).
  repeat split.
Qed.

End Enricher.
End AlignedFacts.


Example scramble_sky :
  fst (Scrambler.scramble_word (fun k => k) "sky" 0) = "YKS".
Proof. reflexivity. Qed.

(* ================================================================== *)
(** ** The scrambler's contract *)
(* ================================================================== *)

(** C1, as stated, fails: NOON has six arrangements, and when each of the
    ten shuffles swaps every position with itself the loop ends on NOON
    and the reversal fallback gives NOON again. *)
Lemma scramble_word_palindrome_unchanged :
  Scrambler.not_all_identical (Py.upper "NOON") /\
  fst (Scrambler.scramble_word (fun _ => 11) "NOON" 0) = Py.upper "NOON".
Proof.
  split; [|reflexivity].
  exists "N"%char, "O"%char. simpl. repeat split; auto. discriminate.
Qed.

(** C1, amended: for every word and every stream of shuffle outcomes,
    [scramble_word] returns a text different from the uppercased word when
    that is not a palindrome, and also when one of the ten shuffles gives
    another arrangement; a palindrome that all ten shuffles reproduce
    comes back as it is. *)
Theorem scramble_word_differs (rng : nat -> nat) (k : nat) (w : string) :
  ((Py.reversed (Py.upper w) <> Py.upper w \/
    exists i, i < 10 /\ Scrambler.attempt rng (Py.upper w) k i <> Py.upper w) ->
   fst (Scrambler.scramble_word rng w k) <> Py.upper w) /\
  (Py.reversed (Py.upper w) = Py.upper w ->
   (forall i, i < 10 -> Scrambler.attempt rng (Py.upper w) k i = Py.upper w) ->
   fst (Scrambler.scramble_word rng w k) = Py.upper w).
Proof.
  destruct (Nat.leb_spec (Py.len (Py.upper w)) 1) as [Short|Long].
  - assert (E : fst (Scrambler.scramble_word rng w k) = Py.upper w).
    { unfold Scrambler.scramble_word.
      destruct (Nat.leb_spec (Py.len (Py.upper w)) 1); [reflexivity | lia]. }
    split; [|now intros _ _].
    intros [N|(i & _ & N)]; exfalso.
    + apply N. now apply ScramblerFacts.reversed_short.
    + apply N. unfold Scrambler.attempt, Random.shuffle.
      rewrite PyFacts.len_chars in Short.
      replace (length (Py.chars (Py.upper w)) - 1) with 0 by lia.
      apply PyFacts.join_chars.
  - rewrite (ScramblerFacts.scramble_word_long rng w k Long). cbv zeta.
    pose proof (ScramblerFacts.scramble_loop_same rng (Py.upper w) 10 k) as Same.
    destruct (String.eqb_spec
                (fst (Scrambler.scramble_loop rng (Py.upper w) (Py.upper w) 10 k))
                (Py.upper w)) as [E|N].
    + split.
      * intros [Np|(i & Hi & Ni)]; [exact Np|].
        exfalso. apply Ni. now apply (proj1 Same E).
      * now intros P _.
    + split; [now intros _|].
      intros _ All. exfalso. apply N. now apply Same.
Qed.

Lemma scramble_word_differs_witness :
  Py.reversed (Py.upper "sky") <> Py.upper "sky" /\
  fst (Scrambler.scramble_word (fun _ => 5) "sky" 0) <> Py.upper "sky".
Proof.
  assert (H : Py.reversed (Py.upper "sky") <> Py.upper "sky")
    by (vm_compute; discriminate).
  split; [exact H|].
  exact (proj1 (scramble_word_differs (fun _ => 5) 0 "sky") (or_introl H)).
Defined.



(* ================================================================== *)
(** ** The enricher's word records *)
(* ================================================================== *)

Example enrich_three_dates :
  map (fun p => (ET.get p "date", ET.get p "subscribersonly"))
      (Builder.records Datetime.year_pad4 Samples.counting
                       (Some Samples.three_dates) 0)
  = [(Some "January 05, 2024", None); (Some "February 10, 2024", None);
     (Some "March 01, 2024", Some "yes")].
Proof. vm_compute. reflexivity. Qed.

Example enrich_sky :
  ET.attrib (fst (Builder.word_element Samples.counting (Samples.word "sky") 0))
  = [("original", "SKY"); ("scrambled", "YKS"); ("startletter", "S");
     ("firsttwo", "SK"); ("length", "3")].
Proof. reflexivity. Qed.

(** C3: every source puzzle has its record among those written and
    every written record is that of a source puzzle; in the record of a
    puzzle the [words] element, the last child and the only one of that
    tag, holds one word record for each word element of that puzzle, in
    their order, and with [txt] the element's text uppercased and
    trimmed the record at its position has: [original] [txt],
    [startletter] [txt[:1]], the first character of a [txt] that has
    one, [firsttwo] [txt[:2]], the first two characters or all of a
    shorter [txt], and [length] the decimal text of the number of
    characters of [txt]. *)
Theorem word_record_fields
  (year_text : nat -> string) (rng : nat -> nat) (root : ET.Element) (k : nat) :
  let recs := Builder.records year_text rng (Some root) k in
  (forall s, In s (ET.findall root "puzzle") ->
     exists p, In p recs /\ Builder.record_of year_text rng s p) /\
  (forall p, In p recs ->
     exists s, In s (ET.findall root "puzzle") /\
               Builder.record_of year_text rng s p) /\
  (forall s p, Builder.record_of year_text rng s p ->
     exists letters ws,
       ET.children p = letters ++ [ws] /\
       Forall (fun c => ET.tag c <> "words") letters /\
       ET.tag ws = "words" /\
       Forall2
         (fun w wd =>
            let txt := Py.strip (Py.upper (match ET.text w with
                                           | Some t => t
                                           | None => ""
                                           end)) in
            ET.tag wd = "word" /\
            ET.get wd "original" = Some txt /\
            ET.get wd "startletter" = Some (Py.take 1 txt) /\
            (forall c r, txt = String c r ->
                         ET.get wd "startletter" = Some (String c "")) /\
            ET.get wd "firsttwo" = Some (Py.take 2 txt) /\
            (forall c d r, txt = String c (String d r) ->
                           ET.get wd "firsttwo" = Some (String c (String d ""))) /\
            (Py.len txt < 2 -> ET.get wd "firsttwo" = Some txt) /\
            ET.get wd "length" = Some (Py.str (Py.len txt)) /\
            Py.decimal_value (Py.str (Py.len txt)) = Some (Py.len txt))
         (ET.findall s "word") (ET.children ws)).
Proof.
  cbv zeta. split; [|split].
  - intros s Hs. now apply AlignedFacts.source_has_record.
  - intros p Hp.
    destruct (BuilderFacts.records_source _ _ _ _ _ Hp) as (s & Hs & R).
    now exists s.
  - intros s p R.
    destruct (AlignedFacts.record_words_aligned year_text rng s p R)
      as (letters & ws & Ec & Fl & Tw & F).
    exists letters, ws. repeat (split; [assumption|]).
    eapply AlignedFacts.Forall2_impl; [|exact F].
    intros w wd (k2 & Tg & _ & Ea). split; [exact Tg|].
    unfold ET.get. rewrite Ea. clear.
    unfold Builder.word_element, Builder.word_attrs, Random.bind.
    set (txt := Py.strip (Py.upper match ET.text w with Some t => t | None => "" end)).
    destruct (Scrambler.scramble_word rng txt k2) as [scrambled k3].
    cbn [fst Random.ret ET.new ET.attrib ET.dict_get String.eqb Ascii.eqb Bool.eqb].
    repeat split.
    + now intros c r ->.
    + now intros c d r ->.
    + intros H. now rewrite PyFacts.take_all by lia.
    + apply PyFacts.decimal_value_str.
Qed.

Lemma word_record_fields_witness :
  In Samples.sky_puzzle
     (Builder.records Datetime.year_pad4 Samples.counting
                      (Some Samples.three_dates) 0) /\
  ET.children Samples.sky_puzzle = [Samples.sky_words] /\
  ET.children Samples.sky_words = [Samples.sky_word] /\
  ET.attrib Samples.sky_word
  = [("original", "SKY"); ("scrambled", "YKS"); ("startletter", "S");
     ("firsttwo", "SK"); ("length", "3")] /\
  exists s,
    In s (ET.findall Samples.three_dates "puzzle") /\
    Builder.record_of Datetime.year_pad4 Samples.counting s Samples.sky_puzzle /\
    exists letters ws,
      ET.children Samples.sky_puzzle = letters ++ [ws] /\
      Forall (fun c => ET.tag c <> "words") letters /\
      ET.tag ws = "words" /\
      Forall2
        (fun w wd =>
           let txt := Py.strip (Py.upper (match ET.text w with
                                          | Some t => t
                                          | None => ""
                                          end)) in
           ET.tag wd = "word" /\
           ET.get wd "original" = Some txt /\
           ET.get wd "startletter" = Some (Py.take 1 txt) /\
           (forall c r, txt = String c r ->
                        ET.get wd "startletter" = Some (String c "")) /\
           ET.get wd "firsttwo" = Some (Py.take 2 txt) /\
           (forall c d r, txt = String c (String d r) ->
                          ET.get wd "firsttwo" = Some (String c (String d ""))) /\
           (Py.len txt < 2 -> ET.get wd "firsttwo" = Some txt) /\
           ET.get wd "length" = Some (Py.str (Py.len txt)) /\
           Py.decimal_value (Py.str (Py.len txt)) = Some (Py.len txt))
        (ET.findall s "word") (ET.children ws).
Proof.
  assert (H1 : In Samples.sky_puzzle
                  (Builder.records Datetime.year_pad4 Samples.counting
                                   (Some Samples.three_dates) 0))
    by (vm_compute; left; reflexivity).
  split; [exact H1|]. do 3 (split; [reflexivity|]).
  destruct (word_record_fields Datetime.year_pad4 Samples.counting
              Samples.three_dates 0) as (_ & Src & Fields).
  destruct (Src _ H1) as (s & Hs & R).
  exists s. split; [exact Hs|]. split; [exact R|].
  exact (Fields s _ R).
Defined.

(** C10: the enricher writes a tree whatever the words are; every
    source puzzle has its record in it, and in the record of a puzzle
    the word element at each position whose text is absent or all
    whitespace has at that position the word record of the empty text:
    [original], [scrambled], [startletter] and [firsttwo] empty and
    [length] 0; for such a word no shuffle is drawn. *)
Theorem blank_word_record
  (year_text : nat -> string) (rng : nat -> nat) (root : ET.Element) (k : nat) :
  let recs := Builder.records year_text rng (Some root) k in
  (exists tree,
     Builder.written (fst (Builder.build_beeplus year_text rng (Some root) k))
     = Some tree /\
     ET.children tree = recs) /\
  (forall s, In s (ET.findall root "puzzle") ->
     exists p, In p recs /\ Builder.record_of year_text rng s p) /\
  (forall s p, Builder.record_of year_text rng s p ->
     exists letters ws,
       ET.children p = letters ++ [ws] /\
       Forall (fun c => ET.tag c <> "words") letters /\
       ET.tag ws = "words" /\
       Forall2
         (fun w wd =>
            match ET.text w with
            | Some t => Py.all_space t = true
            | None => True
            end ->
            ET.tag wd = "word" /\
            ET.attrib wd
            = [("original", ""); ("scrambled", ""); ("startletter", "");
               ("firsttwo", ""); ("length", "0")])
         (ET.findall s "word") (ET.children ws)) /\
  (forall w k',
     match ET.text w with
     | Some t => Py.all_space t = true
     | None => True
     end ->
     Builder.word_element rng w k'
     = (ET.new "word" [("original", ""); ("scrambled", ""); ("startletter", "");
                       ("firsttwo", ""); ("length", "0")], k')).
Proof.
  cbv zeta.
  assert (Blank : forall w k',
             match ET.text w with
             | Some t => Py.all_space t = true
             | None => True
             end ->
             Builder.word_element rng w k'
             = (ET.new "word" [("original", ""); ("scrambled", "");
                               ("startletter", ""); ("firsttwo", "");
                               ("length", "0")], k')).
  { intros w k' H.
    assert (E : Py.strip (Py.upper match ET.text w with Some t => t | None => "" end)
                = "").
    { destruct (ET.text w) as [t|]; [|reflexivity].
      unfold Py.strip. rewrite PyFacts.lstrip_all_space; [reflexivity|].
      now rewrite PyFacts.all_space_upper. }
    unfold Builder.word_element, Builder.word_attrs. rewrite E. reflexivity. }
  split; [|split; [|split]].
  - unfold Builder.records, Builder.build_beeplus, Random.bind.
    destruct (Builtins.for_each (Builder.transform year_text rng)
                                (ET.findall root "puzzle") k).
    eexists. split; reflexivity.
  - intros s Hs. now apply AlignedFacts.source_has_record.
  - intros s p R.
    destruct (AlignedFacts.record_words_aligned year_text rng s p R)
      as (letters & ws & Ec & Fl & Tw & F).
    exists letters, ws. repeat (split; [assumption|]).
    eapply AlignedFacts.Forall2_impl; [|exact F].
    intros w wd (k2 & Tg & _ & Ea) H. split; [exact Tg|].
    rewrite Ea, (Blank w k2 H). reflexivity.
  - exact Blank.
Qed.

Lemma blank_word_record_witness :
  In Samples.blanks_record
     (Builder.records Datetime.year_pad4 Samples.counting (Some Samples.blanks) 0) /\
  ET.children Samples.blanks_record = [Samples.blanks_words] /\
  map ET.attrib (ET.children Samples.blanks_words)
  = [[("original", ""); ("scrambled", ""); ("startletter", "");
      ("firsttwo", ""); ("length", "0")];
     [("original", ""); ("scrambled", ""); ("startletter", "");
      ("firsttwo", ""); ("length", "0")];
     [("original", "SKY"); ("scrambled", "YKS"); ("startletter", "S");
      ("firsttwo", "SK"); ("length", "3")]] /\
  Py.all_space "  " = true /\
  Builder.word_element Samples.counting (Samples.word "  ") 7
  = (ET.new "word" [("original", ""); ("scrambled", ""); ("startletter", "");
                    ("firsttwo", ""); ("length", "0")], 7) /\
  exists s,
    In s (ET.findall Samples.blanks "puzzle") /\
    exists p,
      In p (Builder.records Datetime.year_pad4 Samples.counting
                            (Some Samples.blanks) 0) /\
      Builder.record_of Datetime.year_pad4 Samples.counting s p /\
      exists letters ws,
        ET.children p = letters ++ [ws] /\
        Forall (fun c => ET.tag c <> "words") letters /\
        ET.tag ws = "words" /\
        Forall2
          (fun w wd =>
             match ET.text w with
             | Some t => Py.all_space t = true
             | None => True
             end ->
             ET.tag wd = "word" /\
             ET.attrib wd
             = [("original", ""); ("scrambled", ""); ("startletter", "");
                ("firsttwo", ""); ("length", "0")])
          (ET.findall s "word") (ET.children ws).
Proof.
  split; [vm_compute; left; reflexivity|].
  do 3 (split; [reflexivity|]).
  destruct (blank_word_record Datetime.year_pad4 Samples.counting
              Samples.blanks 0) as (_ & Has & Rec & Blank).
  split; [apply Blank; reflexivity|].
  assert (Hs : In (nth 0 (ET.findall Samples.blanks "puzzle") (ET.new "" []))
                  (ET.findall Samples.blanks "puzzle"))
    by (vm_compute; left; reflexivity).
  destruct (Has _ Hs) as (p & Hp & R).
  eexists. split; [exact Hs|]. exists p. split; [exact Hp|]. split; [exact R|].
  exact (Rec _ _ R).
Defined.

(* ================================================================== *)
(** ** The chronological order of the written records *)
(* ================================================================== *)

(** C4, as stated, fails: "January 01, 0001" parses, to [datetime.min]
    itself, so the record after it whose date does not parse has the same
    key and stays behind it. *)
Lemma unparseable_not_always_first :
  ~ Builder.unparseable_first
      (Builder.records Datetime.year_pad4 Samples.counting
                       (Some Samples.min_then_bad) 0).
Proof.
  intros H.
  set (recs := Builder.records Datetime.year_pad4 Samples.counting
                               (Some Samples.min_then_bad) 0) in H.
  apply (H (nth 1 recs (ET.new "" [])) (nth 0 recs (ET.new "" []))).
  - vm_compute. constructor. left. reflexivity.
  - vm_compute. discriminate.
  - vm_compute. intros N. now apply N.
Qed.

(** C4, amended: the written records are in ascending order of
    [iso_key]; a record whose display date does not parse has
    [datetime.min] as its key, the least key there is; it stands before
    every record whose display date parses to a later date than
    [datetime.min], and never after one. *)
Theorem records_chronological
  (year_text : nat -> string) (rng : nat -> nat) (root : ET.Element) (k : nat) :
  let recs := Builder.records year_text rng (Some root) k in
  StronglySorted
    (fun p q => Datetime.leb (Builder.iso_key p) (Builder.iso_key q) = true) recs /\
  (forall p, ~ Builder.parses p -> Builder.iso_key p = Datetime.min) /\
  (forall p, Datetime.leb Datetime.min (Builder.iso_key p) = true) /\
  (forall p q d,
      In p recs -> In q recs -> ~ Builder.parses p ->
      Datetime.strptime_long (ET.get_or q "date" "") = Some d ->
      d <> Datetime.min ->
      Builtins.before p q recs /\ ~ Builtins.before q p recs).
Proof.
  cbv zeta.
  assert (S : StronglySorted
                (fun p q => Datetime.leb (Builder.iso_key p) (Builder.iso_key q) = true)
                (Builder.records year_text rng (Some root) k)).
  { eapply SortedFacts.StronglySorted_Forall2;
      [| apply BuilderFacts.records_written_as
       | apply (SortedFacts.sorted_StronglySorted Builder.iso_key Datetime.ltb
                  DatetimeFacts.ltb_asym DatetimeFacts.leb_trans)].
    intros x y p q Wp Wq Hxy. unfold Builtins.le_key in Hxy.
    rewrite (BuilderFacts.written_as_key _ _ Wp),
            (BuilderFacts.written_as_key _ _ Wq).
    unfold Datetime.leb. now rewrite Hxy. }
  assert (Kmin : forall p, ~ Builder.parses p -> Builder.iso_key p = Datetime.min).
  { intros p N. unfold Builder.iso_key, Builder.parses in *.
    destruct (Datetime.strptime_long (ET.get_or p "date" "")); [|reflexivity].
    elim N. discriminate. }
  assert (Least : forall p, Datetime.leb Datetime.min (Builder.iso_key p) = true).
  { intros p. unfold Datetime.leb, Builder.iso_key.
    destruct (Datetime.strptime_long (ET.get_or p "date" "")) as [d|] eqn:E.
    - rewrite DatetimeFacts.min_least; [reflexivity|].
      now apply DatetimeFacts.strptime_long_valid in E.
    - reflexivity. }
  assert (Never : forall p q d,
             ~ Builder.parses p ->
             Datetime.strptime_long (ET.get_or q "date" "") = Some d ->
             d <> Datetime.min ->
             ~ Builtins.before q p (Builder.records year_text rng (Some root) k)).
  { intros p q d Np Eq Nd B.
    pose proof (SortedFacts.StronglySorted_before _ _ _ _ S B) as Hqp.
    cbv beta in Hqp. rewrite (Kmin p Np) in Hqp.
    unfold Datetime.leb, Builder.iso_key in Hqp. rewrite Eq in Hqp.
    rewrite DatetimeFacts.after_min in Hqp; [discriminate | | exact Nd].
    now apply DatetimeFacts.strptime_long_valid in Eq. }
  split; [exact S|]. split; [exact Kmin|]. split; [exact Least|].
  intros p q d Hp Hq Np Eq Nd. split; [|now apply (Never p q d)].
  destruct (SortedFacts.In_before_or p q _ Hp Hq) as [B|B]; [|exact B|].
  - intros ->. apply Np. unfold Builder.parses. rewrite Eq. discriminate.
  - now elim (Never p q d Np Eq Nd).
Qed.

Lemma records_chronological_witness :
  let recs := Builder.records Datetime.year_pad4 Samples.counting
                              (Some Samples.bad_between) 0 in
  map (fun p => ET.get_or p "date" "") recs
  = ["oops"; "January 05, 2024"; "March 01, 2024"] /\
  In Samples.oops_record recs /\ In Samples.march_record recs /\
  ~ Builder.parses Samples.oops_record /\
  Datetime.strptime_long (ET.get_or Samples.march_record "date" "")
  = Some (Datetime.mkdt 2024 3 1) /\
  Datetime.mkdt 2024 3 1 <> Datetime.min /\
  Builtins.before Samples.oops_record Samples.march_record recs /\
  ~ Builtins.before Samples.march_record Samples.oops_record recs.
Proof.
  cbv zeta.
  assert (H1 : In Samples.oops_record
                  (Builder.records Datetime.year_pad4 Samples.counting
                                   (Some Samples.bad_between) 0))
    by (vm_compute; left; reflexivity).
  assert (H2 : In Samples.march_record
                  (Builder.records Datetime.year_pad4 Samples.counting
                                   (Some Samples.bad_between) 0))
    by (vm_compute; right; right; left; reflexivity).
  assert (H3 : ~ Builder.parses Samples.oops_record)
    by (vm_compute; intros N; apply N; reflexivity).
  assert (H4 : Datetime.strptime_long (ET.get_or Samples.march_record "date" "")
               = Some (Datetime.mkdt 2024 3 1)) by (vm_compute; reflexivity).
  assert (H5 : Datetime.mkdt 2024 3 1 <> Datetime.min) by discriminate.
  split; [vm_compute; reflexivity|].
  repeat (split; [assumption|]).
  exact (proj2 (proj2 (proj2
           (records_chronological Datetime.year_pad4 Samples.counting
              Samples.bad_between 0)))
           Samples.oops_record Samples.march_record _ H1 H2 H3 H4 H5).
Defined.

(* ================================================================== *)
(** ** The latest-puzzle flag *)
(* ================================================================== *)

(** C5: the enricher writes a tree whatever the archive holds, with one
    record for each source puzzle, in ascending order of [iso_key]; the
    record at position [i] carries [subscribersonly="yes"] when it is
    the last one and no such attribute otherwise, so that exactly the
    last record of the sorted order is flagged, its key the greatest
    there is among the records, and none is flagged in an empty
    collection. *)
Theorem latest_flagged
  (year_text : nat -> string) (rng : nat -> nat) (root : ET.Element) (k : nat) :
  exists tree,
    Builder.written (fst (Builder.build_beeplus year_text rng (Some root) k))
    = Some tree /\
    ET.children tree = Builder.records year_text rng (Some root) k /\
    length (ET.children tree) = length (ET.findall root "puzzle") /\
    StronglySorted
      (fun p q => Datetime.leb (Builder.iso_key p) (Builder.iso_key q) = true)
      (ET.children tree) /\
    (forall i p,
       nth_error (ET.children tree) i = Some p ->
       ET.get p "subscribersonly"
       = if S i =? length (ET.children tree) then Some "yes" else None) /\
    (forall p q,
       In p (ET.children tree) -> In q (ET.children tree) ->
       ET.get p "subscribersonly" = Some "yes" ->
       Datetime.leb (Builder.iso_key q) (Builder.iso_key p) = true).
Proof.
  assert (W : exists tree,
             Builder.written (fst (Builder.build_beeplus year_text rng (Some root) k))
             = Some tree).
  { unfold Builder.build_beeplus, Random.bind.
    destruct (Builtins.for_each (Builder.transform year_text rng)
                                (ET.findall root "puzzle") k).
    eexists. reflexivity. }
  destruct W as (tree & W). exists tree. split; [exact W|].
  assert (R : ET.children tree = Builder.records year_text rng (Some root) k).
  { unfold Builder.records. now rewrite W. }
  split; [exact R|]. rewrite R.
  split; [apply BuilderFacts.records_length|].
  pose proof (AlignedFacts.records_sorted year_text rng root k) as Sorted.
  split; [exact Sorted|].
  assert (Flag : forall i p,
             nth_error (Builder.records year_text rng (Some root) k) i = Some p ->
             ET.get p "subscribersonly"
             = if S i =? length (Builder.records year_text rng (Some root) k)
               then Some "yes" else None).
  { destruct (Builtins.sorted Builder.iso_key Datetime.ltb
                (Builder.transformed year_text rng root k)) as [|x t] eqn:E.
    - rewrite (BuilderFacts.records_nil _ _ _ _ E). now intros [|i] p.
    - destruct (@exists_last _ (x :: t)) as (l & c & El); [discriminate|].
      rewrite El in E. rewrite (BuilderFacts.records_snoc _ _ _ _ _ _ E).
      intros i p Hp. rewrite length_app, length_map. cbn [length].
      destruct (Nat.lt_ge_cases i (length l)) as [Lt|Ge].
      + rewrite nth_error_app1 in Hp by now rewrite length_map.
        destruct (Nat.eqb_spec (S i) (length l + 1)); [lia|].
        apply nth_error_In, in_map_iff in Hp as (y & <- & _).
        cbv beta. rewrite ETFacts.with_tail_get, ETFacts.indent_get.
        apply ETFacts.get_pop_same.
      + rewrite nth_error_app2 in Hp by now rewrite length_map.
        rewrite length_map in Hp.
        destruct (i - length l) as [|j] eqn:Ej.
        * destruct (Nat.eqb_spec (S i) (length l + 1)); [|lia].
          assert (Ep : p = ET.with_tail (Some (ET.newline ++ ET.spaces 0)%string)
                             (ET.indent 1 (ET.set (ET.pop c "subscribersonly")
                                                  "subscribersonly" "yes")))
            by (cbn [nth_error] in Hp; congruence).
          rewrite Ep, ETFacts.with_tail_get, ETFacts.indent_get.
          apply ETFacts.get_set_same.
        * now destruct j. }
  split; [exact Flag|].
  intros p q Hp Hq Fp.
  apply In_nth_error in Hp as (i & Hi). apply In_nth_error in Hq as (j & Hj).
  pose proof (Flag i p Hi) as Fi. rewrite Fp in Fi.
  destruct (Nat.eqb_spec (S i)
              (length (Builder.records year_text rng (Some root) k))) as [Li|];
    [|discriminate].
  assert (Lj : j < length (Builder.records year_text rng (Some root) k))
    by (apply nth_error_Some; congruence).
  destruct (Nat.eq_dec j i) as [->|Nji].
  - assert (q = p) as -> by congruence.
    unfold Datetime.leb. now rewrite DatetimeFacts.ltb_irrefl.
  - apply (AlignedFacts.StronglySorted_nth _ _ j i q p Sorted); [lia | exact Hj | exact Hi].
Qed.

Lemma latest_flagged_witness :
  map (fun s => ET.get_or s "date" "") (ET.findall Samples.three_dates "puzzle")
  = ["2024-01-05"; "2024-03-01"; "2024-02-10"] /\
  ET.get_or Samples.latest_record "date" "" = "March 01, 2024" /\
  exists tree,
    Builder.written (fst (Builder.build_beeplus Datetime.year_pad4 Samples.counting
                            (Some Samples.three_dates) 0)) = Some tree /\
    nth_error (ET.children tree) 2 = Some Samples.latest_record /\
    ET.get Samples.latest_record "subscribersonly" = Some "yes" /\
    forall q, In q (ET.children tree) ->
              Datetime.leb (Builder.iso_key q) (Builder.iso_key Samples.latest_record)
              = true.
Proof.
  split; [reflexivity|]. split; [reflexivity|].
  destruct (latest_flagged Datetime.year_pad4 Samples.counting
              Samples.three_dates 0) as (tree & W & R & L & S & F & G).
  exists tree. split; [exact W|].
  assert (N : nth_error (ET.children tree) 2 = Some Samples.latest_record).
  { rewrite R. vm_compute. reflexivity. }
  split; [exact N|].
  assert (Y : ET.get Samples.latest_record "subscribersonly" = Some "yes").
  { rewrite (F 2 _ N), L. reflexivity. }
  split; [exact Y|].
  intros q Hq. apply G; [now apply nth_error_In in N | exact Hq | exact Y].
Defined.

(* ================================================================== *)
(** ** Stability of the chronological sort *)
(* ================================================================== *)

(** C9: when a written record stands before another with the same
    [iso_key] (two dates that do not parse among them, which share
    [datetime.min]), they are the records of two source puzzles that
    stand in that order in the source archive. *)
Theorem sort_is_stable
  (year_text : nat -> string) (rng : nat -> nat) (root : ET.Element) (k : nat)
  (p q : ET.Element) :
  Builtins.before p q (Builder.records year_text rng (Some root) k) ->
  Builder.iso_key p = Builder.iso_key q ->
  exists s t,
    Builtins.before s t (ET.findall root "puzzle") /\
    Builder.record_of year_text rng s p /\ Builder.record_of year_text rng t q.
Proof.
  intros B E.
  destruct (SortedFacts.before_Forall2 _ _ _ _ _
              (BuilderFacts.records_written_as year_text rng root k) B)
    as (x & y & Wx & Wy & Bxy).
  apply SortedFacts.sorted_stable in Bxy.
  - destruct (SortedFacts.before_Forall2 _ _ _ _ _
                (BuilderFacts.for_each_Forall2 (Builder.transform year_text rng)
                   (ET.findall root "puzzle") k) Bxy)
      as (s & t & (ks & ->) & (kt & ->) & Bst).
    exists s, t. split; [exact Bst|]. split; [now exists ks | now exists kt].
  - apply DatetimeFacts.ltb_irrefl.
  - rewrite <- (BuilderFacts.written_as_key _ _ Wx),
            <- (BuilderFacts.written_as_key _ _ Wy). exact E.
Qed.

Lemma sort_is_stable_witness :
  Builtins.before Samples.first_record Samples.second_record
    (Builder.records Datetime.year_pad4 Samples.counting (Some Samples.two_bad) 0) /\
  Builder.iso_key Samples.first_record = Builder.iso_key Samples.second_record /\
  exists s t,
    Builtins.before s t (ET.findall Samples.two_bad "puzzle") /\
    Builder.record_of Datetime.year_pad4 Samples.counting s Samples.first_record /\
    Builder.record_of Datetime.year_pad4 Samples.counting t Samples.second_record.
Proof.
  assert (B : Builtins.before Samples.first_record Samples.second_record
                (Builder.records Datetime.year_pad4 Samples.counting
                                 (Some Samples.two_bad) 0))
    by (vm_compute; constructor; left; reflexivity).
  assert (E : Builder.iso_key Samples.first_record
              = Builder.iso_key Samples.second_record) by reflexivity.
  split; [exact B|]. split; [exact E|].
  exact (sort_is_stable Datetime.year_pad4 Samples.counting Samples.two_bad 0 _ _ B E).
Defined.

(* ================================================================== *)
(** ** The brace-matching extraction *)
(* ================================================================== *)

Example extract_game_data :
  Harvest.extract Samples.no_answers_page = Harvest.Ok (Some Samples.no_answers_json).
Proof. vm_compute. reflexivity. Qed.

(** With no opening brace [find] gives -1 and the loop starts on the last
    character: the empty slice is extracted, or nothing at all. *)
Example extract_without_brace :
  Harvest.extract "window.gameData = 1;" = Harvest.Ok (Some "") /\
  Harvest.extract "window.gameData = 1;}" = Harvest.Ok None.
Proof. split; vm_compute; reflexivity. Qed.

(** C8, as stated, fails: a script can hold the marker and no opening
    brace; [find] then gives -1, the loop starts on the last character
    and the text handed to the JSON parser is empty, which starts at no
    brace and is no substring that starts with one. *)
Lemma marker_without_object :
  PyZ.contains "window.gameData" "window.gameData = 1;" = true /\
  PyZ.find "window.gameData = 1;" "{" = (-1)%Z /\
  Harvest.extract "window.gameData = 1;" = Harvest.Ok (Some "") /\
  ~ (exists body, "" = String "{" body).
Proof.
  repeat split; try (vm_compute; reflexivity).
  intros (body & E). discriminate.
Qed.

(** C8, amended: a script with an opening brace splits at the first
    one, where [find] points; the text extracted starts at that brace
    and ends where the depth first returns to zero: it is brace-balanced
    and no shorter prefix of it brings the depth to zero; when the depth
    never returns to zero nothing is extracted; the loop raises
    nothing. *)
Theorem extract_shortest_balanced (script : string) :
  In "{"%char (Py.chars script) ->
  exists pre post,
    script = (pre ++ String "{" post)%string /\
    (forall c, In c (Py.chars pre) -> c <> "{"%char) /\
    PyZ.find script "{" = Z.of_nat (Py.len pre) /\
    match Harvest.extract script with
    | Harvest.Ok (Some json_str) =>
        exists body rest,
          json_str = String "{" body /\
          (script = pre ++ json_str ++ rest)%string /\
          Harvest.balanced json_str /\
          forall p q, json_str = (p ++ q)%string -> p <> ""%string -> q <> ""%string ->
                      (0 < Harvest.depth p)%Z
    | Harvest.Ok None =>
        forall p q, String "{" post = (p ++ q)%string -> p <> ""%string ->
                    (0 < Harvest.depth p)%Z
    | Harvest.Raise _ => False
    end.
Proof.
  intros Hin.
  destruct (FetchFacts.split_first_open script Hin) as (pre & post & -> & H).
  exists pre, post. split; [reflexivity|]. split; [exact H|]. split.
  { unfold PyZ.find. now rewrite (PyZFacts.index_first_open pre post H). }
  rewrite (BraceFacts.extract_from_first_open pre post H).
  pose proof (BraceFacts.closing_spec post 1 ltac:(lia)) as C.
  destruct (Harvest.closing post 1) as [m|]; cbn [option_map].
  - destruct C as (p & q & -> & Hm & Hd & Hp).
    assert (E : String.substring (String.length pre) (S m)
                  (pre ++ String "{" (p ++ q)) = String "{" p).
    { change (String "{" (p ++ q)) with (String "{" p ++ q)%string.
      rewrite <- Hm.
      exact (PyZFacts.substring_app_length pre (String "{" p) q). }
    rewrite E. exists p, q. split; [reflexivity|]. split; [reflexivity|].
    assert (D : forall p' q', p = (p' ++ q')%string ->
                              (0 <= Harvest.depth (String "{" p'))%Z /\
                              (q' <> ""%string -> (0 < Harvest.depth (String "{" p'))%Z)).
    { intros p' q' Ep. cbn [Harvest.depth]. change (Harvest.step "{" 0) with 1%Z.
      destruct q' as [|x q'].
      - rewrite PyZFacts.append_nil_r in Ep. subst p'.
        split; [lia | intros N; now elim N].
      - pose proof (Hp p' (String x q') Ep ltac:(discriminate)). lia. }
    split; [split|].
    + cbn [Harvest.depth]. change (Harvest.step "{" 0) with 1%Z. lia.
    + intros [|x p'] q' Ep; [simpl; lia|].
      injection Ep as <- Ep. now apply (D p' q').
    + intros [|x p'] q' Ep Np Nq; [now elim Np|].
      injection Ep as <- Ep. now apply (D p' q').
  - intros [|x p'] q' Ep Np; [now elim Np|].
    injection Ep as <- Ep. cbn [Harvest.depth].
    change (Harvest.step "{" 0) with 1%Z.
    pose proof (C p' q' Ep). lia.
Qed.

Lemma extract_shortest_balanced_witness :
  In "{"%char (Py.chars Samples.no_answers_page) /\
  Harvest.extract Samples.no_answers_page = Harvest.Ok (Some Samples.no_answers_json) /\
  exists pre post,
    Samples.no_answers_page = (pre ++ String "{" post)%string /\
    (forall c, In c (Py.chars pre) -> c <> "{"%char) /\
    PyZ.find Samples.no_answers_page "{" = Z.of_nat (Py.len pre) /\
    match Harvest.extract Samples.no_answers_page with
    | Harvest.Ok (Some json_str) =>
        exists body rest,
          json_str = String "{" body /\
          (Samples.no_answers_page = pre ++ json_str ++ rest)%string /\
          Harvest.balanced json_str /\
          forall p q, json_str = (p ++ q)%string -> p <> ""%string -> q <> ""%string ->
                      (0 < Harvest.depth p)%Z
    | Harvest.Ok None =>
        forall p q, String "{" post = (p ++ q)%string -> p <> ""%string ->
                    (0 < Harvest.depth p)%Z
    | Harvest.Raise _ => False
    end.
Proof.
  assert (H : In "{"%char (Py.chars Samples.no_answers_page)).
  { apply (FetchFacts.get_In 18). reflexivity. }
  split; [exact H|]. split; [vm_compute; reflexivity|].
  exact (extract_shortest_balanced Samples.no_answers_page H).
Defined.

(* ================================================================== *)
(** ** The fetcher's idempotent append *)
(* ================================================================== *)

(** C6, as stated, fails: when the page has no answers neither run
    appends, and two runs for a day leave no record for it. *)
Lemma two_runs_may_leave_no_record :
  let run := Harvest.main Samples.no_answers_site Samples.one_script Samples.read_json
                          "2024-01-05" in
  let w1 := snd (run Samples.fresh) in
  let w2 := snd (run w1) in
  fst (run Samples.fresh) = Harvest.Ok tt /\ fst (run w1) = Harvest.Ok tt /\
  Harvest.count_date "2024-01-05" w2 = 0 /\
  Harvest.count_date "2024-01-05" w2 <> 1.
Proof. vm_compute. repeat split; discriminate. Qed.

(** C6, amended: when a record for the day is present a run sends no
    request, leaves the archive as it is and only prints; so on an
    archive with no record for the day two runs leave at most one:
    exactly one when the first run appended, the second then changing
    neither the archive nor the number of requests, and none when
    neither run fetched any words. *)
Theorem main_idempotent
  (http_get : nat -> Harvest.response)
  (script_strings : string -> list (option string))
  (json_loads : string -> option Harvest.json)
  (d : string) (w : Harvest.world) :
  let run := Harvest.main http_get script_strings json_loads d in
  (Harvest.present d w ->
   run w = (Harvest.Ok tt,
            Harvest.mkWorld (Harvest.xml_file w) (Harvest.requests w)
              (Harvest.stdout w
               ++ ["Puzzle for " ++ d ++ " already exists. No action taken."]%string))) /\
  (Harvest.count_date d w = 0 ->
   let w1 := snd (run w) in
   let w2 := snd (run w1) in
   Harvest.count_date d w2 <= 1 /\
   (Harvest.present d w1 ->
    Harvest.count_date d w2 = 1 /\
    Harvest.xml_file w2 = Harvest.xml_file w1 /\
    Harvest.requests w2 = Harvest.requests w1) /\
   (fst (Harvest.fetch_today_words http_get script_strings json_loads w)
    = Harvest.Ok [] ->
    fst (Harvest.fetch_today_words http_get script_strings json_loads w1)
    = Harvest.Ok [] ->
    Harvest.count_date d w2 = 0)).
Proof.
  cbv zeta. split.
  - apply HarvestFacts.main_present.
  - intros Z.
    pose proof (HarvestFacts.main_count http_get script_strings json_loads d w) as C1.
    pose proof (HarvestFacts.main_count http_get script_strings json_loads d
                  (snd (Harvest.main http_get script_strings json_loads d w))) as C2.
    split; [lia|]. split.
    + intros P. rewrite (HarvestFacts.main_present _ _ _ d _ P). cbn [snd].
      apply HarvestFacts.present_count in P.
      split; [|split; reflexivity].
      unfold Harvest.count_date at 1. cbn [Harvest.xml_file].
      fold (Harvest.count_date d
              (snd (Harvest.main http_get script_strings json_loads d w))).
      lia.
    + intros F1 F2.
      assert (Keep : forall v,
                 Harvest.count_date d v = 0 ->
                 fst (Harvest.fetch_today_words http_get script_strings json_loads v)
                 = Harvest.Ok [] ->
                 Harvest.count_date d
                   (snd (Harvest.main http_get script_strings json_loads d v)) = 0).
      { intros v Zv Fv.
        assert (A : ~ Harvest.present d v)
          by (rewrite HarvestFacts.present_count; lia).
        rewrite (HarvestFacts.main_absent _ _ _ d v A).
        pose proof (HarvestFacts.fetch_today_words_world http_get script_strings
                      json_loads v) as Wv.
        destruct (Harvest.fetch_today_words http_get script_strings json_loads v)
          as [[[|x l]|e] v']; cbn [fst snd] in *; try discriminate.
        subst v'. exact Zv. }
      apply Keep; [|exact F2]. now apply Keep.
Qed.

Lemma main_idempotent_witness :
  let run := Harvest.main Samples.two_answers_site Samples.one_script
                          Samples.read_json "2024-01-05" in
  let w1 := snd (run Samples.fresh) in
  let w2 := snd (run w1) in
  Harvest.count_date "2024-01-05" Samples.fresh = 0 /\
  Harvest.present "2024-01-05" w1 /\
  Harvest.count_date "2024-01-05" w2 = 1 /\
  Harvest.xml_file w2 = Harvest.xml_file w1 /\
  Harvest.requests w2 = Harvest.requests w1 /\
  Harvest.requests w1 = 1.
Proof.
  cbv zeta.
  assert (Z : Harvest.count_date "2024-01-05" Samples.fresh = 0) by reflexivity.
  assert (P : Harvest.present "2024-01-05"
                (snd (Harvest.main Samples.two_answers_site Samples.one_script
                        Samples.read_json "2024-01-05" Samples.fresh))).
  { apply HarvestFacts.present_count. vm_compute. lia. }
  split; [exact Z|]. split; [exact P|].
  destruct (proj2 (main_idempotent Samples.two_answers_site Samples.one_script
                     Samples.read_json "2024-01-05" Samples.fresh) Z)
    as (_ & H & _).
  destruct (H P) as (H1 & H2 & H3).
  split; [exact H1|]. split; [exact H2|]. split; [exact H3|].
  vm_compute. reflexivity.
Defined.

(* ================================================================== *)
(** ** No words, no append *)
(* ================================================================== *)

(** C7: when the fetch gives an empty word list the run ends well and
    the archive is what it was; with no record for the day yet, all the
    run does besides the request is to print that no words were
    fetched. *)
Theorem main_no_words
  (http_get : nat -> Harvest.response)
  (script_strings : string -> list (option string))
  (json_loads : string -> option Harvest.json)
  (d : string) (w w' : Harvest.world) :
  Harvest.fetch_today_words http_get script_strings json_loads w
  = (Harvest.Ok [], w') ->
  let after := Harvest.main http_get script_strings json_loads d w in
  fst after = Harvest.Ok tt /\
  Harvest.xml_file (snd after) = Harvest.xml_file w /\
  (~ Harvest.present d w ->
   snd after
   = Harvest.mkWorld (Harvest.xml_file w) (S (Harvest.requests w))
       (Harvest.stdout w ++ ["No words fetched for " ++ d ++ "."]%string)).
Proof.
  intros F. cbv zeta.
  pose proof (HarvestFacts.fetch_today_words_world http_get script_strings
                json_loads w) as W.
  rewrite F in W. cbn [snd] in W.
  assert (A : ~ Harvest.present d w ->
              Harvest.main http_get script_strings json_loads d w
              = (Harvest.Ok tt,
                 Harvest.mkWorld (Harvest.xml_file w) (S (Harvest.requests w))
                   (Harvest.stdout w ++ ["No words fetched for " ++ d ++ "."]%string))).
  { intros N. rewrite (HarvestFacts.main_absent _ _ _ d w N), F. now subst w'. }
  destruct (Nat.eq_dec (Harvest.count_date d w) 0) as [Z|NZ].
  - assert (N : ~ Harvest.present d w)
      by (rewrite HarvestFacts.present_count; lia).
    rewrite (A N). repeat split.
  - assert (P : Harvest.present d w)
      by (rewrite HarvestFacts.present_count; lia).
    rewrite (HarvestFacts.main_present _ _ _ d w P).
    repeat split. intros N. now elim N.
Qed.

Lemma main_no_words_witness :
  Harvest.fetch_today_words Samples.no_answers_site Samples.one_script
                            Samples.read_json Samples.fresh
  = (Harvest.Ok [], Harvest.mkWorld None 1 []) /\
  Harvest.main Samples.no_answers_site Samples.one_script Samples.read_json
               "2024-01-05" Samples.fresh
  = (Harvest.Ok tt,
     Harvest.mkWorld None 1 ["No words fetched for 2024-01-05."]).
Proof.
  assert (F : Harvest.fetch_today_words Samples.no_answers_site Samples.one_script
                Samples.read_json Samples.fresh
              = (Harvest.Ok [], Harvest.mkWorld None 1 []))
    by (vm_compute; reflexivity).
  split; [exact F|].
  destruct (main_no_words Samples.no_answers_site Samples.one_script
              Samples.read_json "2024-01-05" Samples.fresh _ F) as (R & _ & S).
  rewrite (surjective_pairing (Harvest.main _ _ _ _ _)), R, S; [reflexivity|].
  rewrite HarvestFacts.present_count. vm_compute. lia.
Defined.

(* ================================================================== *)
(** ** The pretty-printer of both scripts *)
(* ================================================================== *)

Example indent_overwrites_tail :
  let e := ET.mkElement "puzzle" [] None None
             [ET.mkElement "word" [] (Some "SKY") (Some "note") []] in
  map ET.tail (ET.children (ET.indent 0 e)) = [Some (ET.newline ++ "")%string] /\
  map ET.text (ET.children (ET.indent 0 e)) = [Some "SKY"].
Proof. split; reflexivity. Qed.

(** X1: [indent] is idempotent: pretty-printing a tree that was
    pretty-printed at the same level changes nothing, so the archive is
    not altered by being indented again on each later append. *)
Theorem indent_idempotent (level : nat) (e : ET.Element) :
  ET.indent level (ET.indent level e) = ET.indent level e.
Proof. apply LayoutFacts.indent_idem. Qed.

(** X2: what [indent] keeps: at every depth the tag, the attributes,
    the number and order of the children and every text that is not
    blank; and the tail of the element it is called on, when that
    element has children or its tail is not blank.  The tails of the
    children are not kept, blank or not (X3). *)
Theorem indent_keeps_content (level : nat) (e : ET.Element) :
  Layout.content (ET.indent level e) = Layout.content e /\
  (ET.children e <> [] \/ ET.blank (ET.tail e) = false ->
   ET.tail (ET.indent level e) = ET.tail e).
Proof.
  split; [apply LayoutFacts.content_indent|].
  intros H. rewrite LayoutFacts.indent_unfold.
  destruct (ET.children e) as [|c cs] eqn:E; [|reflexivity].
  destruct H as [H|H]; [now elim H|].
  cbn [ET.tail]. now rewrite H.
Qed.

(** X3: [indent] overwrites the tail of every child, blank or not: the
    child at position [idx] gets a newline and the indentation of the
    next level, the last child that of the element's own level. *)
Theorem indent_child_tails (level : nat) (e c : ET.Element) (idx : nat) :
  nth_error (ET.children (ET.indent level e)) idx = Some c ->
  ET.tail c = Some (Layout.child_tail level (length (ET.children e)) idx).
Proof.
  rewrite ETFacts.indent_children_eq. apply LayoutFacts.indent_children_tail.
Qed.

Lemma indent_child_tails_witness :
  let e := ET.mkElement "puzzle" [] None None
             [ET.mkElement "word" [] (Some "SKY") (Some "note") [];
              ET.mkElement "word" [] (Some "NOON") None []] in
  nth_error (ET.children (ET.indent 0 e)) 0
  = Some (ET.mkElement "word" [] (Some "SKY") (Some (ET.newline ++ "  ")%string) []) /\
  ET.tail (ET.mkElement "word" [] (Some "SKY") (Some (ET.newline ++ "  ")%string) [])
  = Some (Layout.child_tail 0 2 0).
Proof.
  cbv zeta. split; [reflexivity|].
  exact (indent_child_tails 0
           (ET.mkElement "puzzle" [] None None
              [ET.mkElement "word" [] (Some "SKY") (Some "note") [];
               ET.mkElement "word" [] (Some "NOON") None []])
           _ 0 eq_refl).
Defined.

(* ================================================================== *)
(** ** The scrambler's loop *)
(* ================================================================== *)

(** X4: [scramble_word] shuffles at most ten times: a word of at most
    one character reads no draw, a longer one is shuffled between one
    and ten times, each shuffle reading one draw for every character
    but the first. *)
Theorem scramble_word_draws (rng : nat -> nat) (w : string) (k : nat) :
  exists shuffles,
    snd (Scrambler.scramble_word rng w k)
    = k + shuffles * (Py.len (Py.upper w) - 1) /\
    shuffles <= 10 /\
    (Py.len (Py.upper w) <= 1 -> shuffles = 0) /\
    (1 < Py.len (Py.upper w) -> 1 <= shuffles).
Proof.
  unfold Scrambler.scramble_word.
  destruct (Nat.leb_spec (Py.len (Py.upper w)) 1) as [Short|Long].
  - exists 0. cbn. repeat split; lia.
  - unfold Random.bind.
    destruct (AttemptFacts.first_change rng (Py.upper w) k 10)
      as [All|(i & Hi & Same & Diff)].
    + rewrite (AttemptFacts.scramble_loop_all_same rng _ _ _ All).
      exists 10. cbn [snd Random.ret]. repeat split; lia.
    + rewrite (AttemptFacts.scramble_loop_first rng _ _ _ _ Hi Same Diff).
      exists (S i). cbn [snd Random.ret]. repeat split; lia.
Qed.

(** X5: the result is the first of the ten shuffles that differs from
    the uppercased word, and the loop stops there: when the shuffles
    before the [i]-th all reproduce the word and the [i]-th does not,
    that arrangement is returned after [i + 1] shuffles. *)
Theorem scramble_word_first_change (rng : nat -> nat) (w : string) (k i : nat) :
  i < 10 ->
  (forall j, j < i -> Scrambler.attempt rng (Py.upper w) k j = Py.upper w) ->
  Scrambler.attempt rng (Py.upper w) k i <> Py.upper w ->
  Scrambler.scramble_word rng w k
  = (Scrambler.attempt rng (Py.upper w) k i,
     k + S i * (Py.len (Py.upper w) - 1)).
Proof.
  intros Hi Same Diff. unfold Scrambler.scramble_word.
  destruct (Nat.leb_spec (Py.len (Py.upper w)) 1) as [Short|Long].
  - exfalso. apply Diff. unfold Scrambler.attempt, Random.shuffle.
    rewrite PyFacts.len_chars in Short.
    replace (length (Py.chars (Py.upper w)) - 1) with 0 by lia.
    apply PyFacts.join_chars.
  - unfold Random.bind.
    rewrite (AttemptFacts.scramble_loop_first rng _ _ _ _ Hi Same Diff).
    unfold Random.ret.
    destruct (String.eqb_spec (Scrambler.attempt rng (Py.upper w) k i) (Py.upper w));
      [contradiction | reflexivity].
Qed.

Lemma scramble_word_first_change_witness :
  Scrambler.attempt (fun k => k) (Py.upper "sky") 0 0 <> Py.upper "sky" /\
  Scrambler.scramble_word (fun k => k) "sky" 0 = ("YKS", 2).
Proof.
  assert (D : Scrambler.attempt (fun k => k) (Py.upper "sky") 0 0 <> Py.upper "sky")
    by (vm_compute; discriminate).
  split; [exact D|].
  refine (scramble_word_first_change (fun k => k) "sky" 0 0 _ _ D).
  - lia.
  - intros j Hj. lia.
Defined.

(** X6: the letter case of the input does not matter and the result is
    in upper case: [scramble_word] of a word and of its uppercased form
    agree on the same draws, and uppercasing the result changes
    nothing. *)
Theorem scramble_word_uppercase (rng : nat -> nat) (w : string) (k : nat) :
  Scrambler.scramble_word rng (Py.upper w) k = Scrambler.scramble_word rng w k /\
  Py.upper (fst (Scrambler.scramble_word rng w k))
  = fst (Scrambler.scramble_word rng w k).
Proof.
  split.
  - unfold Scrambler.scramble_word. now rewrite CaseFacts.upper_idem.
  - apply CaseFacts.upper_fixed.
    eapply Permutation_Forall.
    + symmetry. apply ScramblerFacts.scramble_word_Permutation.
    + apply CaseFacts.upper_fixed, CaseFacts.upper_idem.
Qed.

(** X26: when every one of the ten shuffles reproduces the uppercased
    word, a word of two characters or more comes back reversed, after
    the ten shuffles. *)
Theorem scramble_word_fallback (rng : nat -> nat) (w : string) (k : nat) :
  1 < Py.len (Py.upper w) ->
  (forall i, i < 10 -> Scrambler.attempt rng (Py.upper w) k i = Py.upper w) ->
  Scrambler.scramble_word rng w k
  = (Py.reversed (Py.upper w), k + 10 * (Py.len (Py.upper w) - 1)).
Proof.
  intros Long Same. unfold Scrambler.scramble_word.
  destruct (Nat.leb_spec (Py.len (Py.upper w)) 1); [lia|].
  unfold Random.bind.
  rewrite (AttemptFacts.scramble_loop_all_same rng _ _ _ Same).
  unfold Random.ret. now rewrite String.eqb_refl.
Qed.

Lemma scramble_word_fallback_witness :
  1 < Py.len (Py.upper "ab") /\
  Scrambler.scramble_word (fun _ => 1) "ab" 0 = ("BA", 10).
Proof.
  split; [vm_compute; lia|].
  refine (scramble_word_fallback (fun _ => 1) "ab" 0 _ _).
  - vm_compute. lia.
  - intros i _. unfold Scrambler.attempt. reflexivity.
Defined.

(* ================================================================== *)
(** ** Dates, attributes and children of the written records *)
(* ================================================================== *)

(** X7: a source date that is a valid ISO date is written in long
    form; the sort key's [strptime] reads that text back as the same
    date when the year is written in four digits, which is so for every
    year from 1000 on however the platform writes [%Y], and rejects it
    when the year is written unpadded and is below 1000. *)
Theorem reformat_round_trip
  (year_text : nat -> string) (s : string) (dt : Datetime.datetime) :
  Datetime.strptime_iso s = Some dt ->
  (year_text (Datetime.year dt) = Datetime.year_pad4 (Datetime.year dt) ->
   Datetime.strptime_long (Builder.reformat year_text s) = Some dt) /\
  (1000 <= Datetime.year dt ->
   year_text (Datetime.year dt) = Py.str (Datetime.year dt) ->
   Datetime.strptime_long (Builder.reformat year_text s) = Some dt) /\
  (Datetime.year dt < 1000 ->
   year_text (Datetime.year dt) = Py.str (Datetime.year dt) ->
   Datetime.strptime_long (Builder.reformat year_text s) = None).
Proof.
  intros E. pose proof (RecordsFacts.strptime_iso_valid _ _ E) as V.
  unfold Builder.reformat. rewrite E. repeat split.
  - intros P. now apply UnpaddedFacts.strptime_strftime_padded.
  - intros Hy P. apply UnpaddedFacts.strptime_strftime_padded; [exact V|].
    now rewrite UnpaddedFacts.year_pad4_from_1000.
  - intros Hy P. now apply UnpaddedFacts.strptime_strftime_unpadded.
Qed.

Lemma reformat_round_trip_witness :
  Datetime.strptime_iso "2024-02-29" = Some (Datetime.mkdt 2024 2 29) /\
  Builder.reformat Datetime.year_plain "2024-02-29" = "February 29, 2024" /\
  Datetime.strptime_long (Builder.reformat Datetime.year_plain "2024-02-29")
  = Some (Datetime.mkdt 2024 2 29) /\
  Datetime.strptime_iso "0999-01-05" = Some (Datetime.mkdt 999 1 5) /\
  Builder.reformat Datetime.year_plain "0999-01-05" = "January 05, 999" /\
  Datetime.strptime_long (Builder.reformat Datetime.year_plain "0999-01-05") = None /\
  Builder.reformat Datetime.year_pad4 "0999-01-05" = "January 05, 0999" /\
  Datetime.strptime_long (Builder.reformat Datetime.year_pad4 "0999-01-05")
  = Some (Datetime.mkdt 999 1 5).
Proof.
  assert (E1 : Datetime.strptime_iso "2024-02-29" = Some (Datetime.mkdt 2024 2 29))
    by reflexivity.
  assert (E2 : Datetime.strptime_iso "0999-01-05" = Some (Datetime.mkdt 999 1 5))
    by reflexivity.
  split; [exact E1|]. split; [reflexivity|]. split.
  { apply (proj1 (proj2 (reformat_round_trip Datetime.year_plain _ _ E1)));
      [vm_compute; lia | reflexivity]. }
  split; [exact E2|]. split; [reflexivity|]. split.
  { apply (proj2 (proj2 (reformat_round_trip Datetime.year_plain _ _ E2)));
      [vm_compute; lia | reflexivity]. }
  split; [reflexivity|].
  apply (proj1 (reformat_round_trip Datetime.year_pad4 _ _ E2)). reflexivity.
Defined.

(** X8: every written record is the record of a source puzzle; when
    that puzzle's date is a valid ISO date the record's sort key is that
    date if the year is written in four digits, as is every year from
    1000 on, and it is [datetime.min] if the year is written unpadded
    and is below 1000. *)
Theorem record_key_is_source_date
  (year_text : nat -> string) (rng : nat -> nat) (root : ET.Element) (k : nat)
  (p : ET.Element) :
  In p (Builder.records year_text rng (Some root) k) ->
  exists s,
    In s (ET.findall root "puzzle") /\
    Builder.record_of year_text rng s p /\
    forall dt,
      Datetime.strptime_iso (ET.get_or s "date" "") = Some dt ->
      (year_text (Datetime.year dt) = Datetime.year_pad4 (Datetime.year dt) ->
       Builder.iso_key p = dt) /\
      (1000 <= Datetime.year dt ->
       year_text (Datetime.year dt) = Py.str (Datetime.year dt) ->
       Builder.iso_key p = dt) /\
      (Datetime.year dt < 1000 ->
       year_text (Datetime.year dt) = Py.str (Datetime.year dt) ->
       Builder.iso_key p = Datetime.min).
Proof.
  intros Hp.
  destruct (BuilderFacts.records_source _ _ _ _ _ Hp) as (s & Hs & k' & W).
  exists s. split; [exact Hs|]. split; [now exists k'|].
  intros dt E. pose proof (RecordsFacts.strptime_iso_valid _ _ E) as V.
  rewrite (BuilderFacts.written_as_key _ _ W).
  unfold Builder.iso_key, ET.get_or.
  rewrite BuilderFacts.transform_date.
  unfold Builder.reformat. rewrite E. repeat split.
  - intros P. now rewrite UnpaddedFacts.strptime_strftime_padded.
  - intros Hy P. rewrite UnpaddedFacts.strptime_strftime_padded; [reflexivity | exact V|].
    now rewrite UnpaddedFacts.year_pad4_from_1000.
  - intros Hy P. now rewrite UnpaddedFacts.strptime_strftime_unpadded.
Qed.

Lemma record_key_is_source_date_witness :
  In Samples.old_record
     (Builder.records Datetime.year_plain Samples.counting (Some Samples.old_dates) 0) /\
  map (fun p => ET.get_or p "date" "")
      (Builder.records Datetime.year_plain Samples.counting (Some Samples.old_dates) 0)
  = ["January 05, 999"; "January 05, 998"; "March 01, 2024"] /\
  exists s,
    In s (ET.findall Samples.old_dates "puzzle") /\
    Builder.record_of Datetime.year_plain Samples.counting s Samples.old_record /\
    forall dt,
      Datetime.strptime_iso (ET.get_or s "date" "") = Some dt ->
      (Datetime.year_plain (Datetime.year dt) = Datetime.year_pad4 (Datetime.year dt) ->
       Builder.iso_key Samples.old_record = dt) /\
      (1000 <= Datetime.year dt ->
       Datetime.year_plain (Datetime.year dt) = Py.str (Datetime.year dt) ->
       Builder.iso_key Samples.old_record = dt) /\
      (Datetime.year dt < 1000 ->
       Datetime.year_plain (Datetime.year dt) = Py.str (Datetime.year dt) ->
       Builder.iso_key Samples.old_record = Datetime.min).
Proof.
  assert (H : In Samples.old_record
                 (Builder.records Datetime.year_plain Samples.counting
                                  (Some Samples.old_dates) 0))
    by (vm_compute; left; reflexivity).
  split; [exact H|]. split; [reflexivity|].
  exact (record_key_is_source_date Datetime.year_plain Samples.counting
           Samples.old_dates 0 _ H).
Defined.

(** X9: reformatting a date twice is the same as once: a long-form date
    is not an ISO date, so a date already in display form, like any
    other text that is not an ISO date, is kept as it is. *)
Theorem reformat_idempotent (year_text : nat -> string) (s : string) :
  Builder.reformat year_text (Builder.reformat year_text s)
  = Builder.reformat year_text s.
Proof.
  unfold Builder.reformat at 2 3.
  destruct (Datetime.strptime_iso s) as [dt|] eqn:E.
  - unfold Builder.reformat.
    rewrite RecordsFacts.strptime_iso_long; [reflexivity|].
    now apply RecordsFacts.strptime_iso_valid in E.
  - unfold Builder.reformat. now rewrite E.
Qed.

(** X10: the display dates of the written records are those of the
    source puzzles, reformatted, each as often: the sort loses no
    puzzle and adds none. *)
Theorem records_dates_permutation
  (year_text : nat -> string) (rng : nat -> nat) (root : ET.Element) (k : nat) :
  Permutation
    (map (fun p => ET.get p "date") (Builder.records year_text rng (Some root) k))
    (map (fun s => Some (Builder.reformat year_text (ET.get_or s "date" "")))
         (ET.findall root "puzzle")).
Proof.
  rewrite (RecordsFacts.written_dates _ _
             (BuilderFacts.records_written_as year_text rng root k)).
  rewrite <- (RecordsFacts.transformed_dates year_text rng root k).
  apply Permutation_map. apply SortedFacts.sorted_Permutation.
Qed.

(** X11: a written record is a [puzzle] element that carries the
    reformatted date and the [url], [puzzleid] and [letters] of its
    source puzzle, each the empty text when the source lacks it; apart
    from the flag it has no other attribute, whatever the source had. *)
Theorem record_attributes
  (year_text : nat -> string) (rng : nat -> nat) (root : ET.Element) (k : nat)
  (p : ET.Element) :
  In p (Builder.records year_text rng (Some root) k) ->
  exists s,
    In s (ET.findall root "puzzle") /\
    ET.tag p = "puzzle" /\
    ET.get p "date" = Some (Builder.reformat year_text (ET.get_or s "date" "")) /\
    (forall key, In key ["url"; "puzzleid"; "letters"] ->
                 ET.get p key = Some (ET.get_or s key "")) /\
    (forall key, ~ In key ("subscribersonly" :: Records.copied) ->
                 ET.get p key = None).
Proof.
  intros Hp.
  destruct (BuilderFacts.records_source _ _ _ _ _ Hp) as (s & Hs & k' & W).
  exists s. split; [exact Hs|].
  assert (G : forall key, key <> "subscribersonly" ->
                ET.get p key
                = ET.dict_get [("date", Builder.reformat year_text (ET.get_or s "date" ""));
                               ("url", ET.get_or s "url" "");
                               ("puzzleid", ET.get_or s "puzzleid" "");
                               ("letters", ET.get_or s "letters" "")] key).
  { intros key N. rewrite (RecordsFacts.written_as_get _ _ _ W N).
    unfold ET.get. now rewrite RecordsFacts.transform_attrib. }
  split.
  { destruct W as (flagged & tl & ->). cbv zeta.
    rewrite ETFacts.with_tail_tag, ETFacts.indent_tag.
    destruct flagged; apply RecordsFacts.transform_tag. }
  split; [now rewrite G by discriminate|].
  split.
  - intros key [<-|[<-|[<-|[]]]]; now rewrite G by discriminate.
  - intros key N. unfold Records.copied in N. cbn [In] in N.
    rewrite G by (intros ->; apply N; now left).
    cbn [ET.dict_get].
    repeat match goal with
           | |- context [String.eqb ?a key] =>
               destruct (String.eqb_spec a key) as [<-|?];
                 [exfalso; apply N; tauto|]
           end.
    reflexivity.
Qed.

Lemma record_attributes_witness :
  In Samples.sky_puzzle
     (Builder.records Datetime.year_pad4 Samples.counting
                      (Some Samples.three_dates) 0) /\
  ET.attrib Samples.sky_puzzle
  = [("date", "January 05, 2024"); ("url", ""); ("puzzleid", ""); ("letters", "")] /\
  exists s,
    In s (ET.findall Samples.three_dates "puzzle") /\
    ET.tag Samples.sky_puzzle = "puzzle" /\
    ET.get Samples.sky_puzzle "date"
    = Some (Builder.reformat Datetime.year_pad4 (ET.get_or s "date" "")) /\
    (forall key, In key ["url"; "puzzleid"; "letters"] ->
                 ET.get Samples.sky_puzzle key = Some (ET.get_or s key "")) /\
    (forall key, ~ In key ("subscribersonly" :: Records.copied) ->
                 ET.get Samples.sky_puzzle key = None).
Proof.
  assert (H : In Samples.sky_puzzle
                 (Builder.records Datetime.year_pad4 Samples.counting
                                  (Some Samples.three_dates) 0))
    by (vm_compute; left; reflexivity).
  split; [exact H|]. split; [reflexivity|].
  exact (record_attributes Datetime.year_pad4 Samples.counting
           Samples.three_dates 0 _ H).
Defined.

(** X12: the children of a written record are the letter elements
    [letter1] to [letter7] that its source puzzle has with a text, in
    that order, followed by one [words] element without attributes that
    holds one childless [word] record for each word of the source
    puzzle. *)
Theorem record_children
  (year_text : nat -> string) (rng : nat -> nat) (root : ET.Element) (k : nat)
  (p : ET.Element) :
  In p (Builder.records year_text rng (Some root) k) ->
  exists s letters ws,
    In s (ET.findall root "puzzle") /\
    ET.children p = letters ++ [ws] /\
    map ET.tag letters
    = map (fun i => ("letter" ++ Py.str i)%string)
          (filter (Records.has_letter s) (List.seq 1 7)) /\
    ET.tag ws = "words" /\ ET.attrib ws = [] /\
    length (ET.children ws) = length (ET.findall s "word") /\
    Forall (fun wd => ET.tag wd = "word" /\ ET.children wd = []) (ET.children ws).
Proof.
  intros Hp.
  destruct (BuilderFacts.records_source _ _ _ _ _ Hp) as (s & Hs & k' & W).
  rewrite (RecordsFacts.written_as_children _ _ W).
  rewrite BuilderFacts.transform_children, ETFacts.indent_children_snoc.
  exists s. eexists. eexists. split; [exact Hs|]. split; [reflexivity|].
  split.
  { rewrite map_map. rewrite <- RecordsFacts.copy_letter_tags.
    apply map_ext. intros c. now rewrite ETFacts.with_tail_tag, ETFacts.indent_tag. }
  split; [now rewrite ETFacts.with_tail_tag, ETFacts.indent_tag|]. split.
  { change (ET.attrib (ET.with_tail ?t ?e)) with (ET.attrib e).
    now rewrite ETFacts.indent_attrib. }
  change (ET.children (ET.with_tail ?t ?e)) with (ET.children e).
  rewrite ETFacts.indent_children_eq. cbn [ET.children].
  split.
  { rewrite ETFacts.indent_children_length. apply BuilderFacts.for_each_length. }
  apply Forall_forall. intros wd Hwd.
  apply ETFacts.In_indent_children in Hwd as (c & tl & Hc & ->).
  destruct (ETFacts.Forall2_in_r _ _ _ _
              (BuilderFacts.for_each_Forall2 (Builder.word_element rng) _ k') Hc)
    as (w & Hw & k2 & ->).
  rewrite ETFacts.with_tail_tag, ETFacts.indent_tag.
  change (ET.children (ET.with_tail ?t ?e)) with (ET.children e).
  rewrite ETFacts.indent_children_eq.
  unfold Builder.word_element, Random.bind.
  destruct (Builder.word_attrs rng w k2). split; reflexivity.
Qed.

Lemma record_children_witness :
  In Samples.sky_puzzle
     (Builder.records Datetime.year_pad4 Samples.counting
                      (Some Samples.three_dates) 0) /\
  map ET.tag (ET.children Samples.sky_puzzle) = ["words"] /\
  exists s letters ws,
    In s (ET.findall Samples.three_dates "puzzle") /\
    ET.children Samples.sky_puzzle = letters ++ [ws] /\
    map ET.tag letters
    = map (fun i => ("letter" ++ Py.str i)%string)
          (filter (Records.has_letter s) (List.seq 1 7)) /\
    ET.tag ws = "words" /\ ET.attrib ws = [] /\
    length (ET.children ws) = length (ET.findall s "word") /\
    Forall (fun wd => ET.tag wd = "word" /\ ET.children wd = []) (ET.children ws).
Proof.
  assert (H : In Samples.sky_puzzle
                 (Builder.records Datetime.year_pad4 Samples.counting
                                  (Some Samples.three_dates) 0))
    by (vm_compute; left; reflexivity).
  split; [exact H|]. split; [reflexivity|].
  exact (record_children Datetime.year_pad4 Samples.counting
           Samples.three_dates 0 _ H).
Defined.

(** X13: in every word record written, [original] is in upper case and
    has no blank at either end, [scrambled] is an arrangement of the
    characters of [original], in upper case too, and [length] is the
    number of characters of [scrambled] as well. *)
Theorem word_record_normalised
  (year_text : nat -> string) (rng : nat -> nat) (root : ET.Element) (k : nat)
  (p ws wd : ET.Element) :
  In p (Builder.records year_text rng (Some root) k) ->
  In ws (ET.children p) -> ET.tag ws = "words" -> In wd (ET.children ws) ->
  exists original scrambled,
    ET.get wd "original" = Some original /\
    ET.get wd "scrambled" = Some scrambled /\
    Py.upper original = original /\ Py.strip original = original /\
    Py.upper scrambled = scrambled /\
    Permutation (Py.chars scrambled) (Py.chars original) /\
    ET.get wd "length" = Some (Py.str (Py.len scrambled)).
Proof.
  intros Hp Hws Tws Hwd.
  destruct (BuilderFacts.records_words year_text rng root k p ws wd Hp Hws Tws Hwd)
    as (s & w & k' & Hs & Hw & _ & Ea).
  unfold ET.get. rewrite Ea. clear.
  unfold Builder.word_element, Builder.word_attrs, Random.bind.
  set (txt := Py.strip (Py.upper match ET.text w with Some t => t | None => "" end)).
  assert (U : Py.upper txt = txt).
  { unfold txt. now rewrite <- StripFacts.upper_strip, CaseFacts.upper_idem. }
  pose proof (ScramblerFacts.scramble_word_Permutation rng txt k') as P.
  rewrite U in P.
  destruct (Scrambler.scramble_word rng txt k') as [scrambled k2].
  cbn [fst] in P.
  cbn [fst Random.ret ET.new ET.attrib ET.dict_get String.eqb Ascii.eqb Bool.eqb].
  exists txt, scrambled. repeat split.
  - exact U.
  - apply StripFacts.strip_idem.
  - apply CaseFacts.upper_fixed. eapply Permutation_Forall; [symmetry; exact P|].
    now apply CaseFacts.upper_fixed.
  - exact P.
  - do 2 f_equal. rewrite !PyFacts.len_chars. symmetry. now apply Permutation_length.
Qed.

Lemma word_record_normalised_witness :
  In Samples.sky_puzzle
     (Builder.records Datetime.year_pad4 Samples.counting
                      (Some Samples.three_dates) 0) /\
  In Samples.sky_words (ET.children Samples.sky_puzzle) /\
  ET.tag Samples.sky_words = "words" /\
  In Samples.sky_word (ET.children Samples.sky_words) /\
  exists original scrambled,
    ET.get Samples.sky_word "original" = Some original /\
    ET.get Samples.sky_word "scrambled" = Some scrambled /\
    Py.upper original = original /\ Py.strip original = original /\
    Py.upper scrambled = scrambled /\
    Permutation (Py.chars scrambled) (Py.chars original) /\
    ET.get Samples.sky_word "length" = Some (Py.str (Py.len scrambled)).
Proof.
  assert (H1 : In Samples.sky_puzzle
                  (Builder.records Datetime.year_pad4 Samples.counting
                                   (Some Samples.three_dates) 0))
    by (vm_compute; left; reflexivity).
  assert (H2 : In Samples.sky_words (ET.children Samples.sky_puzzle))
    by (vm_compute; left; reflexivity).
  assert (H3 : ET.tag Samples.sky_words = "words") by reflexivity.
  assert (H4 : In Samples.sky_word (ET.children Samples.sky_words))
    by (vm_compute; left; reflexivity).
  repeat (split; [assumption|]).
  exact (word_record_normalised Datetime.year_pad4 Samples.counting
           Samples.three_dates 0 _ _ _ H1 H2 H3 H4).
Defined.

(** X14: when the source puzzles all have valid ISO dates whose years
    are written in four digits, as every year from 1000 on is, and they
    stand in ascending order of their dates, the records are written in
    the order of the source, each with its date in long form. *)
Theorem sorted_archive_keeps_order
  (year_text : nat -> string) (rng : nat -> nat) (root : ET.Element) (k : nat)
  (dates : list Datetime.datetime) :
  map (fun s => Datetime.strptime_iso (ET.get_or s "date" "")) (ET.findall root "puzzle")
  = map Some dates ->
  Forall (fun dt => year_text (Datetime.year dt)
                    = Datetime.year_pad4 (Datetime.year dt)) dates ->
  StronglySorted (fun a b => Datetime.ltb b a = false) dates ->
  Forall2 (Builder.record_of year_text rng)
          (ET.findall root "puzzle")
          (Builder.records year_text rng (Some root) k) /\
  map (fun p => ET.get p "date") (Builder.records year_text rng (Some root) k)
  = map (fun dt => Some (Datetime.strftime_long year_text dt)) dates.
Proof.
  intros Ed Pad S.
  pose proof (RecordsFacts.transformed_Forall2 year_text rng root k) as F.
  assert (K : map Builder.iso_key (Builder.transformed year_text rng root k)
              = dates).
  { revert dates Ed Pad S.
    induction F as [|s x l l' (k' & ->) F IH]; intros dates Ed Pad S.
    - now destruct dates.
    - destruct dates as [|dt dates]; [discriminate|].
      cbn [map] in Ed. injection Ed as E0 Ed. cbn [map].
      apply Forall_cons_iff in Pad as [P0 Pad]. f_equal.
      + unfold Builder.iso_key, ET.get_or.
        rewrite BuilderFacts.transform_date. unfold Builder.reformat. rewrite E0.
        rewrite UnpaddedFacts.strptime_strftime_padded; [reflexivity| |exact P0].
        now apply RecordsFacts.strptime_iso_valid in E0.
      + apply IH; [exact Ed | exact Pad |]. now apply StronglySorted_inv in S. }
  assert (Same : Builtins.sorted Builder.iso_key Datetime.ltb
                   (Builder.transformed year_text rng root k)
                 = Builder.transformed year_text rng root k).
  { apply RecordsFacts.sorted_of_sorted. unfold Builtins.le_key.
    apply (RecordsFacts.StronglySorted_map Builder.iso_key
             (fun a b => Datetime.ltb b a = false)).
    now rewrite K. }
  pose proof (BuilderFacts.records_written_as year_text rng root k) as W.
  rewrite Same in W.
  split.
  - clear -F W.
    revert W. generalize (Builder.records year_text rng (Some root) k).
    induction F as [|s x l l' (k' & ->) F IH]; intros recs W.
    + inversion W. constructor.
    + inversion W as [|? p ? recs' Wp W']; subst. constructor.
      * now exists k'.
      * now apply IH.
  - rewrite (RecordsFacts.written_dates _ _ W).
    rewrite RecordsFacts.transformed_dates.
    clear -Ed. revert dates Ed.
    induction (ET.findall root "puzzle") as [|s l IH]; intros [|dt dates] Ed;
      try discriminate; [reflexivity|].
    cbn [map] in *. injection Ed as E0 Ed. f_equal; [|now apply IH].
    unfold Builder.reformat. now rewrite E0.
Qed.

Lemma sorted_archive_keeps_order_witness :
  map (fun p => ET.get p "date")
      (Builder.records Datetime.year_plain Samples.counting (Some Samples.in_order) 0)
  = [Some "January 05, 2024"; Some "February 10, 2024"] /\
  Forall2 (Builder.record_of Datetime.year_plain Samples.counting)
          (ET.findall Samples.in_order "puzzle")
          (Builder.records Datetime.year_plain Samples.counting
                           (Some Samples.in_order) 0).
Proof.
  assert (Ed : map (fun s => Datetime.strptime_iso (ET.get_or s "date" ""))
                   (ET.findall Samples.in_order "puzzle")
               = map Some [Datetime.mkdt 2024 1 5; Datetime.mkdt 2024 2 10])
    by reflexivity.
  assert (Pad : Forall (fun dt => Datetime.year_plain (Datetime.year dt)
                                  = Datetime.year_pad4 (Datetime.year dt))
                  [Datetime.mkdt 2024 1 5; Datetime.mkdt 2024 2 10])
    by (repeat constructor).
  assert (S : StronglySorted (fun a b => Datetime.ltb b a = false)
                [Datetime.mkdt 2024 1 5; Datetime.mkdt 2024 2 10])
    by (repeat constructor).
  destruct (sorted_archive_keeps_order Datetime.year_plain Samples.counting
              Samples.in_order 0 _ Ed Pad S) as [F D].
  split; [exact D | exact F].
Defined.

(** X27: the letter elements of a written record hold the texts of the
    source puzzle's letter elements, the first of each tag, a text that
    is all whitespace being written as an empty one; they have no
    attributes and no children. *)
Theorem record_letters
  (year_text : nat -> string) (rng : nat -> nat) (root : ET.Element) (k : nat)
  (p : ET.Element) :
  In p (Builder.records year_text rng (Some root) k) ->
  exists s letters ws,
    In s (ET.findall root "puzzle") /\
    ET.children p = letters ++ [ws] /\
    map Layout.content letters
    = map (fun i => ET.mkElement ("letter" ++ Py.str i)%string []
                      (Records.letter_text s i) None [])
          (filter (Records.has_letter s) (List.seq 1 7)).
Proof.
  intros Hp.
  destruct (BuilderFacts.records_source _ _ _ _ _ Hp) as (s & Hs & k' & W).
  rewrite (RecordsFacts.written_as_children _ _ W).
  rewrite BuilderFacts.transform_children, ETFacts.indent_children_snoc.
  exists s. eexists. eexists. split; [exact Hs|]. split; [reflexivity|].
  rewrite map_map.
  induction (List.seq 1 7) as [|i l IH]; [reflexivity|].
  cbn [flat_map filter]. rewrite map_app, IH.
  rewrite RecordsFacts.copy_letter_has. unfold Records.letter_text.
  destruct (Records.has_letter s i) eqn:E; [|reflexivity].
  cbn [map app]. f_equal.
  rewrite LayoutFacts.content_with_tail, LayoutFacts.content_indent.
  unfold Records.has_letter in E.
  destruct (ET.find s ("letter" ++ Py.str i)) as [orig|]; [|discriminate].
  reflexivity.
Qed.

Lemma record_letters_witness :
  In Samples.lettered_record
     (Builder.records Datetime.year_pad4 Samples.counting (Some Samples.lettered) 0) /\
  map (fun c => (ET.tag c, ET.text c)) (ET.children Samples.lettered_record)
  = [("letter1", Some "a"); ("letter3", Some ""); ("words", Some (ET.newline ++ "      ")%string)] /\
  exists s letters ws,
    In s (ET.findall Samples.lettered "puzzle") /\
    ET.children Samples.lettered_record = letters ++ [ws] /\
    map Layout.content letters
    = map (fun i => ET.mkElement ("letter" ++ Py.str i)%string []
                      (Records.letter_text s i) None [])
          (filter (Records.has_letter s) (List.seq 1 7)).
Proof.
  assert (H : In Samples.lettered_record
                 (Builder.records Datetime.year_pad4 Samples.counting
                                  (Some Samples.lettered) 0))
    by (vm_compute; left; reflexivity).
  split; [exact H|]. split; [reflexivity|].
  exact (record_letters Datetime.year_pad4 Samples.counting Samples.lettered 0 _ H).
Defined.

(* ================================================================== *)
(** ** The fetcher: failures, output and the appended record *)
(* ================================================================== *)

(** X15: with an archive file that is absent or holds a well-formed
    tree, and that can be read and written (the worlds of this model), a
    run that ends with an exception ends with the exception of the
    fetch, after one request, and leaves the archive and the output as
    they were: nothing is written or printed by such a run. *)
Theorem main_failure_leaves_archive
  (http_get : nat -> Harvest.response)
  (script_strings : string -> list (option string))
  (json_loads : string -> option Harvest.json)
  (d : string) (w : Harvest.world) (e : Harvest.exn) :
  fst (Harvest.main http_get script_strings json_loads d w) = Harvest.Raise e ->
  fst (Harvest.fetch_today_words http_get script_strings json_loads w)
  = Harvest.Raise e /\
  snd (Harvest.main http_get script_strings json_loads d w)
  = Harvest.mkWorld (Harvest.xml_file w) (S (Harvest.requests w)) (Harvest.stdout w).
Proof.
  intros H.
  destruct (Nat.eq_dec (Harvest.count_date d w) 0) as [Z|NZ].
  - assert (A : ~ Harvest.present d w)
      by (rewrite HarvestFacts.present_count; lia).
    rewrite (HarvestFacts.main_absent _ _ _ d w A) in H |- *.
    pose proof (HarvestFacts.fetch_today_words_world http_get script_strings
                  json_loads w) as F.
    destruct (Harvest.fetch_today_words http_get script_strings json_loads w)
      as [[[|x l]|e'] w']; cbn [fst snd] in *; try discriminate.
    injection H as ->. split; [reflexivity | exact F].
  - assert (P : Harvest.present d w)
      by (rewrite HarvestFacts.present_count; lia).
    rewrite (HarvestFacts.main_present _ _ _ d w P) in H. discriminate.
Qed.

Lemma main_failure_leaves_archive_witness :
  fst (Harvest.main Samples.failing_site Samples.one_script Samples.read_json
                    "2024-01-05" Samples.fresh)
  = Harvest.Raise (Harvest.HTTPError 503) /\
  snd (Harvest.main Samples.failing_site Samples.one_script Samples.read_json
                    "2024-01-05" Samples.fresh)
  = Harvest.mkWorld None 1 [].
Proof.
  assert (H : fst (Harvest.main Samples.failing_site Samples.one_script
                     Samples.read_json "2024-01-05" Samples.fresh)
              = Harvest.Raise (Harvest.HTTPError 503)) by reflexivity.
  split; [exact H|].
  exact (proj2 (main_failure_leaves_archive Samples.failing_site Samples.one_script
                  Samples.read_json "2024-01-05" Samples.fresh _ H)).
Defined.

(** X16: a run sends at most one request; when it ends normally it has
    printed exactly one line, and when it ends with an exception it has
    printed none. *)
Theorem main_prints_one_line
  (http_get : nat -> Harvest.response)
  (script_strings : string -> list (option string))
  (json_loads : string -> option Harvest.json)
  (d : string) (w : Harvest.world) :
  let after := Harvest.main http_get script_strings json_loads d w in
  Harvest.requests w <= Harvest.requests (snd after) <= S (Harvest.requests w) /\
  match fst after with
  | Harvest.Ok _ =>
      exists line, Harvest.stdout (snd after) = Harvest.stdout w ++ [line]
  | Harvest.Raise _ => Harvest.stdout (snd after) = Harvest.stdout w
  end.
Proof.
  cbv zeta.
  destruct (Nat.eq_dec (Harvest.count_date d w) 0) as [Z|NZ].
  - assert (A : ~ Harvest.present d w)
      by (rewrite HarvestFacts.present_count; lia).
    rewrite (HarvestFacts.main_absent _ _ _ d w A).
    pose proof (HarvestFacts.fetch_today_words_world http_get script_strings
                  json_loads w) as F.
    destruct (Harvest.fetch_today_words http_get script_strings json_loads w)
      as [[[|x l]|e'] w']; cbn [fst snd] in *;
      subst w'; cbn [Harvest.requests Harvest.stdout]; (split; [lia|]);
      try (eexists; reflexivity); reflexivity.
  - assert (P : Harvest.present d w)
      by (rewrite HarvestFacts.present_count; lia).
    rewrite (HarvestFacts.main_present _ _ _ d w P).
    cbn [fst snd Harvest.requests Harvest.stdout]. split; [lia|].
    eexists; reflexivity.
Qed.

(** X17: when no record for the day is there and the site answers with
    a status from 400 to 599, the run ends with [HTTPError] for that
    status after the one request, before anything is parsed, written or
    printed. *)
Theorem main_http_error
  (http_get : nat -> Harvest.response)
  (script_strings : string -> list (option string))
  (json_loads : string -> option Harvest.json)
  (d : string) (w : Harvest.world) (status : nat) (text : string) :
  ~ Harvest.present d w ->
  http_get (Harvest.requests w) = Harvest.Response status text ->
  400 <= status < 600 ->
  Harvest.main http_get script_strings json_loads d w
  = (Harvest.Raise (Harvest.HTTPError status),
     Harvest.mkWorld (Harvest.xml_file w) (S (Harvest.requests w)) (Harvest.stdout w)).
Proof.
  intros A E Hs. rewrite (HarvestFacts.main_absent _ _ _ d w A).
  unfold Harvest.fetch_today_words, Harvest.bind, Harvest.get_page. rewrite E.
  destruct (Nat.leb_spec 400 status); [|lia].
  destruct (Nat.ltb_spec status 600); [|lia].
  reflexivity.
Qed.

Lemma main_http_error_witness :
  ~ Harvest.present "2024-01-05" Samples.fresh /\
  Harvest.main Samples.failing_site Samples.one_script Samples.read_json
               "2024-01-05" Samples.fresh
  = (Harvest.Raise (Harvest.HTTPError 503), Harvest.mkWorld None 1 []).
Proof.
  assert (A : ~ Harvest.present "2024-01-05" Samples.fresh)
    by (rewrite HarvestFacts.present_count; vm_compute; lia).
  split; [exact A|].
  refine (main_http_error Samples.failing_site Samples.one_script Samples.read_json
            "2024-01-05" Samples.fresh 503 "Service Unavailable" A eq_refl _).
  lia.
Defined.

(** X18: when the page is there and none of its scripts mentions
    [window.gameData], the fetch ends with the [RuntimeError] of line
    43. *)
Theorem fetch_without_game_data
  (http_get : nat -> Harvest.response)
  (script_strings : string -> list (option string))
  (json_loads : string -> option Harvest.json)
  (w : Harvest.world) (status : nat) (text : string) :
  http_get (Harvest.requests w) = Harvest.Response status text ->
  status < 400 \/ 600 <= status ->
  (forall s, In (Some s) (script_strings text) ->
             PyZ.contains "window.gameData" s = false) ->
  fst (Harvest.fetch_today_words http_get script_strings json_loads w)
  = Harvest.Raise (Harvest.RuntimeError "Cannot find gameData in page").
Proof.
  intros E Hs N.
  unfold Harvest.fetch_today_words, Harvest.bind, Harvest.get_page. rewrite E.
  replace ((400 <=? status) && (status <? 600)) with false.
  - now rewrite (FetchFacts.first_script_none _ N).
  - symmetry. apply andb_false_iff.
    destruct Hs; [left; apply Nat.leb_gt; lia | right; apply Nat.ltb_ge; lia].
Qed.

Lemma fetch_without_game_data_witness :
  PyZ.contains "window.gameData" "var x = {a:1};" = false /\
  fst (Harvest.fetch_today_words Samples.plain_site Samples.one_script
         Samples.read_json Samples.fresh)
  = Harvest.Raise (Harvest.RuntimeError "Cannot find gameData in page").
Proof.
  split; [reflexivity|].
  refine (fetch_without_game_data Samples.plain_site Samples.one_script
            Samples.read_json Samples.fresh 200 "var x = {a:1};" eq_refl _ _).
  - left. lia.
  - intros s [E|[]]. injection E as <-. reflexivity.
Defined.

(** X19: with an archive file that is absent or holds a well-formed
    tree, [append_puzzle] returns normally and writes a tree that has,
    at every depth, the tags, the attributes, the children and the texts
    that are not blank of the archive it found (an empty [spelling_bees]
    when there was none), with one more child at the end: a [puzzle]
    with the date and one [word] for each word given, in order, a word
    that is all whitespace being stored as a blank text.  Tails are not
    kept: [indent] lays all of them out again. *)
Theorem append_puzzle_content (d : string) (words : list string) (w : Harvest.world) :
  let root0 := match Harvest.xml_file w with
               | Some root => root
               | None => ET.new "spelling_bees" []
               end in
  exists root',
    Harvest.append_puzzle d words w
    = (Harvest.Ok tt,
       Harvest.mkWorld (Some root') (Harvest.requests w) (Harvest.stdout w)) /\
    Layout.content root'
    = ET.mkElement (ET.tag root0) (ET.attrib root0)
        (if ET.blank (ET.text root0) then None else ET.text root0) None
        (map Layout.content (ET.children root0)
         ++ [ET.mkElement "puzzle" [("date", d)] None None
               (map (fun t => ET.mkElement "word" []
                                (if ET.blank (Some t) then None else Some t) None [])
                    words)]).
Proof.
  cbv zeta. eexists. split; [reflexivity|].
  rewrite LayoutFacts.content_indent, LayoutFacts.content_unfold.
  unfold ET.append.
  destruct (match Harvest.xml_file w with
            | Some root => root
            | None => ET.new "spelling_bees" []
            end) as [t a x tl cs].
  cbn [ET.with_children ET.tag ET.attrib ET.text ET.tail ET.children].
  f_equal. rewrite map_app. f_equal. cbn [map Layout.content]. do 2 f_equal.
  rewrite map_map. reflexivity.
Qed.

(** X20: [append_puzzle] does not look for a record of the day: it adds
    one to the number of records for its date, also when there are
    some, and leaves the number for every other date as it is. *)
Theorem append_puzzle_counts (d d' : string) (words : list string) (w : Harvest.world) :
  Harvest.count_date d' (snd (Harvest.append_puzzle d words w))
  = if String.eqb d d' then S (Harvest.count_date d' w) else Harvest.count_date d' w.
Proof.
  unfold Harvest.append_puzzle. cbn [snd].
  rewrite !HarvestFacts.count_date_eq. cbn [Harvest.xml_file].
  rewrite ETFacts.indent_children_eq.
  set (root0 := match Harvest.xml_file w with
                | Some root => root
                | None => ET.new "spelling_bees" []
                end).
  set (pz := ET.mkElement "puzzle" [("date", d)] None None
               (map (fun t => ET.mkElement "word" [] (Some t) None []) words)).
  rewrite (HarvestFacts.filter_same_shape d' _ (ET.children (ET.append root0 pz)))
    by (apply ETFacts.indent_children_tags || apply ETFacts.indent_children_attribs).
  unfold ET.append. cbn [ET.children ET.with_children].
  rewrite filter_app, length_app. cbn [filter].
  unfold Harvest.is_puzzle_of at 2. unfold pz at 1 2.
  cbn [ET.tag ET.get ET.attrib ET.dict_get].
  rewrite String.eqb_refl. cbn [andb].
  assert (E : length (filter (Harvest.is_puzzle_of d') (ET.children root0))
              = match Harvest.xml_file w with
                | Some root => length (filter (Harvest.is_puzzle_of d') (ET.children root))
                | None => 0
                end).
  { unfold root0. now destruct (Harvest.xml_file w). }
  rewrite E. change (String.eqb "date" "date") with true. cbv iota.
  destruct (String.eqb d d'); cbn [length]; lia.
Qed.

(** X21: when the script with the marker has an opening brace after
    which the depth never comes back to zero, the loop ends without
    binding [json_str] and the fetch ends with [UnboundLocalError]. *)
Theorem fetch_unclosed_object
  (http_get : nat -> Harvest.response)
  (script_strings : string -> list (option string))
  (json_loads : string -> option Harvest.json)
  (w : Harvest.world) (status : nat) (text pre post : string) :
  http_get (Harvest.requests w) = Harvest.Response status text ->
  status < 400 \/ 600 <= status ->
  Harvest.first_script (script_strings text) = Some (pre ++ String "{" post)%string ->
  (forall c, In c (Py.chars pre) -> c <> "{"%char) ->
  (forall p q, post = (p ++ q)%string -> (0 < 1 + Harvest.depth p)%Z) ->
  fst (Harvest.fetch_today_words http_get script_strings json_loads w)
  = Harvest.Raise Harvest.UnboundLocalError.
Proof.
  intros E Hs F NB Open.
  rewrite (FetchSteps.fetch_with_script _ _ _ _ _ _ _ E Hs F).
  rewrite (BraceFacts.extract_from_first_open pre post NB).
  now rewrite (FetchFacts.closing_none post 1 ltac:(lia) Open).
Qed.

Lemma fetch_unclosed_object_witness :
  Harvest.first_script
    (Samples.one_script "window.gameData = {today:{answers:[]}")
  = Some ("window.gameData = " ++ String "{" "today:{answers:[]}")%string /\
  fst (Harvest.fetch_today_words Samples.unclosed_site Samples.one_script
         Samples.read_json Samples.fresh)
  = Harvest.Raise Harvest.UnboundLocalError.
Proof.
  split; [reflexivity|].
  refine (fetch_unclosed_object Samples.unclosed_site Samples.one_script
            Samples.read_json Samples.fresh 200
            "window.gameData = {today:{answers:[]}"
            "window.gameData = " "today:{answers:[]}" eq_refl _ eq_refl _ _).
  - left. lia.
  - intros c H. cbn in H.
    repeat (destruct H as [<-|H]; [discriminate|]). contradiction.
  - exact (BraceFacts.closing_spec "today:{answers:[]}" 1 ltac:(lia)).
Defined.

(** X22: on a script with no opening brace [find] gives -1 and the loop
    starts on the last character: unless that is a closing brace the
    text extracted is empty, and when it is one nothing is extracted
    ([json_str] is never bound). *)
Theorem extract_no_brace (script : string) (last : ascii) :
  (forall c, In c (Py.chars script) -> c <> "{"%char) ->
  String.get (Py.len script - 1) script = Some last ->
  Harvest.extract script
  = Harvest.Ok (if Ascii.eqb last "}" then None else Some "").
Proof.
  intros NB L.
  assert (Hn : 0 < Py.len script).
  { destruct script; [discriminate | cbn; lia]. }
  unfold Harvest.extract, PyZ.find.
  rewrite (FetchFacts.index_no_open script NB).
  rewrite FetchFacts.range_from_minus_one. cbn [Harvest.scan].
  assert (G : PyZ.getitem script (-1) = Some last).
  { unfold PyZ.getitem. cbn [Z.ltb Z.compare].
    destruct (Z.leb_spec 0 (-1 + Z.of_nat (Py.len script))); [|lia].
    destruct (Z.ltb_spec (-1 + Z.of_nat (Py.len script)) (Z.of_nat (Py.len script)));
      [|lia].
    cbn [andb].
    replace (Z.to_nat (-1 + Z.of_nat (Py.len script))) with (Py.len script - 1) by lia.
    exact L. }
  rewrite G. unfold Harvest.step.
  destruct (Ascii.eqb_spec last "{") as [->|_].
  { elim (NB "{"%char); [|reflexivity].
    now apply (FetchFacts.get_In (Py.len script - 1)). }
  destruct (Ascii.eqb last "}").
  - cbn [Z.eqb Z.sub Z.add Z.opp Z.pos_sub].
    apply FetchFacts.scan_below; [exact NB | lia | unfold Py.len; lia].
  - cbn [Z.eqb]. change (-1 + 1)%Z with 0%Z.
    now rewrite FetchFacts.slice_to_zero.
Qed.

Lemma extract_no_brace_witness :
  String.get (Py.len "gameData = 1" - 1) "gameData = 1" = Some "1"%char /\
  Harvest.extract "gameData = 1" = Harvest.Ok (Some "").
Proof.
  split; [reflexivity|].
  refine (extract_no_brace "gameData = 1" "1" _ eq_refl).
  intros c H. cbn in H.
  repeat (destruct H as [<-|H]; [discriminate|]). contradiction.
Defined.

(** X23: when the game data is an object with no [today], or its
    [today] is an object with no [answers], the defaults of the two
    [get] calls give an empty word list and no exception. *)
Theorem fetch_missing_answers
  (http_get : nat -> Harvest.response)
  (script_strings : string -> list (option string))
  (json_loads : string -> option Harvest.json)
  (w : Harvest.world) (status : nat) (text script json_str : string)
  (members : ET.dict Harvest.json) :
  http_get (Harvest.requests w) = Harvest.Response status text ->
  status < 400 \/ 600 <= status ->
  Harvest.first_script (script_strings text) = Some script ->
  Harvest.extract script = Harvest.Ok (Some json_str) ->
  json_loads json_str = Some (Harvest.JObj members) ->
  (ET.dict_get members "today" = None \/
   exists today, ET.dict_get members "today" = Some (Harvest.JObj today) /\
                 ET.dict_get today "answers" = None) ->
  fst (Harvest.fetch_today_words http_get script_strings json_loads w) = Harvest.Ok [].
Proof.
  intros E Hs F X J M.
  rewrite (FetchSteps.fetch_with_script _ _ _ _ _ _ _ E Hs F), X, J.
  cbn [Harvest.json_get].
  destruct M as [->|(today & -> & A)].
  - reflexivity.
  - cbn [Harvest.json_get]. now rewrite A.
Qed.

Lemma fetch_missing_answers_witness :
  Harvest.extract "window.gameData = {}" = Harvest.Ok (Some "{}") /\
  fst (Harvest.fetch_today_words Samples.empty_object_site Samples.one_script
         Samples.read_empty_object Samples.fresh)
  = Harvest.Ok [].
Proof.
  assert (X : Harvest.extract "window.gameData = {}" = Harvest.Ok (Some "{}"))
    by (vm_compute; reflexivity).
  split; [exact X|].
  refine (fetch_missing_answers Samples.empty_object_site Samples.one_script
            Samples.read_empty_object Samples.fresh 200 "window.gameData = {}"
            "window.gameData = {}" "{}" [] eq_refl _ eq_refl X eq_refl _).
  - left. lia.
  - left. reflexivity.
Defined.

(** X24: when the game data holds a list of texts under [today] and
    [answers], the fetch returns them in their order, each in upper
    case, after one request and with the archive and the output
    untouched. *)
Theorem fetch_uppercases_answers
  (http_get : nat -> Harvest.response)
  (script_strings : string -> list (option string))
  (json_loads : string -> option Harvest.json)
  (w : Harvest.world) (status : nat) (text script json_str : string)
  (members today : ET.dict Harvest.json) (answers : list string) :
  http_get (Harvest.requests w) = Harvest.Response status text ->
  status < 400 \/ 600 <= status ->
  Harvest.first_script (script_strings text) = Some script ->
  Harvest.extract script = Harvest.Ok (Some json_str) ->
  json_loads json_str = Some (Harvest.JObj members) ->
  ET.dict_get members "today" = Some (Harvest.JObj today) ->
  ET.dict_get today "answers" = Some (Harvest.JArr (map Harvest.JStr answers)) ->
  Harvest.fetch_today_words http_get script_strings json_loads w
  = (Harvest.Ok (map Py.upper answers),
     Harvest.mkWorld (Harvest.xml_file w) (S (Harvest.requests w)) (Harvest.stdout w)).
Proof.
  intros E Hs F X J T A.
  rewrite (surjective_pairing (Harvest.fetch_today_words _ _ _ _)).
  rewrite HarvestFacts.fetch_today_words_world.
  rewrite (FetchSteps.fetch_with_script _ _ _ _ _ _ _ E Hs F), X, J.
  cbn [Harvest.json_get]. rewrite T. cbn [Harvest.json_get]. rewrite A.
  cbn [Harvest.uppercase_answers]. now rewrite FetchSteps.upper_all_texts.
Qed.

Lemma fetch_uppercases_answers_witness :
  Harvest.extract Samples.two_answers_page
  = Harvest.Ok (Some Samples.two_answers_json) /\
  Harvest.fetch_today_words Samples.two_answers_site Samples.one_script
    Samples.read_json Samples.fresh
  = (Harvest.Ok ["NOON"; "ONION"], Harvest.mkWorld None 1 []).
Proof.
  assert (X : Harvest.extract Samples.two_answers_page
              = Harvest.Ok (Some Samples.two_answers_json))
    by (vm_compute; reflexivity).
  split; [exact X|].
  refine (fetch_uppercases_answers Samples.two_answers_site Samples.one_script
            Samples.read_json Samples.fresh 200
            Samples.two_answers_page Samples.two_answers_page
            Samples.two_answers_json
            [("today",
              Harvest.JObj [("answers",
                             Harvest.JArr [Harvest.JStr "noon";
                                           Harvest.JStr "onion"])])]
            [("answers", Harvest.JArr [Harvest.JStr "noon"; Harvest.JStr "onion"])]
            ["noon"; "onion"] eq_refl _ eq_refl X eq_refl eq_refl eq_refl).
  left. lia.
Defined.

(** X25: when no record for the day is there and the fetch returns a
    word list that is not empty, the run ends normally, the archive is
    the one [append_puzzle] writes for the day and the words, the line
    printed reports the number of words, and a record for the day is
    then present, once. *)
Theorem main_appends
  (http_get : nat -> Harvest.response)
  (script_strings : string -> list (option string))
  (json_loads : string -> option Harvest.json)
  (d : string) (w w' : Harvest.world) (words : list string) :
  ~ Harvest.present d w ->
  Harvest.fetch_today_words http_get script_strings json_loads w
  = (Harvest.Ok words, w') ->
  words <> [] ->
  let after := Harvest.main http_get script_strings json_loads d w in
  fst after = Harvest.Ok tt /\
  Harvest.xml_file (snd after)
  = Harvest.xml_file (snd (Harvest.append_puzzle d words w)) /\
  Harvest.requests (snd after) = S (Harvest.requests w) /\
  Harvest.stdout (snd after)
  = Harvest.stdout w ++ ["Appended puzzle for " ++ d ++ " with "
                           ++ Py.str (length words) ++ " words."]%string /\
  Harvest.present d (snd after) /\
  Harvest.count_date d (snd after) = 1.
Proof.
  intros A F N. cbv zeta.
  pose proof (HarvestFacts.fetch_today_words_world http_get script_strings
                json_loads w) as W.
  rewrite F in W. cbn [snd] in W. subst w'.
  rewrite (HarvestFacts.main_absent _ _ _ d w A), F.
  destruct words as [|x l]; [contradiction|].
  cbn [fst snd Harvest.xml_file Harvest.requests Harvest.stdout].
  split; [reflexivity|]. split; [reflexivity|].
  split; [reflexivity|]. split; [reflexivity|].
  assert (C : Harvest.count_date d w = 0).
  { destruct (Nat.eq_dec (Harvest.count_date d w) 0) as [Z|NZ]; [exact Z|].
    elim A. apply HarvestFacts.present_count. lia. }
  assert (C1 : forall n out,
             Harvest.count_date d
               (Harvest.mkWorld
                  (Some (ET.indent 0
                     (ET.append
                        match Harvest.xml_file w with
                        | Some root => root
                        | None => ET.new "spelling_bees" []
                        end
                        (ET.mkElement "puzzle" [("date", d)] None None
                           (map (fun t => ET.mkElement "word" [] (Some t) None [])
                                (x :: l)))))) n out) = 1).
  { intros n out. rewrite HarvestFacts.count_after_append.
    f_equal. rewrite <- C. unfold Harvest.count_date. cbn [Harvest.xml_file].
    now destruct (Harvest.xml_file w). }
  split; [|apply C1].
  apply HarvestFacts.present_count. rewrite C1. lia.
Qed.

Lemma main_appends_witness :
  ~ Harvest.present "2024-01-05" Samples.fresh /\
  Harvest.fetch_today_words Samples.two_answers_site Samples.one_script
    Samples.read_json Samples.fresh
  = (Harvest.Ok ["NOON"; "ONION"], Harvest.mkWorld None 1 []) /\
  Harvest.stdout
    (snd (Harvest.main Samples.two_answers_site Samples.one_script
            Samples.read_json "2024-01-05" Samples.fresh))
  = ["Appended puzzle for 2024-01-05 with 2 words."] /\
  Harvest.count_date "2024-01-05"
    (snd (Harvest.main Samples.two_answers_site Samples.one_script
            Samples.read_json "2024-01-05" Samples.fresh)) = 1.
Proof.
  assert (A : ~ Harvest.present "2024-01-05" Samples.fresh)
    by (rewrite HarvestFacts.present_count; vm_compute; lia).
  assert (F : Harvest.fetch_today_words Samples.two_answers_site Samples.one_script
                Samples.read_json Samples.fresh
              = (Harvest.Ok ["NOON"; "ONION"], Harvest.mkWorld None 1 []))
    by (vm_compute; reflexivity).
  assert (N : ["NOON"; "ONION"] <> @nil string) by discriminate.
  destruct (main_appends Samples.two_answers_site Samples.one_script
              Samples.read_json "2024-01-05" Samples.fresh _ _ A F N)
    as (_ & _ & _ & O & _ & C).
  split; [exact A|]. split; [exact F|]. split; [exact O | exact C].
Defined.
